(** * Calorie tracker backend (backend/server.py): model and properties

    A shallow embedding of the request handlers of [backend/server.py]:
    the calorie-target calculator, the analysis normaliser, the meal-type
    update, the daily intake and the history aggregation.

    Python values are modelled as the interpreter has them: [int] as [Z],
    [float] as IEEE-754 binary64 (the primitive [float] of the kernel),
    [str] as [string], [dict] as an insertion-ordered association list,
    exceptions as an error result.  The MongoDB collections are lists of
    documents in natural order. *)

From Stdlib Require Import ZArith List String Ascii Bool Lia Floats Permutation Sorted.
Import ListNotations.

Set Warnings "-inexact-float,-register-all".

Local Open Scope string_scope.
Local Open Scope Z_scope.

(** ** Exceptions and the result monad *)

(** The exceptions the handlers can meet.  Every constructor stands for a
    subclass of Python's [Exception], so each is caught by a clause
    [except Exception]. *)
Inductive exn : Type :=
| HTTPException (status_code : Z) (detail : string)
| NameError (name : string)
| ZeroDivisionError
| OverflowError
| TypeError
| KeyError (key : string)
| AttributeError (attr : string)
| JSONDecodeError
| RecursionError
| ProviderError (msg : string).

Inductive res (A : Type) : Type :=
| Ok (a : A)
| Raise (e : exn).
Arguments Ok {A} a.
Arguments Raise {A} e.

Definition bind {A B : Type} (m : res A) (k : A -> res B) : res B :=
  match m with
  | Ok a => k a
  | Raise e => Raise e
  end.

Notation "x <- m ;; k" := (bind m (fun x => k))
  (at level 61, m at next level, right associativity).
Notation "' pat <- m ;; k" := (bind m (fun x => match x with pat => k end))
  (at level 61, pat pattern, m at next level, right associativity).

(** [try: m  except Exception as e: h e] *)
Definition try_except {A : Type} (m : res A) (h : exn -> res A) : res A :=
  match m with
  | Ok a => Ok a
  | Raise e => h e
  end.

Fixpoint mapM {A B : Type} (f : A -> res B) (l : list A) : res (list B) :=
  match l with
  | [] => Ok []
  | a :: l' => b <- f a ;; bs <- mapM f l' ;; Ok (b :: bs)
  end.

(** ** Python numbers *)

Inductive pynum : Type :=
| PInt (n : Z)
| PFloat (x : float).

(** The double nearest to an integer (ties to even); infinite when the
    integer is beyond the range of a double. *)
Definition Z_to_SF (n : Z) : spec_float := binary_normalize prec emax n 0 false.

Definition Z_to_float (n : Z) : float := SF2Prim (Z_to_SF n).

(** [float(n)] for an [int]: [OverflowError] when [n] is too large. *)
Definition int_to_float (n : Z) : res float :=
  match Z_to_SF n with
  | S754_infinity _ => Raise OverflowError
  | sf => Ok (SF2Prim sf)
  end.

(** The conversion Python applies to an operand of a float operation. *)
Definition as_float (a : pynum) : res float :=
  match a with
  | PInt n => int_to_float n
  | PFloat x => Ok x
  end.

Definition py_add (a b : pynum) : res pynum :=
  match a, b with
  | PInt m, PInt n => Ok (PInt (m + n))
  | _, _ => x <- as_float a ;; y <- as_float b ;; Ok (PFloat (x + y)%float)
  end.

Definition py_sub (a b : pynum) : res pynum :=
  match a, b with
  | PInt m, PInt n => Ok (PInt (m - n))
  | _, _ => x <- as_float a ;; y <- as_float b ;; Ok (PFloat (x - y)%float)
  end.

Definition py_mul (a b : pynum) : res pynum :=
  match a, b with
  | PInt m, PInt n => Ok (PInt (m * n))
  | _, _ => x <- as_float a ;; y <- as_float b ;; Ok (PFloat (x * y)%float)
  end.

(** [m / n] on two ints: the correctly rounded quotient. *)
Definition int_truediv (m n : Z) : res pynum :=
  if n =? 0 then Raise ZeroDivisionError
  else
    let s := xorb (m <? 0) (n <? 0) in
    let q :=
      if m =? 0 then S754_zero s
      else
        let '(mz, ez, lz) := SFdiv_core_binary prec emax (Z.abs m) 0 (Z.abs n) 0 in
        binary_round_aux prec emax s mz ez lz in
    match q with
    | S754_infinity _ => Raise OverflowError
    | sf => Ok (PFloat (SF2Prim sf))
    end.

(** [b == 0] *)
Definition py_is_zero (b : pynum) : bool :=
  match b with
  | PInt n => n =? 0
  | PFloat y => (y =? 0)%float
  end.

(** True division [a / b]: with a float operand both are converted, then
    a zero divisor is refused. *)
Definition py_truediv (a b : pynum) : res pynum :=
  match a, b with
  | PInt m, PInt n => int_truediv m n
  | _, _ =>
      x <- as_float a ;; y <- as_float b ;;
      if py_is_zero b then Raise ZeroDivisionError
      else Ok (PFloat (x / y)%float)
  end.

(** Comparison of an int with a float.  An int of at most 48 bits is
    converted to a double and the doubles are compared; a larger one is
    compared exactly with the value [(-1)^s * m * 2^e] of the float. *)
Definition small_int (n : Z) : bool := Z.abs n <? 2 ^ 48.

Definition cmp_int_sf (n : Z) (f : spec_float) : option comparison :=
  match f with
  | S754_nan => None
  | S754_infinity s => Some (if s then Gt else Lt)
  | S754_zero _ => Some (n ?= 0)
  | S754_finite s m e =>
      let v := cond_Zopp s (Zpos m) in
      Some (match e with
            | Zneg p => (n * 2 ^ Zpos p ?= v)
            | _ => (n ?= v * 2 ^ e)
            end)
  end.

(** [a < b] *)
Definition py_lt (a b : pynum) : bool :=
  match a, b with
  | PInt m, PInt n => m <? n
  | PFloat x, PFloat y => (x <? y)%float
  | PInt n, PFloat y =>
      if small_int n then (Z_to_float n <? y)%float
      else match cmp_int_sf n (Prim2SF y) with Some Lt => true | _ => false end
  | PFloat x, PInt n =>
      if small_int n then (x <? Z_to_float n)%float
      else match cmp_int_sf n (Prim2SF x) with Some Gt => true | _ => false end
  end.

(** [a <= b] *)
Definition py_le (a b : pynum) : bool :=
  match a, b with
  | PInt m, PInt n => m <=? n
  | PFloat x, PFloat y => (x <=? y)%float
  | PInt n, PFloat y =>
      if small_int n then (Z_to_float n <=? y)%float
      else match cmp_int_sf n (Prim2SF y) with Some (Lt | Eq) => true | _ => false end
  | PFloat x, PInt n =>
      if small_int n then (x <=? Z_to_float n)%float
      else match cmp_int_sf n (Prim2SF x) with Some (Gt | Eq) => true | _ => false end
  end.

(** [max(a, b)]: the second argument replaces the first only when it is
    strictly greater. *)
Definition py_max (a b : pynum) : pynum := if py_lt a b then b else a.

(** [min(a, b)]: the second argument replaces the first only when it is
    strictly smaller. *)
Definition py_min (a b : pynum) : pynum := if py_lt b a then b else a.

(** ** Strings *)

Definition lower_ascii (c : ascii) : ascii :=
  let n := nat_of_ascii c in
  if andb (Nat.leb 65 n) (Nat.leb n 90) then ascii_of_nat (n + 32) else c.

(** [s.lower()] on a UTF-8 string: the ASCII letters are folded, the other
    bytes are kept (no character outside ASCII lowers to an ASCII letter
    of ["male"]). *)
Fixpoint lower (s : string) : string :=
  match s with
  | EmptyString => EmptyString
  | String c s' => String (lower_ascii c) (lower s')
  end.

(** ** The calorie target (server.py, lines 66-94) *)

Definition activity_multipliers : list (string * float) :=
  [ ("sedentary", 1.2%float);
    ("lightly_active", 1.375%float);
    ("moderately_active", 1.55%float);
    ("very_active", 1.725%float);
    ("extra_active", 1.9%float) ].

(** [d.get(k, default)] *)
Fixpoint get_default {V : Type} (d : list (string * V)) (k : string) (default : V) : V :=
  match d with
  | [] => default
  | (k', v) :: d' => if String.eqb k' k then v else get_default d' k default
  end.

Definition calculate_daily_calories
    (age : Z) (gender : string) (height weight : float)
    (activity_level : string) (goal_weight : float) : res pynum :=
  a <- int_to_float age ;;
  let bmr :=
    (if String.eqb (lower gender) "male"
     then 88.362 + (13.397 * weight) + (4.799 * height) - (5.677 * a)
     else 447.593 + (9.247 * weight) + (3.098 * height) - (4.330 * a))%float in
  let tdee := (bmr * get_default activity_multipliers activity_level 1.375)%float in
  if (goal_weight <? weight)%float then
    let deficit := py_min (PInt 500) (PFloat ((weight - goal_weight) * 50)%float) in
    d <- as_float deficit ;;
    Ok (py_max (PInt 1200) (PFloat (tdee - d)%float))
  else if (weight <? goal_weight)%float then
    let surplus := py_min (PInt 500) (PFloat ((goal_weight - weight) * 50)%float) in
    s <- as_float surplus ;;
    Ok (PFloat (tdee + s)%float)
  else
    Ok (PFloat tdee).

(** The larger and the smaller of two floats, for the specification's
    [max] and [min]. *)
Definition fmax (a b : float) : float := if (a <? b)%float then b else a.
Definition fmin (a b : float) : float := if (b <? a)%float then b else a.

(** The calculator as the specification words it (section 4.1): floats
    throughout, [max] and [min] of two floats. *)
Module CalculatorSpec.

Definition BMR (gender : string) (weight height age : float) : float :=
  (if String.eqb (lower gender) "male"
   then 88.362 + 13.397 * weight + 4.799 * height - 5.677 * age
   else 447.593 + 9.247 * weight + 3.098 * height - 4.330 * age)%float.

Definition multiplier (activity_level : string) : float :=
  if String.eqb activity_level "sedentary" then 1.2%float
  else if String.eqb activity_level "lightly_active" then 1.375%float
  else if String.eqb activity_level "moderately_active" then 1.55%float
  else if String.eqb activity_level "very_active" then 1.725%float
  else if String.eqb activity_level "extra_active" then 1.9%float
  else 1.375%float.

Definition TDEE (gender : string) (weight height age : float) (activity_level : string) : float :=
  (BMR gender weight height age * multiplier activity_level)%float.

Definition loss_target (tdee weight goal_weight : float) : float :=
  fmax 1200 (tdee - fmin 500 ((weight - goal_weight) * 50))%float.

End CalculatorSpec.

(** ** Python values and dictionaries *)

(** The values that travel between the handlers, the analyser's JSON and
    the store.  A [datetime] is a UTC instant in milliseconds since the
    epoch, which is the precision the store keeps. *)
Inductive value : Type :=
| VNone
| VBool (b : bool)
| VInt (n : Z)
| VFloat (x : float)
| VStr (s : string)
| VDate (ms : Z)
| VObjectId (oid : string)
| VList (l : list value)
| VDict (d : list (string * value)).

(** A dictionary keeps its keys in insertion order; keys are unique. *)
Definition dict : Type := list (string * value).

Fixpoint dict_get (d : dict) (k : string) : option value :=
  match d with
  | [] => None
  | (k', v) :: d' => if String.eqb k' k then Some v else dict_get d' k
  end.

(** [d.get(k, default)] *)
Definition dict_get_default (d : dict) (k : string) (default : value) : value :=
  match dict_get d k with
  | Some v => v
  | None => default
  end.

(** [d[k] = v]: an existing key keeps its place, a new one goes last. *)
Fixpoint dict_set (d : dict) (k : string) (v : value) : dict :=
  match d with
  | [] => [(k, v)]
  | (k', v') :: d' =>
      if String.eqb k' k then (k', v) :: d' else (k', v') :: dict_set d' k v
  end.

(** [d.pop(k, None)], the popped value dropped. *)
Fixpoint dict_pop (d : dict) (k : string) : dict :=
  match d with
  | [] => []
  | (k', v') :: d' => if String.eqb k' k then d' else (k', v') :: dict_pop d' k
  end.

(** [v.get(k, default)]: only a dict has the method. *)
Definition py_get (v : value) (k : string) (default : value) : res value :=
  match v with
  | VDict d => Ok (dict_get_default d k default)
  | _ => Raise (AttributeError "get")
  end.

(** [v[k]] with a string key. *)
Definition py_getitem (v : value) (k : string) : res value :=
  match v with
  | VDict d =>
      match dict_get d k with
      | Some x => Ok x
      | None => Raise (KeyError k)
      end
  | _ => Raise TypeError
  end.

Fixpoint chars (s : string) : list value :=
  match s with
  | EmptyString => []
  | String c s' => VStr (String c EmptyString) :: chars s'
  end.

(** [for item in v]: the items a loop over [v] visits. *)
Definition py_iter (v : value) : res (list value) :=
  match v with
  | VList l => Ok l
  | VDict d => Ok (map (fun kv => VStr (fst kv)) d)
  | VStr s => Ok (chars s)
  | _ => Raise TypeError
  end.

Definition as_str (v : value) : res string :=
  match v with
  | VStr s => Ok s
  | _ => Raise TypeError
  end.

(** [sep.join(items)]: every item must be a [str]. *)
Definition py_join (sep : string) (items : list value) : res string :=
  strs <- mapM as_str items ;; Ok (String.concat sep strs).

(** The number behind a value in arithmetic ([bool] is a subclass of
    [int]); anything else is a [TypeError]. *)
Definition to_num (v : value) : res pynum :=
  match v with
  | VInt n => Ok (PInt n)
  | VFloat x => Ok (PFloat x)
  | VBool b => Ok (PInt (if b then 1 else 0))
  | _ => Raise TypeError
  end.

Definition of_num (a : pynum) : value :=
  match a with
  | PInt n => VInt n
  | PFloat x => VFloat x
  end.

Definition v_add (u v : value) : res value :=
  a <- to_num u ;; b <- to_num v ;; c <- py_add a b ;; Ok (of_num c).

Definition v_sub (u v : value) : res value :=
  a <- to_num u ;; b <- to_num v ;; c <- py_sub a b ;; Ok (of_num c).

Definition v_mul (u v : value) : res value :=
  a <- to_num u ;; b <- to_num v ;; c <- py_mul a b ;; Ok (of_num c).

Definition v_truediv (u v : value) : res value :=
  a <- to_num u ;; b <- to_num v ;; c <- py_truediv a b ;; Ok (of_num c).

(** A value that enters a float sum: a number that converts to a float. *)
Definition float_of_value (v : value) : res float := a <- to_num v ;; as_float a.

(** [max(0, v)] for a number [v]. *)
Definition v_max0 (v : value) : res value :=
  b <- to_num v ;; Ok (of_num (py_max (PInt 0) b)).

(** ** String search and slicing (for the JSON extraction) *)

(** A Python [str] is held as the bytes of its UTF-8 encoding.  The
    indices the code gets from [find] and [rfind] are kept as byte
    offsets: they stand at character boundaries, and a search for an ASCII
    text finds the same places in the bytes as in the characters. *)

Definition bytes (codes : list Z) : string :=
  string_of_list_ascii (map (fun code => ascii_of_nat (Z.to_nat code)) codes).

Definition contains (sub s : string) : bool :=
  match String.index 0 sub s with
  | Some _ => true
  | None => false
  end.

(** [s.find(sub, start)]: the lowest index at or after [start], or -1. *)
Definition find_from (s sub : string) (start : Z) : Z :=
  match String.index (Z.to_nat start) sub s with
  | Some i => Z.of_nat i
  | None => -1
  end.

(** [s.rfind(sub)]: the highest index, or -1. *)
Fixpoint rfind_aux (s sub : string) (pos : nat) (best : Z) : Z :=
  match s with
  | EmptyString => if String.prefix sub s then Z.of_nat pos else best
  | String _ s' =>
      rfind_aux s' sub (S pos) (if String.prefix sub s then Z.of_nat pos else best)
  end.

Definition rfind (s sub : string) : Z := rfind_aux s sub 0 (-1).

(** A byte 10xxxxxx continues the character an earlier byte began. *)
Definition is_continuation (c : ascii) : bool :=
  let n := nat_of_ascii c in andb (Nat.leb 128 n) (Nat.leb n 191).

(** [len(s)]: the number of characters. *)
Fixpoint py_len (s : string) : nat :=
  match s with
  | EmptyString => 0
  | String c s' => (if is_continuation c then 0 else 1) + py_len s'
  end.

(** The byte offset at which the character of index [i] begins (the
    length of the text when it has no more than [i] characters). *)
Fixpoint char_offset (s : string) (i : nat) : nat :=
  match s with
  | EmptyString => 0
  | String c s' =>
      if is_continuation c then S (char_offset s' i)
      else match i with
           | O => 0
           | S i' => S (char_offset s' i')
           end
  end.

(** [s[start:stop]].  A bound that is not negative is a byte offset,
    clamped to the text.  A negative bound counts characters from the end,
    as in Python ([s[a:-1]] leaves out the last character, of however many
    bytes), and stops at the beginning of the text. *)
Definition slice (s : string) (start stop : Z) : string :=
  let n := Z.of_nat (String.length s) in
  let offset i :=
    if i <? 0 then Z.of_nat (char_offset s (Z.to_nat (Z.of_nat (py_len s) + i)))
    else Z.min n i in
  let a := offset start in
  let b := offset stop in
  String.substring (Z.to_nat a) (Z.to_nat (b - a)) s.

(** The characters [str.strip()] removes, those [str.isspace()] holds
    for, each as its UTF-8 bytes: U+0009 to U+000D, U+001C to U+0020,
    U+0085, U+00A0, U+1680, U+2000 to U+200A, U+2028, U+2029, U+202F,
    U+205F and U+3000. *)
Definition whitespace : list string :=
  map bytes
    [ [9]; [10]; [11]; [12]; [13]; [28]; [29]; [30]; [31]; [32];
      [194; 133]; [194; 160]; [225; 154; 128];
      [226; 128; 128]; [226; 128; 129]; [226; 128; 130]; [226; 128; 131];
      [226; 128; 132]; [226; 128; 133]; [226; 128; 134]; [226; 128; 135];
      [226; 128; 136]; [226; 128; 137]; [226; 128; 138];
      [226; 128; 168]; [226; 128; 169]; [226; 128; 175];
      [226; 129; 159]; [227; 128; 128] ].

(** Whether the bytes are one white-space character. *)
Definition is_space (w : string) : bool := existsb (String.eqb w) whitespace.

(** [s.lstrip()]: a white-space character has one, two or three bytes. *)
Fixpoint lstrip (s : string) : string :=
  match s with
  | EmptyString => EmptyString
  | String c1 s1 =>
      if is_space (String c1 EmptyString) then lstrip s1
      else
        match s1 with
        | EmptyString => s
        | String c2 s2 =>
            if is_space (String c1 (String c2 EmptyString)) then lstrip s2
            else
              match s2 with
              | EmptyString => s
              | String c3 s3 =>
                  if is_space (String c1 (String c2 (String c3 EmptyString)))
                  then lstrip s3
                  else s
              end
        end
  end.

(** [s.rstrip()]: once the text after a byte is stripped, what is left
    from that byte on ends in white space only if it is one white-space
    character. *)
Fixpoint rstrip (s : string) : string :=
  match s with
  | EmptyString => EmptyString
  | String c s' =>
      let t := String c (rstrip s') in
      if is_space t then EmptyString else t
  end.

(** [s.strip()] *)
Definition strip (s : string) : string := rstrip (lstrip s).

(** The text of some characters one after the other. *)
Definition join_chars (chars : list string) : string :=
  fold_right append EmptyString chars.

(** Whether the bytes are one character: a byte that begins a character,
    and the bytes that continue it. *)
Definition is_char (ch : string) : bool :=
  match ch with
  | EmptyString => false
  | String c tail =>
      andb (negb (is_continuation c))
           (forallb is_continuation (list_ascii_of_string tail))
  end.

(** Whether the character occurs in the string. *)
Fixpoint has_char (c : ascii) (s : string) : bool :=
  match s with
  | EmptyString => false
  | String b s' => orb (Ascii.eqb b c) (has_char c s')
  end.

Definition backtick : ascii := "`"%char.

(** ** What the module takes from outside *)

(** The analyser and the parsers of the Python libraries: the provider
    call ([chat.send_message], its answer already turned into text), the
    JSON parser, [datetime.fromisoformat(s).date()] as a day number
    ([None] for a [ValueError]), and [str(e)], the message of the
    exception a handler has caught: the interpreter or the library that
    raised it chose the text, not this module. *)
Class Externals : Type := {
  send_message : string -> res string;
  json_loads : string -> res value;
  fromisoformat_date : string -> option Z;
  exn_str : exn -> string
}.

(** ** The analyser (server.py, lines 96-165) *)

Definition fallback_analysis (confidence : float) (notes : string) : value :=
  VDict
    [ ("food_items",
       VList [ VDict [ ("name", VStr "Unknown food");
                       ("portion_size", VStr "1 serving");
                       ("calories", VInt 200);
                       ("confidence", VFloat confidence) ] ]);
      ("total_calories", VInt 200);
      ("analysis_confidence", VFloat confidence);
      ("notes", VStr notes) ].

Definition fence : string := "```json".
Definition fence_end : string := "```".

(** Lines 136-146: the text handed to the JSON parser. *)
Definition extract_json (response_text : string) : string :=
  if contains fence response_text then
    let json_start := find_from response_text fence 0 + 7 in
    let json_end := find_from response_text fence_end json_start in
    strip (slice response_text json_start json_end)
  else if andb (contains "{" response_text) (contains "}" response_text) then
    let json_start := find_from response_text "{" 0 in
    let json_end := rfind response_text "}" + 1 in
    slice response_text json_start json_end
  else response_text.

Definition analyze_food_with_ai {ext : Externals} (image_base64 : string) : res value :=
  try_except
    (response <- send_message image_base64 ;;
     match json_loads (extract_json response) with
     | Raise JSONDecodeError =>
         Ok (fallback_analysis 0.3 ("Analysis text: " ++ response))
     | r => r
     end)
    (fun e => Ok (fallback_analysis 0.2 ("Error occurred: " ++ exn_str e))).

(** ** The store *)

Record store : Type := {
  profiles : list dict;
  calorie_entries : list dict
}.

(** A query [{key: s}] on a string field. *)
Definition field_is (key s : string) (d : dict) : bool :=
  match dict_get d key with
  | Some (VStr s') => String.eqb s' s
  | _ => false
  end.

(** [collection.find_one({key: s})] *)
Definition find_one (coll : list dict) (key s : string) : option dict :=
  find (field_is key s) coll.

(** [collection.update_one({key: s}, {"$set": {field: v}})]: the first
    matching document is updated; the result is the collection and the
    matched count. *)
Fixpoint update_one_set (coll : list dict) (key s field : string) (v : value)
  : list dict * Z :=
  match coll with
  | [] => ([], 0)
  | d :: coll' =>
      if field_is key s d then (dict_set d field v :: coll', 1)
      else let '(c, n) := update_one_set coll' key s field v in (d :: c, n)
  end.

(** [collection.delete_one({key: s})] *)
Fixpoint delete_one (coll : list dict) (key s : string) : list dict * Z :=
  match coll with
  | [] => ([], 0)
  | d :: coll' =>
      if field_is key s d then (coll', 1)
      else let '(c, n) := delete_one coll' key s in (d :: c, n)
  end.

(** [collection.insert_one(d)]: the driver gives the document its [_id]. *)
Definition insert_one (coll : list dict) (oid : string) (d : dict) : list dict :=
  coll ++ [("_id", VObjectId oid) :: d].

(** The query [{"user_id": u, "timestamp": {"$gte": lo, "$lte": hi}}]. *)
Definition in_window (user_id : string) (lo hi : Z) (d : dict) : bool :=
  andb (field_is "user_id" user_id d)
       (match dict_get d "timestamp" with
        | Some (VDate t) => andb (lo <=? t) (t <=? hi)
        | _ => false
        end).

Definition timestamp_of (d : dict) : Z :=
  match dict_get d "timestamp" with
  | Some (VDate t) => t
  | _ => 0
  end.

(** [.sort("timestamp", 1)], as a stable insertion sort. *)
Fixpoint insert_by_timestamp (d : dict) (l : list dict) : list dict :=
  match l with
  | [] => [d]
  | d' :: l' =>
      if timestamp_of d <=? timestamp_of d' then d :: l
      else d' :: insert_by_timestamp d l'
  end.

Definition sort_by_timestamp (l : list dict) : list dict :=
  fold_right insert_by_timestamp [] l.

(** ** Meal-type update (server.py, lines 246-261) *)

Definition valid_meal_types : list string := ["breakfast"; "lunch"; "dinner"; "snack"].

Definition update_meal_type (st : store) (entry_id meal_type : string)
  : res (value * store) :=
  if negb (existsb (String.eqb meal_type) valid_meal_types) then
    Raise (HTTPException 400 "Invalid meal type")
  else
    let '(entries, matched_count) :=
      update_one_set (calorie_entries st) "entry_id" entry_id
                     "meal_type" (VStr meal_type) in
    if matched_count =? 0 then Raise (HTTPException 404 "Entry not found")
    else Ok (VDict [("message", VStr "Meal type updated successfully")],
             {| profiles := profiles st; calorie_entries := entries |}).

(** ** Entry deletion (server.py, lines 307-315) *)

Definition delete_entry (st : store) (entry_id : string) : res (value * store) :=
  let '(entries, deleted_count) := delete_one (calorie_entries st) "entry_id" entry_id in
  if deleted_count =? 0 then Raise (HTTPException 404 "Entry not found")
  else Ok (VDict [("message", VStr "Entry deleted successfully")],
           {| profiles := profiles st; calorie_entries := entries |}).

(** ** Food analysis (server.py, lines 205-244) *)

(** Lines 213-216: the entry's name, total and confidence. *)
Definition normalize (analysis_result : value) : res (string * value * value) :=
  food_items <- py_get analysis_result "food_items" (VList []) ;;
  items <- py_iter food_items ;;
  names <- mapM (fun item => py_getitem item "name") items ;;
  food_name <- py_join ", " names ;;
  total_calories <- py_get analysis_result "total_calories" (VInt 0) ;;
  confidence <- py_get analysis_result "analysis_confidence" (VFloat 0.5) ;;
  Ok (food_name, total_calories, confidence).

(** [entry_id] is the fresh UUID, [oid] the identifier the driver assigns,
    [now] the current instant. *)
Definition analyze_food {ext : Externals} (st : store)
    (image_base64 user_id : string) (entry_id oid : string) (now : Z)
  : res (value * store) :=
  try_except
    (analysis_result <- analyze_food_with_ai image_base64 ;;
     '(food_name, total_calories, confidence) <- normalize analysis_result ;;
     let calorie_entry :=
       [ ("entry_id", VStr entry_id);
         ("user_id", VStr user_id);
         ("food_name", VStr food_name);
         ("calories", total_calories);
         ("meal_type", VStr "unspecified");
         ("image_base64", VStr image_base64);
         ("timestamp", VDate now);
         ("confidence", confidence);
         ("analysis_details", analysis_result) ] in
     let entries := insert_one (calorie_entries st) oid calorie_entry in
     Ok (VDict [ ("entry_id", VStr entry_id);
                 ("food_name", VStr food_name);
                 ("calories", total_calories);
                 ("confidence", confidence);
                 ("analysis_details", analysis_result);
                 ("message", VStr "Food analyzed successfully") ],
         {| profiles := profiles st; calorie_entries := entries |}))
    (fun e => Raise (HTTPException 500 ("Error analyzing food: " ++ exn_str e))).

(** ** Calendar dates *)

Definition ms_per_day : Z := 86400000.

(** The UTC calendar day (days since 1970-01-01) of an instant. *)
Definition day_of (ms : Z) : Z := ms / ms_per_day.

(** Year, month and day of a day number in the proleptic Gregorian
    calendar. *)
Definition civil_from_days (day : Z) : Z * Z * Z :=
  let z := day + 719468 in
  let era := z / 146097 in
  let doe := z - era * 146097 in
  let yoe := (doe - doe / 1460 + doe / 36524 - doe / 146096) / 365 in
  let doy := doe - (365 * yoe + yoe / 4 - yoe / 100) in
  let mp := (5 * doy + 2) / 153 in
  let d := doy - (153 * mp + 2) / 5 + 1 in
  let m := if mp <? 10 then mp + 3 else mp - 9 in
  let y := yoe + era * 400 + (if m <=? 2 then 1 else 0) in
  (y, m, d).

Definition digit (n : Z) : ascii := ascii_of_nat (48 + Z.to_nat (n mod 10)).

Definition pad2 (n : Z) : string :=
  String (digit (n / 10)) (String (digit n) EmptyString).

Definition pad4 (n : Z) : string :=
  String (digit (n / 1000)) (String (digit (n / 100)) (pad2 n)).

(** [date.isoformat()], and the store's [$dateToString] with the format
    [%Y-%m-%d]: the text YYYY-MM-DD of a day number. *)
Definition date_isoformat (day : Z) : string :=
  let '(y, m, d) := civil_from_days day in
  pad4 y ++ "-" ++ pad2 m ++ "-" ++ pad2 d.

(** The days [datetime] can hold: 0001-01-01 to 9999-12-31. *)
Definition min_day : Z := -719162.
Definition max_day : Z := 2932896.

(** ** Daily intake (server.py, lines 263-305) *)

(** Lines 291-294: the loop over the cursor. *)
Fixpoint daily_loop (cursor entries : list dict) (total_calories : value)
  : res (list dict * value) :=
  match cursor with
  | [] => Ok (entries, total_calories)
  | entry :: rest =>
      let entry := dict_pop entry "_id" in
      total <- v_add total_calories (dict_get_default entry "calories" (VInt 0)) ;;
      daily_loop rest (entries ++ [entry]) total
  end.

(** [if not profile]: no document, or an empty one. *)
Definition found (profile : option dict) : option dict :=
  match profile with
  | Some (kv :: d) => Some (kv :: d)
  | _ => None
  end.

Definition get_daily_intake {ext : Externals} (st : store)
    (user_id : string) (date : option string) (now : Z) : res value :=
  target_date <-
    match date with
    | Some (String c s) =>
        match fromisoformat_date (String c s) with
        | Some d => Ok d
        | None => Raise (HTTPException 400 "Invalid date format")
        end
    | _ => Ok (day_of now)
    end ;;
  match found (find_one (profiles st) "user_id" user_id) with
  | None => Raise (HTTPException 404 "User profile not found")
  | Some profile =>
      let start_date := target_date * ms_per_day in
      let end_date := target_date * ms_per_day + (ms_per_day - 1) in
      let cursor :=
        sort_by_timestamp
          (filter (in_window user_id start_date end_date) (calorie_entries st)) in
      '(entries, total_calories) <- daily_loop cursor [] (VFloat 0) ;;
      let target_calories := dict_get_default profile "daily_calorie_target" (VInt 2000) in
      diff <- v_sub target_calories total_calories ;;
      remaining_calories <- v_max0 diff ;;
      Ok (VDict [ ("date", VStr (date_isoformat target_date));
                  ("total_calories", total_calories);
                  ("target_calories", target_calories);
                  ("entries", VList (map VDict entries));
                  ("remaining_calories", remaining_calories) ])
  end.

(** ** History (server.py, lines 317-368) *)

(** The names the module binds at top level: its imports (lines 1-11),
    its variables, classes and functions.  No builtin is called
    [timedelta]. *)
Definition server_globals : list string :=
  [ "os"; "base64"; "uuid"; "datetime"; "timezone"; "Optional"; "List";
    "FastAPI"; "HTTPException"; "File"; "UploadFile"; "CORSMiddleware";
    "BaseModel"; "AsyncIOMotorClient"; "LlmChat"; "UserMessage";
    "ImageContent"; "asyncio";
    "app"; "MONGO_URL"; "DB_NAME"; "OPENAI_API_KEY"; "client"; "db";
    "UserProfile"; "FoodAnalysisRequest"; "CalorieEntry"; "DailyIntakeResponse";
    "calculate_daily_calories"; "analyze_food_with_ai"; "health_check";
    "create_or_update_profile"; "get_profile"; "analyze_food";
    "update_meal_type"; "get_daily_intake"; "delete_entry"; "get_history" ].

(** Looking a global name up when the function runs. *)
Definition load_global (globals : list string) (name : string) : res unit :=
  if existsb (String.eqb name) globals then Ok tt else Raise (NameError name).

(** [timedelta(days=d)] in milliseconds. *)
Definition timedelta_days (d : Z) : res Z :=
  if Z.abs d <=? 999999999 then Ok (d * ms_per_day) else Raise OverflowError.

(** [datetime - timedelta]: the result must be a date [datetime] holds. *)
Definition datetime_sub (t delta : Z) : res Z :=
  let r := t - delta in
  if andb (min_day <=? day_of r) (day_of r <=? max_day) then Ok r
  else Raise OverflowError.

(** [$sum]: numbers add up, anything else is skipped. *)
Definition mongo_add (acc v : value) : value :=
  match acc, v with
  | VInt a, VInt b => VInt (a + b)
  | VInt a, VFloat y => VFloat (Z_to_float a + y)%float
  | VFloat x, VInt b => VFloat (x + Z_to_float b)%float
  | VFloat x, VFloat y => VFloat (x + y)%float
  | _, _ => acc
  end.

(** One group of the [$group] stage: its key, total and count. *)
Definition group : Type := (string * value * Z)%type.

Fixpoint group_add (key : string) (calories : value) (groups : list group) : list group :=
  match groups with
  | [] => [(key, mongo_add (VInt 0) calories, 1)]
  | (k, total, count) :: gs =>
      if String.eqb k key then (k, mongo_add total calories, count + 1) :: gs
      else (k, total, count) :: group_add key calories gs
  end.

(** [$dateToString] of the entry's timestamp. *)
Definition entry_date (e : dict) : string := date_isoformat (day_of (timestamp_of e)).

Fixpoint group_by_date (entries : list dict) (groups : list group) : list group :=
  match entries with
  | [] => groups
  | e :: es =>
      group_by_date es
        (group_add (entry_date e) (dict_get_default e "calories" VNone) groups)
  end.

Definition group_key (g : group) : string := fst (fst g).
Definition group_total (g : group) : value := snd (fst g).
Definition group_count (g : group) : Z := snd g.

(** The order of the sort. *)
Definition key_le (g g' : group) : Prop := String.leb (group_key g) (group_key g') = true.

(** [{"$sort": {"_id": 1}}] *)
Fixpoint insert_by_id (g : group) (l : list group) : list group :=
  match l with
  | [] => [g]
  | g' :: l' =>
      if String.leb (group_key g) (group_key g') then g :: l
      else g' :: insert_by_id g l'
  end.

Definition sort_by_id (l : list group) : list group := fold_right insert_by_id [] l.

Definition group_doc (g : group) : dict :=
  let '(k, total, count) := g in
  [ ("_id", VStr k); ("total_calories", total); ("entry_count", VInt count) ].

(** Lines 329-351: the aggregation pipeline. *)
Definition aggregate (entries : list dict) (user_id : string) (start_date end_date : Z)
  : list dict :=
  map group_doc
      (sort_by_id (group_by_date (filter (in_window user_id start_date end_date) entries) [])).

(** Lines 355-362: one row of the history for one day of the cursor. *)
Definition history_row (target_calories : value) (day : dict) : res dict :=
  date <- py_getitem (VDict day) "_id" ;;
  total_calories <- py_getitem (VDict day) "total_calories" ;;
  entry_count <- py_getitem (VDict day) "entry_count" ;;
  total <- py_getitem (VDict day) "total_calories" ;;
  ratio <- v_truediv total target_calories ;;
  percentage <- v_mul ratio (VInt 100) ;;
  Ok [ ("date", date);
       ("total_calories", total_calories);
       ("target_calories", target_calories);
       ("entry_count", entry_count);
       ("percentage_of_target", percentage) ].

(** Lines 352-368: the rows and the response, from the profile and the
    cursor of the aggregation. *)
Definition history_response (profile : dict) (cursor : list dict) (days : Z) : res value :=
  let target_calories := dict_get_default profile "daily_calorie_target" (VInt 2000) in
  history <- mapM (history_row target_calories) cursor ;;
  Ok (VDict [ ("history", VList (map VDict history));
              ("target_calories", target_calories);
              ("period_days", VInt days) ]).

(** [globals] is the module's namespace when the handler runs;
    for the module as it is, [server_globals]. *)
Definition get_history (globals : list string) (st : store)
    (user_id : string) (days : Z) (now : Z) : res value :=
  match found (find_one (profiles st) "user_id" user_id) with
  | None => Raise (HTTPException 404 "User profile not found")
  | Some profile =>
      let end_date := now in
      let midnight := day_of end_date * ms_per_day in
      _ <- load_global globals "timedelta" ;;
      delta <- timedelta_days (days - 1) ;;
      start_date <- datetime_sub midnight delta ;;
      let cursor := aggregate (calorie_entries st) user_id start_date end_date in
      history_response profile cursor days
  end.

(** ** Health check (server.py, lines 167-169) *)

Definition health_check : value :=
  VDict [ ("status", VStr "healthy");
          ("message", VStr "Calorie Tracker API is running") ].

(** ** Profiles (server.py, lines 33-43 and 171-203) *)

(** The request body of a profile write.  The target and the creation
    instant a client sends are optional, and the handler overwrites both. *)
Module UserProfile.

Record t : Type := {
  user_id : string;
  name : string;
  age : Z;
  gender : string;
  height : float;
  weight : float;
  activity_level : string;
  goal_weight : float;
  daily_calorie_target : option float;
  created_at : option Z
}.

End UserProfile.

(** [profile.dict()] once the handler has set the target and the instant. *)
Definition profile_dict (profile : UserProfile.t) (target : pynum) (now : Z) : dict :=
  [ ("user_id", VStr (UserProfile.user_id profile));
    ("name", VStr (UserProfile.name profile));
    ("age", VInt (UserProfile.age profile));
    ("gender", VStr (UserProfile.gender profile));
    ("height", VFloat (UserProfile.height profile));
    ("weight", VFloat (UserProfile.weight profile));
    ("activity_level", VStr (UserProfile.activity_level profile));
    ("goal_weight", VFloat (UserProfile.goal_weight profile));
    ("daily_calorie_target", of_num target);
    ("created_at", VDate now) ].

(** [{"$set": fields}] on one document: the fields are set in turn. *)
Definition dict_update (d : dict) (fields : dict) : dict :=
  fold_left (fun d kv => dict_set d (fst kv) (snd kv)) fields d.

(** [collection.update_one({key: s}, {"$set": fields}, upsert=True)]: the
    first matching document is updated; when none matches, a document made
    of the query and the fields is inserted under a new [_id]. *)
Fixpoint update_one_upsert (coll : list dict) (key s : string) (fields : dict) (oid : string)
  : list dict :=
  match coll with
  | [] => [ ("_id", VObjectId oid) :: dict_update [(key, VStr s)] fields ]
  | d :: coll' =>
      if field_is key s d then dict_update d fields :: coll'
      else d :: update_one_upsert coll' key s fields oid
  end.

(** [oid] is the identifier the driver assigns if it inserts, [now] the
    current instant. *)
Definition create_or_update_profile (st : store) (profile : UserProfile.t)
    (oid : string) (now : Z) : res (value * store) :=
  target <- calculate_daily_calories
              (UserProfile.age profile) (UserProfile.gender profile)
              (UserProfile.height profile) (UserProfile.weight profile)
              (UserProfile.activity_level profile) (UserProfile.goal_weight profile) ;;
  let fields := profile_dict profile target now in
  Ok (VDict [ ("message", VStr "Profile saved successfully");
              ("daily_calorie_target", of_num target) ],
      {| profiles := update_one_upsert (profiles st) "user_id"
                                       (UserProfile.user_id profile) fields oid;
         calorie_entries := calorie_entries st |}).

Definition get_profile (st : store) (user_id : string) : res value :=
  match found (find_one (profiles st) "user_id" user_id) with
  | None => Raise (HTTPException 404 "Profile not found")
  | Some profile => Ok (VDict (dict_pop profile "_id"))
  end.

(** The day [get_daily_intake] reports for a date parameter: the parsed
    date, or the current UTC day when the parameter is absent or empty. *)
Definition date_resolves {ext : Externals} (date : option string) (now day : Z) : Prop :=
  match date with
  | Some (String c s) => fromisoformat_date (String c s) = Some day
  | _ => day = day_of now
  end.

(** The entries [get_daily_intake] reads for a user and a day, in the
    order of the cursor. *)
Definition day_cursor (st : store) (user_id : string) (day : Z) : list dict :=
  sort_by_timestamp
    (filter (in_window user_id (day * ms_per_day) (day * ms_per_day + (ms_per_day - 1)))
            (calorie_entries st)).

(** The messages of the exceptions the handlers catch in the sample
    runs: a provider error carries its own, [.get] on the list [[1, 2]]
    raises the AttributeError of that text, and [json.loads] the
    RecursionError of that text.  No other exception is caught in them. *)
Definition sample_exn_str (e : exn) : string :=
  match e with
  | ProviderError msg => msg
  | AttributeError attr => "'list' object has no attribute '" ++ attr ++ "'"
  | RecursionError =>
      "maximum recursion depth exceeded while decoding a JSON array from a unicode string"
  | _ => EmptyString
  end.

(** An analyser whose answer is the JSON list [[1, 2]], with the part of
    [json.loads] that reads it. *)
Definition list_externals : Externals :=
  {| send_message := fun _ => Ok "[1, 2]";
     json_loads := fun s => if String.eqb s "[1, 2]"
                            then Ok (VList [VInt 1; VInt 2])
                            else Raise JSONDecodeError;
     fromisoformat_date := fun _ => None;
     exn_str := sample_exn_str |}.

(** An analyser whose answer is 200000 opening brackets, on which
    [json.loads] gives up with a RecursionError, which is no
    JSONDecodeError. *)
Definition nested_text : string :=
  N.iter 200000 (String "["%char) EmptyString.

Definition nested_externals : Externals :=
  {| send_message := fun _ => Ok nested_text;
     json_loads := fun s => if String.eqb s nested_text
                            then Raise RecursionError
                            else Raise JSONDecodeError;
     fromisoformat_date := fun _ => None;
     exn_str := sample_exn_str |}.

(** A profile write of the samples. *)
Definition sample_profile : UserProfile.t :=
  {| UserProfile.user_id := "u2";
     UserProfile.name := "John Smith";
     UserProfile.age := 25;
     UserProfile.gender := "male";
     UserProfile.height := 175;
     UserProfile.weight := 70;
     UserProfile.activity_level := "moderately_active";
     UserProfile.goal_weight := 65;
     UserProfile.daily_calorie_target := None;
     UserProfile.created_at := None |}.

(** The normaliser as the specification words it (section 4.2): the
    name is the comma-concatenation of the item names, the total is the
    analyser's total, and the sum of the item calories when the analyser
    gave no total. *)
Module NormalizerSpec.

Fixpoint sum_calories (items : list value) (acc : value) : res value :=
  match items with
  | [] => Ok acc
  | item :: rest =>
      c <- py_getitem item "calories" ;;
      acc' <- v_add acc c ;;
      sum_calories rest acc'
  end.

Definition total_calories (analysis_result : value) : res value :=
  match analysis_result with
  | VDict d =>
      match dict_get d "total_calories" with
      | Some total => Ok total
      | None =>
          items <- py_iter (dict_get_default d "food_items" (VList [])) ;;
          sum_calories items (VInt 0)
      end
  | _ => Raise TypeError
  end.

End NormalizerSpec.

(** The claim's side of the daily intake: the summed total of the
    entries of a day, added one after the other onto 0.0 in the order
    given, each entry with the float value of its calories (0 when it has
    none), and what remains of a target. *)
Module IntakeSpec.

Definition calories (entry : dict) : float :=
  match float_of_value (dict_get_default entry "calories" (VInt 0)) with
  | Ok x => x
  | Raise _ => 0%float
  end.

Definition total (entries : list dict) : float :=
  fold_left (fun sum entry => (sum + calories entry)%float) entries 0%float.

Definition remaining (target sum : float) : float := fmax 0 (target - sum).

End IntakeSpec.

(** The name, calories and confidence a response or a stored entry shows. *)
Definition entry_has (d : dict) (food_name : string) (calories confidence : value) : Prop :=
  dict_get d "food_name" = Some (VStr food_name)
  /\ dict_get d "calories" = Some calories
  /\ dict_get d "confidence" = Some confidence.

(** ** Sample data *)

(** An analysis with two items and no total, and its JSON text. *)
Definition untotalled_analysis : value :=
  VDict
    [ ("food_items",
       VList [ VDict [ ("name", VStr "Apple"); ("calories", VInt 95) ];
               VDict [ ("name", VStr "Toast"); ("calories", VInt 80) ] ]);
      ("analysis_confidence", VFloat 0.8) ].

(** A string between double quotes. *)
Definition quoted (s : string) : string :=
  String (ascii_of_nat 34) (s ++ String (ascii_of_nat 34) EmptyString).

Definition untotalled_json : string :=
  "{" ++ quoted "food_items" ++ ": [{"
      ++ quoted "name" ++ ": " ++ quoted "Apple" ++ ", " ++ quoted "calories" ++ ": 95}, {"
      ++ quoted "name" ++ ": " ++ quoted "Toast" ++ ", " ++ quoted "calories" ++ ": 80}], "
      ++ quoted "analysis_confidence" ++ ": 0.8}".

(** An analyser that answers [reply] to every image.  The JSON parser is
    the part of [json.loads] the samples need: it reads the text of
    [untotalled_analysis] and rejects a text that is no JSON. *)
Definition sample_externals (reply : res string) : Externals :=
  {| send_message := fun _ => reply;
     json_loads := fun s => if String.eqb s untotalled_json
                            then Ok untotalled_analysis
                            else Raise JSONDecodeError;
     fromisoformat_date := fun _ => None;
     exn_str := sample_exn_str |}.


Definition sample_entry : dict :=
  [ ("_id", VObjectId "65f0");
    ("entry_id", VStr "e1");
    ("user_id", VStr "u1");
    ("food_name", VStr "Apple, Toast");
    ("calories", VFloat 250);
    ("meal_type", VStr "unspecified");
    ("image_base64", VStr "aGVsbG8=");
    ("timestamp", VDate 1700000000000);
    ("confidence", VFloat 0.9);
    ("analysis_details", VDict []) ].

Definition sample_store : store :=
  {| profiles := [ [ ("_id", VObjectId "65e0");
                     ("user_id", VStr "u1");
                     ("daily_calorie_target", VFloat 2000) ] ];
     calorie_entries := [ sample_entry ] |}.

(** A store with one profile and two entries, on 2023-11-13 and on
    2023-11-14, and an instant on 2023-11-14. *)
Definition history_store : store :=
  {| profiles := [ [ ("_id", VObjectId "65e0");
                     ("user_id", VStr "u1");
                     ("daily_calorie_target", VFloat 2000) ] ];
     calorie_entries :=
       [ [ ("_id", VObjectId "65f0"); ("entry_id", VStr "e1"); ("user_id", VStr "u1");
           ("calories", VFloat 250); ("timestamp", VDate 1699900000000) ];
         [ ("_id", VObjectId "65f1"); ("entry_id", VStr "e2"); ("user_id", VStr "u1");
           ("calories", VFloat 500); ("timestamp", VDate 1700000000000) ] ] |}.

Definition history_now : Z := 1700000100000.

(** The same store with a profile whose target is 0. *)
Definition zero_target_store : store :=
  {| profiles := [ [ ("_id", VObjectId "65e0");
                     ("user_id", VStr "u1");
                     ("daily_calorie_target", VFloat 0) ] ];
     calorie_entries := calorie_entries history_store |}.

(** The store of [history_store] with one more entry of u1 on
    2023-11-14, whose calories are a text. *)
Definition text_calories_store : store :=
  {| profiles := profiles history_store;
     calorie_entries :=
       (calorie_entries history_store
        ++ [ [ ("_id", VObjectId "65f2"); ("entry_id", VStr "e3"); ("user_id", VStr "u1");
               ("calories", VStr "250 kcal"); ("timestamp", VDate 1700000050000) ] ])%list |}.

(** The response and the store after [sample_profile] is written to
    [sample_store] at the instant 1700000000000. *)
Definition written_response : value :=
  VDict [ ("message", VStr "Profile saved successfully");
          ("daily_calorie_target", VFloat 2422.2806000000005) ].

Definition written_store : store :=
  {| profiles :=
       update_one_upsert (profiles sample_store) "user_id" "u2"
         (profile_dict sample_profile (PFloat 2422.2806000000005) 1700000000000) "65e1";
     calorie_entries := calorie_entries sample_store |}.

(** The response and the store after an analysis for user u1 at
    [history_now] whose provider call times out, and the daily intake of
    u1 read from that store later on the same day. *)
Definition analysed_sample : value * store :=
  Eval vm_compute in
    match analyze_food (ext := sample_externals (Raise (ProviderError "Request timed out")))
            sample_store "aGVsbG8=" "u1" "e7" "65f7" history_now with
    | Ok r => r
    | Raise _ => (VNone, sample_store)
    end.

Definition intake_after_analysis : dict :=
  Eval vm_compute in
    match get_daily_intake (ext := sample_externals (Raise (ProviderError "Request timed out")))
            (snd analysed_sample) "u1" None (history_now + 60000) with
    | Ok (VDict r) => r
    | _ => []
    end.

(** ** The test harness (backend_test.py, lines 49-78 and 291-294) *)

Module TestResults.

Record t : Type := {
  results : list dict;
  passed : Z;
  failed : Z
}.

(** [__init__] *)
Definition init : t := {| results := []; passed := 0; failed := 0 |}.

(** [add_result(test_name, passed, message, details)]: the object after
    the call and the line printed. *)
Definition add_result (self : t) (test_name : string) (passed' : bool)
    (message : string) (details : value) : t * string :=
  let status := if passed' then "✅ PASS" else "❌ FAIL" in
  let results' :=
    (results self ++ [ [ ("test", VStr test_name);
                         ("status", VStr status);
                         ("message", VStr message);
                         ("details", details) ] ])%list in
  let self' :=
    if passed'
    then {| results := results'; passed := passed self + 1; failed := failed self |}
    else {| results := results'; passed := passed self; failed := failed self + 1 |} in
  (self', status ++ ": " ++ test_name ++ " - " ++ message).

(** The exit code of [main] (line 294). *)
Definition exit_code (self : t) : Z :=
  if failed self =? 0 then 0 else 1.

End TestResults.

(** A run of the harness: the calls of [add_result] it makes, in order. *)
Definition add_results (self : TestResults.t)
    (calls : list (string * bool * string * value)) : TestResults.t :=
  fold_left (fun self call =>
               let '(test_name, passed, message, details) := call in
               fst (TestResults.add_result self test_name passed message details))
            calls self.

Definition call_passed (call : string * bool * string * value) : bool :=
  let '(_, passed, _, _) := call in passed.

(* ================================================================== *)
(** * Properties *)

(** ** Numbers *)

Lemma ltb_leb (x y : float) : (x <? y)%float = true -> (x <=? y)%float = true.
Proof.
  rewrite ltb_spec, leb_spec. unfold SFltb, SFleb.
  destruct (SFcompare (Prim2SF x) (Prim2SF y)) as [[ | | ]|]; congruence.
Qed.

Lemma py_lt_le_small (n : Z) (x : float) :
  small_int n = true -> py_lt (PInt n) (PFloat x) = true -> py_le (PInt n) (PFloat x) = true.
Proof.
  intros Hs. unfold py_lt, py_le. rewrite Hs. apply ltb_leb.
Qed.

Lemma py_max_ge_left_small (n : Z) (x : float) :
  small_int n = true -> py_le (PInt n) (py_max (PInt n) (PFloat x)) = true.
Proof.
  intros Hs. unfold py_max.
  destruct (py_lt (PInt n) (PFloat x)) eqn:E.
  - now apply py_lt_le_small.
  - cbn. apply Z.leb_refl.
Qed.

Lemma as_float_py_min_500 (y : float) :
  as_float (py_min (PInt 500) (PFloat y)) = Ok (fmin 500 y).
Proof.
  unfold py_min, fmin, py_lt.
  replace (small_int 500) with true by reflexivity.
  replace (Z_to_float 500) with 500%float by reflexivity.
  destruct (y <? 500)%float; reflexivity.
Qed.

Lemma as_float_py_max_1200 (x : float) :
  as_float (py_max (PInt 1200) (PFloat x)) = Ok (fmax 1200 x).
Proof.
  unfold py_max, fmax, py_lt.
  replace (small_int 1200) with true by reflexivity.
  replace (Z_to_float 1200) with 1200%float by reflexivity.
  destruct (1200 <? x)%float; reflexivity.
Qed.

Lemma multiplier_table (activity_level : string) :
  get_default activity_multipliers activity_level 1.375%float
  = CalculatorSpec.multiplier activity_level.
Proof.
  unfold CalculatorSpec.multiplier, activity_multipliers. cbn [get_default].
  rewrite !(String.eqb_sym _ activity_level).
  reflexivity.
Qed.

(** ** The calorie target *)

(** Every age from 0 to 150 converts to a float. *)
Lemma int_to_float_age (age : Z) :
  0 <= age <= 150 -> exists a : float, int_to_float age = Ok a.
Proof.
  intros Hage.
  assert (Hall : forallb (fun n => match int_to_float (Z.of_nat n) with
                                   | Ok _ => true
                                   | Raise _ => false
                                   end) (seq 0 151) = true)
    by (vm_compute; reflexivity).
  rewrite forallb_forall in Hall.
  specialize (Hall (Z.to_nat age)). rewrite Z2Nat.id in Hall by lia.
  destruct (int_to_float age) as [a|e]; [eauto|].
  assert (false = true) by (apply Hall, in_seq; lia). discriminate.
Qed.

(** C7: with a goal weight strictly below the current weight the target is
    max(1200, TDEE - min(500, (weight - goal_weight) * 50)), and it is at
    least 1200 ([1200 <= target] holds).  The age is an int that converts
    to a float, as every age from 0 to 150 does. *)
Theorem calculate_daily_calories_loss
    (age : Z) (gender : string) (height weight : float)
    (activity_level : string) (goal_weight a : float) :
  (goal_weight <? weight)%float = true ->
  int_to_float age = Ok a ->
  exists target : pynum,
    calculate_daily_calories age gender height weight activity_level goal_weight = Ok target
    /\ as_float target
       = Ok (CalculatorSpec.loss_target
               (CalculatorSpec.TDEE gender weight height a activity_level)
               weight goal_weight)
    /\ py_le (PInt 1200) target = true.
Proof.
  intros Hloss Hage.
  unfold calculate_daily_calories. rewrite Hage. cbn [bind]. rewrite Hloss.
  rewrite as_float_py_min_500. cbn [bind].
  eexists. split; [reflexivity|]. split.
  - rewrite as_float_py_max_1200.
    unfold CalculatorSpec.loss_target, CalculatorSpec.TDEE, CalculatorSpec.BMR.
    rewrite multiplier_table.
    destruct (String.eqb (lower gender) "male"); reflexivity.
  - now apply py_max_ge_left_small.
Qed.

Lemma calculate_daily_calories_loss_witness :
  exists target : pynum,
    calculate_daily_calories 25 "male" 175 70 "moderately_active" 65 = Ok target
    /\ as_float target
       = Ok (CalculatorSpec.loss_target
               (CalculatorSpec.TDEE "male" 70 175 25 "moderately_active") 70 65)
    /\ py_le (PInt 1200) target = true.
Proof.
  apply (calculate_daily_calories_loss 25 "male" 175 70 "moderately_active" 65 25);
    reflexivity.
Defined.

(** C9 (as stated): for age 25, male, 175 cm, 70 kg, moderately_active and
    goal weight 65 kg the calculator does not return 2423.63375; what it
    returns is below 2423. *)
Lemma calculate_daily_calories_example_not_2423 :
  calculate_daily_calories 25 "male" 175 70 "moderately_active" 65
    <> Ok (PFloat 2423.63375)
  /\ (exists x : float,
        calculate_daily_calories 25 "male" 175 70 "moderately_active" 65 = Ok (PFloat x)
        /\ (x <? 2423)%float = true).
Proof.
  split.
  - intros H.
    apply (f_equal (fun r => match r with
                             | Ok (PFloat x) => (x <? 2423)%float
                             | _ => false
                             end)) in H.
    vm_compute in H. discriminate H.
  - eexists. split; [vm_compute; reflexivity | reflexivity].
Qed.

(** C9 (amended): for that input the BMR is 1724.0520000000001, the TDEE
    2672.2806000000005, the deficit 250 and the target 2422.2806000000005:
    the exact values 1724.052, 2672.2806 and 2422.2806 up to the rounding
    of doubles (the target lies between 2422.28059 and 2422.28061). *)
Theorem calculate_daily_calories_example :
  CalculatorSpec.BMR "male" 70 175 25 = 1724.0520000000001%float
  /\ CalculatorSpec.TDEE "male" 70 175 25 "moderately_active" = 2672.2806000000005%float
  /\ py_min (PInt 500) (PFloat ((70 - 65) * 50)%float) = PFloat 250
  /\ calculate_daily_calories 25 "male" 175 70 "moderately_active" 65
     = Ok (PFloat 2422.2806000000005)
  /\ (2422.28059 <? 2422.2806000000005)%float = true
  /\ (2422.2806000000005 <? 2422.28061)%float = true.
Proof. repeat split; vm_compute; reflexivity. Qed.

(** ** Dictionaries *)

Lemma dict_get_set_same (d : dict) (k : string) (v : value) :
  dict_get (dict_set d k v) k = Some v.
Proof.
  induction d as [|[k' v'] d IH]; cbn.
  - now rewrite String.eqb_refl.
  - destruct (String.eqb k' k) eqn:E; cbn; rewrite E; [reflexivity | exact IH].
Qed.

Lemma dict_get_set_other (d : dict) (k k0 : string) (v : value) :
  k0 <> k -> dict_get (dict_set d k v) k0 = dict_get d k0.
Proof.
  intros Hne. induction d as [|[k' v'] d IH]; cbn.
  - destruct (String.eqb_spec k k0); [congruence | reflexivity].
  - destruct (String.eqb_spec k' k) as [->|Hk]; cbn.
    + destruct (String.eqb_spec k k0); [congruence | reflexivity].
    + destruct (String.eqb k' k0); [reflexivity | exact IH].
Qed.

(** ** The store *)

Lemma update_one_set_unmatched (coll : list dict) (key s field : string) (v : value) :
  Forall (fun d => field_is key s d = false) coll ->
  update_one_set coll key s field v = (coll, 0).
Proof.
  induction 1 as [|d coll Hd _ IH]; cbn; [reflexivity|].
  now rewrite Hd, IH.
Qed.

Lemma update_one_set_matched (coll : list dict) (key s field : string) (v : value) :
  Exists (fun d => field_is key s d = true) coll ->
  exists pre e post,
    coll = (pre ++ e :: post)%list
    /\ Forall (fun d => field_is key s d = false) pre
    /\ field_is key s e = true
    /\ update_one_set coll key s field v = ((pre ++ dict_set e field v :: post)%list, 1).
Proof.
  induction coll as [|d coll IH]; intros Hex; [inversion Hex|].
  cbn. destruct (field_is key s d) eqn:Ed.
  - exists [], d, coll. repeat split; auto.
  - inversion Hex as [? ? Hd | ? ? Hrest]; subst; [congruence|].
    destruct (IH Hrest) as (pre & e & post & -> & Hpre & He & Hupd).
    exists (d :: pre), e, post. rewrite Hupd. repeat split; auto.
Qed.

Lemma existsb_eqb_In (s : string) (l : list string) :
  existsb (String.eqb s) l = true <-> In s l.
Proof.
  rewrite existsb_exists. split.
  - intros (x & Hx & E). apply String.eqb_eq in E. now subst.
  - intros Hin. exists s. split; [exact Hin | apply String.eqb_refl].
Qed.

(** ** Meal-type update *)

(** C6: a meal type outside breakfast, lunch, dinner and snack is refused
    with "Invalid meal type" (status 400) whatever the store holds; a
    valid one for an identifier that no entry carries is refused with
    "Entry not found" (status 404). *)
Theorem update_meal_type_errors (st : store) (entry_id meal_type : string) :
  (~ In meal_type ["breakfast"; "lunch"; "dinner"; "snack"] ->
   update_meal_type st entry_id meal_type = Raise (HTTPException 400 "Invalid meal type"))
  /\ (In meal_type ["breakfast"; "lunch"; "dinner"; "snack"] ->
      Forall (fun e => dict_get e "entry_id" <> Some (VStr entry_id)) (calorie_entries st) ->
      update_meal_type st entry_id meal_type = Raise (HTTPException 404 "Entry not found")).
Proof.
  split.
  - intros Hbad. unfold update_meal_type.
    destruct (existsb (String.eqb meal_type) valid_meal_types) eqn:E; [|reflexivity].
    apply existsb_eqb_In in E. contradiction.
  - intros Hok Hnone. unfold update_meal_type.
    apply existsb_eqb_In in Hok. unfold valid_meal_types. rewrite Hok. cbn [negb].
    rewrite update_one_set_unmatched; [reflexivity|].
    eapply Forall_impl; [|exact Hnone].
    intros e He. unfold field_is.
    destruct (dict_get e "entry_id") as [[ | | | |s| | | | ]|] eqn:E; try reflexivity.
    destruct (String.eqb_spec s entry_id); [subst; congruence | reflexivity].
Qed.

Lemma update_meal_type_errors_witness :
  update_meal_type sample_store "e1" "brunch"
    = Raise (HTTPException 400 "Invalid meal type")
  /\ update_meal_type sample_store "e2" "lunch"
     = Raise (HTTPException 404 "Entry not found").
Proof.
  split.
  - apply (proj1 (update_meal_type_errors sample_store "e1" "brunch")).
    cbn. intros [H|[H|[H|[H|[]]]]]; discriminate H.
  - apply (proj2 (update_meal_type_errors sample_store "e2" "lunch")).
    + cbn. auto.
    + repeat constructor. cbn. discriminate.
Defined.

(** C10: for a valid meal type and an identifier some entry carries, the
    update succeeds and rewrites the first entry with that identifier
    only: its meal_type becomes the new value, every other field of it
    (user_id, food_name, calories, image_base64, confidence, timestamp,
    ...) reads as before, the entries before and after it and the profiles
    are the same. *)
Theorem update_meal_type_frame (st : store) (entry_id meal_type : string) :
  In meal_type ["breakfast"; "lunch"; "dinner"; "snack"] ->
  Exists (fun e => dict_get e "entry_id" = Some (VStr entry_id)) (calorie_entries st) ->
  exists pre e post,
    calorie_entries st = (pre ++ e :: post)%list
    /\ Forall (fun d => dict_get d "entry_id" <> Some (VStr entry_id)) pre
    /\ dict_get e "entry_id" = Some (VStr entry_id)
    /\ (exists e' response,
          update_meal_type st entry_id meal_type
          = Ok (response,
                {| profiles := profiles st; calorie_entries := (pre ++ e' :: post)%list |})
          /\ dict_get e' "meal_type" = Some (VStr meal_type)
          /\ (forall k, k <> "meal_type" -> dict_get e' k = dict_get e k)).
Proof.
  intros Hok Hex.
  assert (Hex' : Exists (fun d => field_is "entry_id" entry_id d = true) (calorie_entries st)).
  { eapply Exists_impl; [|exact Hex]. intros d Hd. unfold field_is. rewrite Hd.
    apply String.eqb_refl. }
  destruct (update_one_set_matched _ _ _ "meal_type" (VStr meal_type) Hex')
    as (pre & e & post & Hsplit & Hpre & He & Hupd).
  assert (Hfield : forall d b, field_is "entry_id" entry_id d = b ->
            if b then dict_get d "entry_id" = Some (VStr entry_id)
            else dict_get d "entry_id" <> Some (VStr entry_id)).
  { intros d b <-. unfold field_is.
    destruct (dict_get d "entry_id") as [[ | | | |s| | | | ]|]; try discriminate.
    destruct (String.eqb_spec s entry_id); [now subst | congruence]. }
  exists pre, e, post. split; [exact Hsplit|]. split.
  { eapply Forall_impl; [|exact Hpre]. intros d Hd. exact (Hfield d false Hd). }
  split; [exact (Hfield e true He)|].
  exists (dict_set e "meal_type" (VStr meal_type)). eexists. split.
  - unfold update_meal_type. apply existsb_eqb_In in Hok.
    unfold valid_meal_types. rewrite Hok. cbn [negb]. rewrite Hupd. reflexivity.
  - split; [apply dict_get_set_same|]. intros k Hk. now apply dict_get_set_other.
Qed.

Lemma update_meal_type_frame_witness :
  exists pre e post,
    calorie_entries sample_store = (pre ++ e :: post)%list
    /\ Forall (fun d => dict_get d "entry_id" <> Some (VStr "e1")) pre
    /\ dict_get e "entry_id" = Some (VStr "e1")
    /\ (exists e' response,
          update_meal_type sample_store "e1" "dinner"
          = Ok (response,
                {| profiles := profiles sample_store; calorie_entries := (pre ++ e' :: post)%list |})
          /\ dict_get e' "meal_type" = Some (VStr "dinner")
          /\ (forall k, k <> "meal_type" -> dict_get e' k = dict_get e k)).
Proof.
  apply (update_meal_type_frame sample_store "e1" "dinner").
  - cbn. auto.
  - apply Exists_cons_hd. reflexivity.
Defined.

(** ** Food analysis *)

Lemma mapM_getitem_names (items : list value) (names : list string) :
  Forall2 (fun item name => py_getitem item "name" = Ok (VStr name)) items names ->
  mapM (fun item => py_getitem item "name") items = Ok (map VStr names).
Proof.
  induction 1 as [|item name items names Hn _ IH]; cbn; [reflexivity|].
  now rewrite Hn, IH.
Qed.

Lemma py_join_strings (sep : string) (names : list string) :
  py_join sep (map VStr names) = Ok (String.concat sep names).
Proof.
  unfold py_join.
  assert (E : mapM as_str (map VStr names) = Ok names).
  { induction names as [|n names IH]; cbn; [reflexivity | now rewrite IH]. }
  now rewrite E.
Qed.

Section Analysis.

Context {ext : Externals}.

Variables (st : store) (image_base64 user_id entry_id oid : string) (now : Z).

(** What [analyze_food] returns and stores once the analysis result is
    known and normalises to a name, a total and a confidence. *)
Lemma analyze_food_of_analysis (analysis_result : value)
    (food_name : string) (total_calories confidence : value) :
  analyze_food_with_ai image_base64 = Ok analysis_result ->
  normalize analysis_result = Ok (food_name, total_calories, confidence) ->
  exists response entry,
    analyze_food st image_base64 user_id entry_id oid now
    = Ok (VDict response,
          {| profiles := profiles st;
             calorie_entries := (calorie_entries st ++ [entry])%list |})
    /\ entry_has response food_name total_calories confidence
    /\ entry_has entry food_name total_calories confidence
    /\ dict_get entry "meal_type" = Some (VStr "unspecified")
    /\ dict_get entry "user_id" = Some (VStr user_id).
Proof.
  intros Hai Hnorm. unfold analyze_food. rewrite Hai. cbn [bind]. rewrite Hnorm.
  cbn [bind try_except]. unfold insert_one.
  do 2 eexists. split; [reflexivity|].
  repeat split; reflexivity.
Qed.

Lemma normalize_fallback (confidence : float) (notes : string) :
  normalize (fallback_analysis confidence notes)
  = Ok ("Unknown food", VInt 200, VFloat confidence).
Proof. reflexivity. Qed.

(** C5 (amended): [analyze_food] never lets an exception of the provider
    call or of the JSON parser out.  When the provider call raises (a
    timeout included) the entry is "Unknown food" with 200 calories and
    confidence 0.2; when the provider answers and the parser rejects the
    extracted text with a JSONDecodeError it is "Unknown food" with 200
    calories and confidence 0.3; when the parser fails with any other
    exception it is "Unknown food" with 200 calories and confidence 0.2.
    In these three cases the entry is returned and stored.  An answer that
    parses is never replaced by the fallback: the entry is made of what it
    parsed to, and when that cannot be read as an analysis the handler
    fails with the HTTP error 500. *)
Theorem analyze_food_fallback :
  (forall e : exn,
      send_message image_base64 = Raise e ->
      exists response entry,
        analyze_food st image_base64 user_id entry_id oid now
        = Ok (VDict response,
              {| profiles := profiles st;
                 calorie_entries := (calorie_entries st ++ [entry])%list |})
        /\ entry_has response "Unknown food" (VInt 200) (VFloat 0.2)
        /\ entry_has entry "Unknown food" (VInt 200) (VFloat 0.2))
  /\ (forall text : string,
        send_message image_base64 = Ok text ->
        json_loads (extract_json text) = Raise JSONDecodeError ->
        exists response entry,
          analyze_food st image_base64 user_id entry_id oid now
          = Ok (VDict response,
                {| profiles := profiles st;
                   calorie_entries := (calorie_entries st ++ [entry])%list |})
          /\ entry_has response "Unknown food" (VInt 200) (VFloat 0.3)
          /\ entry_has entry "Unknown food" (VInt 200) (VFloat 0.3))
  /\ (forall (text : string) (e : exn),
        send_message image_base64 = Ok text ->
        json_loads (extract_json text) = Raise e ->
        e <> JSONDecodeError ->
        exists response entry,
          analyze_food st image_base64 user_id entry_id oid now
          = Ok (VDict response,
                {| profiles := profiles st;
                   calorie_entries := (calorie_entries st ++ [entry])%list |})
          /\ entry_has response "Unknown food" (VInt 200) (VFloat 0.2)
          /\ entry_has entry "Unknown food" (VInt 200) (VFloat 0.2))
  /\ (forall (text : string) (analysis : value),
        send_message image_base64 = Ok text ->
        json_loads (extract_json text) = Ok analysis ->
        (forall (food_name : string) (total_calories confidence : value),
            normalize analysis = Ok (food_name, total_calories, confidence) ->
            exists response entry,
              analyze_food st image_base64 user_id entry_id oid now
              = Ok (VDict response,
                    {| profiles := profiles st;
                       calorie_entries := (calorie_entries st ++ [entry])%list |})
              /\ entry_has response food_name total_calories confidence
              /\ entry_has entry food_name total_calories confidence)
        /\ (forall e : exn,
              normalize analysis = Raise e ->
              analyze_food st image_base64 user_id entry_id oid now
              = Raise (HTTPException 500 ("Error analyzing food: " ++ exn_str e)))).
Proof.
  split; [|split; [|split]].
  - intros e He.
    destruct (analyze_food_of_analysis
                (fallback_analysis 0.2 ("Error occurred: " ++ exn_str e))
                "Unknown food" (VInt 200) (VFloat 0.2))
      as (response & entry & Hrun & Hresp & Hentry & _).
    + unfold analyze_food_with_ai. now rewrite He.
    + apply normalize_fallback.
    + eauto.
  - intros text Htext Hparse.
    destruct (analyze_food_of_analysis
                (fallback_analysis 0.3 ("Analysis text: " ++ text))
                "Unknown food" (VInt 200) (VFloat 0.3))
      as (response & entry & Hrun & Hresp & Hentry & _).
    + unfold analyze_food_with_ai. rewrite Htext. cbn [bind]. now rewrite Hparse.
    + apply normalize_fallback.
    + eauto.
  - intros text e Htext Hparse Hother.
    destruct (analyze_food_of_analysis
                (fallback_analysis 0.2 ("Error occurred: " ++ exn_str e))
                "Unknown food" (VInt 200) (VFloat 0.2))
      as (response & entry & Hrun & Hresp & Hentry & _).
    + unfold analyze_food_with_ai. rewrite Htext. cbn [bind]. rewrite Hparse.
      destruct e; try reflexivity. contradiction.
    + apply normalize_fallback.
    + eauto.
  - intros text analysis Htext Hparse.
    assert (Hai : analyze_food_with_ai image_base64 = Ok analysis).
    { unfold analyze_food_with_ai. rewrite Htext. cbn [bind]. now rewrite Hparse. }
    split.
    + intros food_name total_calories confidence Hnorm.
      destruct (analyze_food_of_analysis analysis food_name total_calories confidence
                  Hai Hnorm) as (response & entry & Hrun & Hresp & Hentry & _).
      eauto.
    + intros e Hnorm. unfold analyze_food. rewrite Hai. cbn [bind]. rewrite Hnorm.
      reflexivity.
Qed.

(** C4 (amended): when the analyser's answer parses to an object whose
    food_items is a list of objects with a string name, the entry's name
    is the item names joined with ", " in the order returned and its
    calorie total is the analyser's total_calories; when the analyser
    gave no total the calorie total is 0. *)
Theorem analyze_food_normalizes
    (text : string) (d : dict) (items : list value) (names : list string) :
  send_message image_base64 = Ok text ->
  json_loads (extract_json text) = Ok (VDict d) ->
  dict_get_default d "food_items" (VList []) = VList items ->
  Forall2 (fun item name => py_getitem item "name" = Ok (VStr name)) items names ->
  exists response entry,
    analyze_food st image_base64 user_id entry_id oid now
    = Ok (VDict response,
          {| profiles := profiles st;
             calorie_entries := (calorie_entries st ++ [entry])%list |})
    /\ entry_has response (String.concat ", " names)
         (match dict_get d "total_calories" with Some total => total | None => VInt 0 end)
         (dict_get_default d "analysis_confidence" (VFloat 0.5))
    /\ entry_has entry (String.concat ", " names)
         (match dict_get d "total_calories" with Some total => total | None => VInt 0 end)
         (dict_get_default d "analysis_confidence" (VFloat 0.5)).
Proof.
  intros Htext Hparse Hitems Hnames.
  destruct (analyze_food_of_analysis (VDict d) (String.concat ", " names)
              (dict_get_default d "total_calories" (VInt 0))
              (dict_get_default d "analysis_confidence" (VFloat 0.5)))
    as (response & entry & Hrun & Hresp & Hentry & _).
  - unfold analyze_food_with_ai. rewrite Htext. cbn [bind]. now rewrite Hparse.
  - unfold normalize. cbn [py_get bind]. rewrite Hitems. cbn [py_iter bind].
    rewrite (mapM_getitem_names _ _ Hnames). cbn [bind].
    rewrite py_join_strings. reflexivity.
  - exists response, entry. auto.
Qed.

End Analysis.

Lemma analyze_food_fallback_witness :
  (exists response entry,
      analyze_food (ext := sample_externals (Raise (ProviderError "Request timed out")))
                   sample_store "aGVsbG8=" "u1" "e2" "65f1" 1700000100000
      = Ok (VDict response,
            {| profiles := profiles sample_store;
               calorie_entries := (calorie_entries sample_store ++ [entry])%list |})
      /\ entry_has response "Unknown food" (VInt 200) (VFloat 0.2)
      /\ entry_has entry "Unknown food" (VInt 200) (VFloat 0.2))
  /\ (exists response entry,
        analyze_food (ext := sample_externals (Ok "It looks like a sandwich."))
                     sample_store "aGVsbG8=" "u1" "e2" "65f1" 1700000100000
        = Ok (VDict response,
              {| profiles := profiles sample_store;
                 calorie_entries := (calorie_entries sample_store ++ [entry])%list |})
        /\ entry_has response "Unknown food" (VInt 200) (VFloat 0.3)
        /\ entry_has entry "Unknown food" (VInt 200) (VFloat 0.3))
  /\ (exists response entry,
        analyze_food (ext := nested_externals)
                     sample_store "aGVsbG8=" "u1" "e2" "65f1" 1700000100000
        = Ok (VDict response,
              {| profiles := profiles sample_store;
                 calorie_entries := (calorie_entries sample_store ++ [entry])%list |})
        /\ entry_has response "Unknown food" (VInt 200) (VFloat 0.2)
        /\ entry_has entry "Unknown food" (VInt 200) (VFloat 0.2))
  /\ analyze_food (ext := list_externals)
                  sample_store "aGVsbG8=" "u1" "e2" "65f1" 1700000100000
     = Raise (HTTPException 500 "Error analyzing food: 'list' object has no attribute 'get'").
Proof.
  split; [|split; [|split]].
  - apply (proj1 (analyze_food_fallback
                    (ext := sample_externals (Raise (ProviderError "Request timed out")))
                    sample_store "aGVsbG8=" "u1" "e2" "65f1" 1700000100000)
                 (ProviderError "Request timed out")).
    reflexivity.
  - apply (proj1 (proj2 (analyze_food_fallback
                           (ext := sample_externals (Ok "It looks like a sandwich."))
                           sample_store "aGVsbG8=" "u1" "e2" "65f1" 1700000100000))
                 "It looks like a sandwich.");
      reflexivity.
  - apply (proj1 (proj2 (proj2 (analyze_food_fallback
                                  (ext := nested_externals)
                                  sample_store "aGVsbG8=" "u1" "e2" "65f1" 1700000100000)))
                 nested_text RecursionError).
    + reflexivity.
    + vm_compute. reflexivity.
    + discriminate.
  - apply (proj2 (proj2 (proj2 (proj2 (analyze_food_fallback
                                         (ext := list_externals)
                                         sample_store "aGVsbG8=" "u1" "e2" "65f1"
                                         1700000100000)))
                        "[1, 2]" (VList [VInt 1; VInt 2]) eq_refl eq_refl)
                 (AttributeError "get")).
    reflexivity.
Defined.

(** C5 (as stated): an answer of 200000 opening brackets does not err and
    cannot be parsed: [json.loads] gives up with a RecursionError, and the
    entry has confidence 0.2, not the 0.3 of an unparseable answer.  The
    answer [[1, 2]], which is no analysis either, gives no entry at all:
    the handler fails with the HTTP error 500. *)
Lemma analyze_food_unparseable_is_not_03 :
  (exists response entry,
      analyze_food (ext := nested_externals)
                   sample_store "aGVsbG8=" "u1" "e2" "65f1" 1700000100000
      = Ok (VDict response,
            {| profiles := profiles sample_store;
               calorie_entries := (calorie_entries sample_store ++ [entry])%list |})
      /\ @json_loads nested_externals (extract_json nested_text) = Raise RecursionError
      /\ entry_has entry "Unknown food" (VInt 200) (VFloat 0.2)
      /\ ~ entry_has entry "Unknown food" (VInt 200) (VFloat 0.3))
  /\ analyze_food (ext := list_externals)
                  sample_store "aGVsbG8=" "u1" "e2" "65f1" 1700000100000
     = Raise (HTTPException 500 "Error analyzing food: 'list' object has no attribute 'get'").
Proof.
  split.
  - destruct (analyze_food_of_analysis (ext := nested_externals)
                sample_store "aGVsbG8=" "u1" "e2" "65f1" 1700000100000
                (fallback_analysis 0.2 ("Error occurred: " ++ sample_exn_str RecursionError))
                "Unknown food" (VInt 200) (VFloat 0.2))
      as (response & entry & Hrun & _ & Hentry & _).
    + vm_compute. reflexivity.
    + apply normalize_fallback.
    + exists response, entry. split; [exact Hrun|]. split; [vm_compute; reflexivity|].
      split; [exact Hentry|].
      intros (_ & _ & Hconf). destruct Hentry as (_ & _ & Hconf').
      rewrite Hconf' in Hconf.
      apply (f_equal (fun v => match v with
                               | Some (VFloat x) => (x =? 0.2)%float
                               | _ => false
                               end)) in Hconf.
      vm_compute in Hconf. discriminate.
  - vm_compute. reflexivity.
Qed.

(** C4 (as stated): for an analysis of two items of 95 and 80 calories
    and no total, the sum of the item calories is 175 but the entry
    [analyze_food] returns and stores has 0 calories. *)
Lemma analyze_food_untotalled_is_zero :
  NormalizerSpec.total_calories untotalled_analysis = Ok (VInt 175)
  /\ exists response entry,
       analyze_food (ext := sample_externals (Ok untotalled_json))
                    sample_store "aGVsbG8=" "u1" "e2" "65f1" 1700000100000
       = Ok (VDict response,
             {| profiles := profiles sample_store;
                calorie_entries := (calorie_entries sample_store ++ [entry])%list |})
       /\ entry_has response "Apple, Toast" (VInt 0) (VFloat 0.8)
       /\ entry_has entry "Apple, Toast" (VInt 0) (VFloat 0.8).
Proof.
  split; [reflexivity|].
  do 2 eexists. split; [reflexivity|].
  repeat split; reflexivity.
Qed.

Lemma analyze_food_normalizes_witness :
  exists response entry,
    analyze_food (ext := sample_externals (Ok untotalled_json))
                 sample_store "aGVsbG8=" "u1" "e2" "65f1" 1700000100000
    = Ok (VDict response,
          {| profiles := profiles sample_store;
             calorie_entries := (calorie_entries sample_store ++ [entry])%list |})
    /\ entry_has response (String.concat ", " ["Apple"; "Toast"]) (VInt 0) (VFloat 0.8)
    /\ entry_has entry (String.concat ", " ["Apple"; "Toast"]) (VInt 0) (VFloat 0.8).
Proof.
  apply (analyze_food_normalizes
           (ext := sample_externals (Ok untotalled_json))
           sample_store "aGVsbG8=" "u1" "e2" "65f1" 1700000100000
           untotalled_json
           [ ("food_items",
              VList [ VDict [ ("name", VStr "Apple"); ("calories", VInt 95) ];
                      VDict [ ("name", VStr "Toast"); ("calories", VInt 80) ] ]);
             ("analysis_confidence", VFloat 0.8) ]
           [ VDict [ ("name", VStr "Apple"); ("calories", VInt 95) ];
             VDict [ ("name", VStr "Toast"); ("calories", VInt 80) ] ]
           ["Apple"; "Toast"]).
  - reflexivity.
  - reflexivity.
  - reflexivity.
  - repeat constructor.
Defined.

(** ** Profiles *)

Lemma find_one_field (coll : list dict) (key s : string) (d : dict) :
  find_one coll key s = Some d -> field_is key s d = true.
Proof. intros Hf. apply find_some in Hf. apply Hf. Qed.

Lemma found_find_one (coll : list dict) (key s : string) :
  found (find_one coll key s) = find_one coll key s.
Proof.
  destruct (find_one coll key s) as [[|kv d]|] eqn:E; try reflexivity.
  apply find_one_field in E. discriminate E.
Qed.

Lemma find_one_holds (coll : list dict) (key s : string) :
  Exists (fun d => dict_get d key = Some (VStr s)) coll ->
  exists d, find_one coll key s = Some d.
Proof.
  induction 1 as [d coll Hd | d coll _ IH]; unfold find_one; cbn.
  - unfold field_is. rewrite Hd, String.eqb_refl. eauto.
  - destruct (field_is key s d); [eauto | exact IH].
Qed.

(** ** History *)

Lemma timedelta_not_global : load_global server_globals "timedelta" = Raise (NameError "timedelta").
Proof. reflexivity. Qed.

(** C2: for a user who has a profile, [get_history] raises the NameError
    of the name timedelta, which the module never binds, before it
    queries the entries; so for no user at all does it return a history. *)
Theorem get_history_name_error (st : store) (user_id : string) (days now : Z) :
  (Exists (fun p => dict_get p "user_id" = Some (VStr user_id)) (profiles st) ->
   get_history server_globals st user_id days now = Raise (NameError "timedelta"))
  /\ (forall response : value,
        get_history server_globals st user_id days now <> Ok response).
Proof.
  assert (Hcases : get_history server_globals st user_id days now
                   = match find_one (profiles st) "user_id" user_id with
                     | Some _ => Raise (NameError "timedelta")
                     | None => Raise (HTTPException 404 "User profile not found")
                     end).
  { unfold get_history. rewrite found_find_one.
    destruct (find_one (profiles st) "user_id" user_id); [|reflexivity].
    rewrite timedelta_not_global. reflexivity. }
  split.
  - intros Hex. rewrite Hcases.
    destruct (find_one_holds _ _ _ Hex) as (p & ->). reflexivity.
  - intros response. rewrite Hcases.
    destruct (find_one (profiles st) "user_id" user_id); discriminate.
Qed.

Lemma get_history_name_error_witness :
  get_history server_globals history_store "u1" 7 history_now
  = Raise (NameError "timedelta").
Proof.
  apply (proj1 (get_history_name_error history_store "u1" 7 history_now)).
  apply Exists_cons_hd. reflexivity.
Defined.

(** C1 (the failing input): the store holds a profile of u1 and entries
    of u1 on 2023-11-13 and 2023-11-14, and the instant is on 2023-11-14.
    A history of 7 days should have the two rows of those days, and has
    them once the name timedelta is bound; the module as it is raises
    NameError. *)
Theorem get_history_sample :
  get_history server_globals history_store "u1" 7 history_now
  = Raise (NameError "timedelta")
  /\ get_history ("timedelta" :: server_globals) history_store "u1" 7 history_now
     = Ok (VDict
             [ ("history",
                VList
                  [ VDict [ ("date", VStr "2023-11-13");
                            ("total_calories", VFloat 250);
                            ("target_calories", VFloat 2000);
                            ("entry_count", VInt 1);
                            ("percentage_of_target", VFloat 12.5) ];
                    VDict [ ("date", VStr "2023-11-14");
                            ("total_calories", VFloat 500);
                            ("target_calories", VFloat 2000);
                            ("entry_count", VInt 1);
                            ("percentage_of_target", VFloat 25) ] ]);
               ("target_calories", VFloat 2000);
               ("period_days", VInt 7) ]).
Proof. split; vm_compute; reflexivity. Qed.

(** *** The percentage of the target *)

Lemma int_to_float_raises (n : Z) (e : exn) :
  int_to_float n = Raise e -> e = OverflowError.
Proof.
  unfold int_to_float. destruct (Z_to_SF n); intros E; congruence.
Qed.


Lemma to_num_raises (v : value) (e : exn) : to_num v = Raise e -> e = TypeError.
Proof. destruct v; cbn; intros E; congruence. Qed.




Lemma py_truediv_zero (a b : pynum) (x : float) :
  py_is_zero b = true -> as_float a = Ok x -> py_truediv a b = Raise ZeroDivisionError.
Proof.
  intros Hb Ha.
  destruct a as [m|x'], b as [n|y]; cbn in *.
  - unfold int_truediv. now rewrite Hb.
  - rewrite Ha. cbn. now rewrite Hb.
  - apply Z.eqb_eq in Hb. subst n. reflexivity.
  - now rewrite Hb.
Qed.






(** Were the rows ever computed, a stored target of 0 and one day in the
    cursor would divide by zero: lines 353-361 guard an absent target
    only.  The handler as shipped does not get that far. *)
Lemma history_zero_target_divides_by_zero :
  history_response
    [ ("user_id", VStr "u1"); ("daily_calorie_target", VFloat 0) ]
    [ [ ("_id", VStr "2023-11-14"); ("total_calories", VFloat 500);
        ("entry_count", VInt 1) ] ]
    7
  = Raise ZeroDivisionError
  /\ get_history ("timedelta" :: server_globals) zero_target_store "u1" 7 history_now
     = Raise ZeroDivisionError.
Proof. split; vm_compute; reflexivity. Qed.

Lemma history_row_float (target : value) (t : pynum) (x y : float) (date count : value) :
  to_num target = Ok t ->
  py_is_zero t = false ->
  as_float t = Ok y ->
  history_row target [ ("_id", date); ("total_calories", VFloat x); ("entry_count", count) ]
  = Ok [ ("date", date);
         ("total_calories", VFloat x);
         ("target_calories", target);
         ("entry_count", count);
         ("percentage_of_target", VFloat (x / y * 100)%float) ].
Proof.
  intros Ht Hz Hy.
  unfold history_row. cbn [py_getitem dict_get String.eqb Ascii.eqb Bool.eqb bind].
  unfold v_truediv. rewrite Ht. cbn [to_num bind].
  assert (Hdiv : py_truediv (PFloat x) t = Ok (PFloat (x / y)%float)).
  { destruct t as [n|y']; cbn in *.
    - rewrite Hy. cbn. now rewrite Hz.
    - injection Hy as ->. now rewrite Hz. }
  rewrite Hdiv. cbn [bind of_num]. reflexivity.
Qed.

(** A target equal to 0 makes the first row raise. *)
Lemma history_response_zero_target
    (profile : dict) (t : pynum) (x : float) (date count : value)
    (rest : list dict) (days : Z) :
  to_num (dict_get_default profile "daily_calorie_target" (VInt 2000)) = Ok t ->
  py_is_zero t = true ->
  history_response profile
    ([ ("_id", date); ("total_calories", VFloat x); ("entry_count", count) ] :: rest) days
  = Raise ZeroDivisionError.
Proof.
  intros Ht Hz. unfold history_response. cbn [mapM].
  unfold history_row. cbn [py_getitem dict_get String.eqb Ascii.eqb Bool.eqb bind].
  unfold v_truediv. rewrite Ht. cbn [to_num bind].
  rewrite (py_truediv_zero (PFloat x) t x Hz eq_refl). reflexivity.
Qed.





(** ** Daily intake *)

Lemma dict_get_pop_other (d : dict) (k k0 : string) :
  k0 <> k -> dict_get (dict_pop d k) k0 = dict_get d k0.
Proof.
  intros Hne. induction d as [|[k' v'] d IH]; cbn; [reflexivity|].
  destruct (String.eqb_spec k' k) as [->|Hk]; cbn.
  - destruct (String.eqb_spec k k0); [congruence | reflexivity].
  - destruct (String.eqb k' k0); [reflexivity | exact IH].
Qed.

Lemma v_add_float (t : float) (v : value) (x : float) :
  float_of_value v = Ok x -> v_add (VFloat t) v = Ok (VFloat (t + x)%float).
Proof.
  unfold float_of_value, v_add. cbn [to_num bind].
  destruct (to_num v) as [[n|y]|e]; cbn; try discriminate.
  - intros ->. reflexivity.
  - intros E. injection E as ->. reflexivity.
Qed.

Lemma v_sub_float (v : value) (t total : float) :
  float_of_value v = Ok t -> v_sub v (VFloat total) = Ok (VFloat (t - total)%float).
Proof.
  unfold float_of_value, v_sub.
  destruct (to_num v) as [[n|y]|e]; cbn; try discriminate.
  - intros ->. reflexivity.
  - intros E. injection E as ->. reflexivity.
Qed.

Lemma Forall_filter_keep {A : Type} (P : A -> Prop) (f : A -> bool) (l : list A) :
  Forall P l -> Forall P (filter f l).
Proof.
  induction 1 as [|a l Ha _ IH]; cbn; [constructor|].
  destruct (f a); auto.
Qed.

Lemma as_float_py_max_0 (x : float) :
  as_float (py_max (PInt 0) (PFloat x)) = Ok (fmax 0 x).
Proof.
  unfold py_max, fmax, py_lt.
  replace (small_int 0) with true by reflexivity.
  replace (Z_to_float 0) with 0%float by reflexivity.
  destruct (0 <? x)%float; reflexivity.
Qed.

Section DailyIntake.

Context {ext : Externals}.

(** The loop adds the calories of the cursor's entries onto the running
    total, one after the other. *)
Lemma daily_loop_sum (cursor entries : list dict) (t : float) :
  Forall (fun e => exists x, float_of_value (dict_get_default e "calories" (VInt 0)) = Ok x)
         cursor ->
  daily_loop cursor entries (VFloat t)
  = Ok ((entries ++ map (fun e => dict_pop e "_id") cursor)%list,
        VFloat (fold_left (fun sum e => (sum + IntakeSpec.calories e)%float) cursor t)).
Proof.
  intros Hall. revert entries t.
  induction Hall as [|e cursor [x Hx] _ IH]; intros entries t;
    cbn [daily_loop map fold_left].
  - now rewrite app_nil_r.
  - assert (E : dict_get_default (dict_pop e "_id") "calories" (VInt 0)
                = dict_get_default e "calories" (VInt 0)).
    { unfold dict_get_default. now rewrite dict_get_pop_other by discriminate. }
    assert (Hc : IntakeSpec.calories e = x).
    { unfold IntakeSpec.calories. now rewrite Hx. }
    rewrite E, (v_add_float t _ x Hx). cbn [bind]. now rewrite IH, <- app_assoc, Hc.
Qed.

(** C8: for a user with a profile, on the day [day] the date stands for
    (the day of the call when the date is absent or empty), with a target
    of float value [t] and entries of that day whose calories are numbers,
    [get_daily_intake] returns as total the sum of the calories of the
    user's entries of that day, added in the order of their timestamps
    onto 0.0, and as remaining calories max(0, t - total), which is never
    negative. *)
Theorem get_daily_intake_remaining
    (st : store) (user_id : string) (date : option string) (now day : Z) (t : float) :
  Exists (fun p => dict_get p "user_id" = Some (VStr user_id)) (profiles st) ->
  date_resolves date now day ->
  (forall p, find_one (profiles st) "user_id" user_id = Some p ->
             float_of_value (dict_get_default p "daily_calorie_target" (VInt 2000)) = Ok t) ->
  Forall (fun e => exists x, float_of_value (dict_get_default e "calories" (VInt 0)) = Ok x)
         (day_cursor st user_id day) ->
  exists (response : dict) (remaining : pynum),
    get_daily_intake st user_id date now = Ok (VDict response)
    /\ dict_get response "total_calories"
       = Some (VFloat (IntakeSpec.total (day_cursor st user_id day)))
    /\ dict_get response "remaining_calories" = Some (of_num remaining)
    /\ remaining
       = py_max (PInt 0) (PFloat (t - IntakeSpec.total (day_cursor st user_id day))%float)
    /\ as_float remaining
       = Ok (IntakeSpec.remaining t (IntakeSpec.total (day_cursor st user_id day)))
    /\ py_le (PInt 0) remaining = true.
Proof.
  intros Hprofile Hdate Htarget Hentries.
  destruct (find_one_holds _ _ _ Hprofile) as (profile & Hfind).
  specialize (Htarget profile Hfind).
  unfold get_daily_intake.
  assert (Hday : match date with
                 | Some (String c s) =>
                     match fromisoformat_date (String c s) with
                     | Some d => Ok d
                     | None => Raise (HTTPException 400 "Invalid date format")
                     end
                 | _ => Ok (day_of now)
                 end = Ok day).
  { unfold date_resolves in Hdate.
    destruct date as [[|c s]|]; try (now subst day). now rewrite Hdate. }
  rewrite Hday. cbn [bind].
  rewrite found_find_one, Hfind.
  fold (day_cursor st user_id day).
  rewrite (daily_loop_sum _ [] 0%float Hentries). cbn [bind].
  fold (IntakeSpec.total (day_cursor st user_id day)).
  rewrite (v_sub_float _ t _ Htarget). cbn [bind v_max0 to_num].
  eexists _, _. split; [reflexivity|].
  split; [reflexivity|]. split; [reflexivity|]. split; [reflexivity|].
  split; [apply as_float_py_max_0 | now apply py_max_ge_left_small].
Qed.

End DailyIntake.

Lemma get_daily_intake_remaining_witness :
  exists (response : dict) (remaining : pynum),
    get_daily_intake (ext := sample_externals (Raise (ProviderError "Request timed out")))
                     history_store "u1" None history_now = Ok (VDict response)
    /\ dict_get response "total_calories"
       = Some (VFloat (IntakeSpec.total (day_cursor history_store "u1" (day_of history_now))))
    /\ dict_get response "remaining_calories" = Some (of_num remaining)
    /\ remaining
       = py_max (PInt 0)
           (PFloat (2000 - IntakeSpec.total
                             (day_cursor history_store "u1" (day_of history_now)))%float)
    /\ as_float remaining
       = Ok (IntakeSpec.remaining 2000
               (IntakeSpec.total (day_cursor history_store "u1" (day_of history_now))))
    /\ py_le (PInt 0) remaining = true.
Proof.
  apply (get_daily_intake_remaining
           (ext := sample_externals (Raise (ProviderError "Request timed out")))
           history_store "u1" None history_now (day_of history_now) 2000%float).
  - apply Exists_cons_hd. reflexivity.
  - reflexivity.
  - intros p Hp. vm_compute in Hp. injection Hp as <-. reflexivity.
  - vm_compute. repeat constructor; eexists; reflexivity.
Defined.

(** On that store the day of [history_now] has one entry of u1, of 500
    calories: the total is 500.0 and 1500.0 remain of the 2000. *)
Example get_daily_intake_history_store :
  IntakeSpec.total (day_cursor history_store "u1" (day_of history_now)) = 500%float
  /\ exists entry,
       get_daily_intake (ext := sample_externals (Raise (ProviderError "Request timed out")))
                        history_store "u1" None history_now
       = Ok (VDict [ ("date", VStr "2023-11-14");
                     ("total_calories", VFloat 500);
                     ("target_calories", VFloat 2000);
                     ("entries", VList [VDict entry]);
                     ("remaining_calories", VFloat 1500) ]).
Proof. split; [vm_compute; reflexivity | eexists; vm_compute; reflexivity]. Qed.

(** ** The aggregation pipeline of the history *)

Lemma group_add_keys (k : string) (c : value) (gs : list group) :
  map group_key (group_add k c gs)
  = if existsb (String.eqb k) (map group_key gs)
    then map group_key gs
    else (map group_key gs ++ [k])%list.
Proof.
  induction gs as [|[[k0 total] count] gs IH]; [reflexivity|].
  cbn [group_add map existsb].
  change (group_key (k0, total, count)) with k0.
  rewrite (String.eqb_sym k k0).
  destruct (String.eqb k0 k) eqn:E; cbn [map orb]; [reflexivity|].
  change (group_key (k0, total, count)) with k0.
  rewrite IH. destruct (existsb (String.eqb k) (map group_key gs)); reflexivity.
Qed.

Lemma group_add_In (k : string) (c : value) (gs : list group) (s : string) :
  In s (map group_key (group_add k c gs)) <-> s = k \/ In s (map group_key gs).
Proof.
  rewrite group_add_keys.
  destruct (existsb (String.eqb k) (map group_key gs)) eqn:E.
  - apply existsb_eqb_In in E. split; [auto|]. intros [->|Hin]; assumption.
  - rewrite in_app_iff. cbn. intuition.
Qed.

Lemma group_add_NoDup (k : string) (c : value) (gs : list group) :
  NoDup (map group_key gs) -> NoDup (map group_key (group_add k c gs)).
Proof.
  intros Hnd. rewrite group_add_keys.
  destruct (existsb (String.eqb k) (map group_key gs)) eqn:E; [exact Hnd|].
  apply NoDup_app; [exact Hnd | repeat constructor; intros [] |].
  intros s Hs [<-|[]].
  apply existsb_eqb_In in Hs. congruence.
Qed.

Lemma group_add_counts (k : string) (c : value) (gs : list group) :
  Forall (fun g => 1 <= group_count g) gs ->
  Forall (fun g => 1 <= group_count g) (group_add k c gs).
Proof.
  induction 1 as [|[[k0 total] count] gs Hg Hgs IH]; cbn.
  - repeat constructor. cbn. lia.
  - unfold group_count in Hg. cbn in Hg.
    destruct (String.eqb k0 k); constructor; auto; unfold group_count; cbn; lia.
Qed.

Lemma group_by_date_keys (entries : list dict) (gs : list group) :
  NoDup (map group_key gs) ->
  Forall (fun g => 1 <= group_count g) gs ->
  NoDup (map group_key (group_by_date entries gs))
  /\ Forall (fun g => 1 <= group_count g) (group_by_date entries gs)
  /\ (forall s, In s (map group_key (group_by_date entries gs))
                <-> In s (map group_key gs)
                    \/ exists e, In e entries /\ entry_date e = s).
Proof.
  revert gs. induction entries as [|e es IH]; intros gs Hnd Hc; cbn [group_by_date].
  - repeat split; auto. intros [Hin|(e & [] & _)]. exact Hin.
  - destruct (IH (group_add (entry_date e) (dict_get_default e "calories" VNone) gs))
      as (Hnd' & Hc' & Hin').
    + now apply group_add_NoDup.
    + now apply group_add_counts.
    + repeat split; auto.
      * intros Hs. apply Hin' in Hs. destruct Hs as [Hs|(e' & He' & Hd)].
        -- apply group_add_In in Hs. destruct Hs as [->|Hs]; [|now left].
           right. exists e. split; [now left | reflexivity].
        -- right. exists e'. split; [now right | exact Hd].
      * intros Hs. apply Hin'. destruct Hs as [Hs|(e' & [->|He'] & Hd)].
        -- left. apply group_add_In. now right.
        -- left. apply group_add_In. now left.
        -- right. eauto.
Qed.

Lemma insert_by_id_perm (g : group) (l : list group) :
  Permutation (insert_by_id g l) (g :: l).
Proof.
  induction l as [|g' l IH]; cbn; [reflexivity|].
  destruct (String.leb (group_key g) (group_key g')); [reflexivity|].
  rewrite IH. apply perm_swap.
Qed.

Lemma sort_by_id_perm (l : list group) : Permutation (sort_by_id l) l.
Proof.
  induction l as [|g l IH]; cbn; [reflexivity|].
  rewrite insert_by_id_perm. now constructor.
Qed.

Lemma insert_by_id_sorted (g : group) (l : list group) :
  LocallySorted key_le l -> LocallySorted key_le (insert_by_id g l).
Proof.
  induction 1 as [|a|a b l Hl IH Hab]; cbn.
  - constructor.
  - destruct (String.leb (group_key g) (group_key a)) eqn:E.
    + constructor; [constructor | exact E].
    + constructor; [constructor|].
      destruct (String.leb_total (group_key g) (group_key a)); [congruence | assumption].
  - destruct (String.leb (group_key g) (group_key a)) eqn:E.
    + constructor; [constructor; assumption | exact E].
    + cbn in IH.
      destruct (String.leb (group_key g) (group_key b)) eqn:E'.
      * constructor; [exact IH|].
        destruct (String.leb_total (group_key g) (group_key a)); [congruence | assumption].
      * constructor; assumption.
Qed.

Lemma sort_by_id_sorted (l : list group) : LocallySorted key_le (sort_by_id l).
Proof.
  induction l as [|g l IH]; cbn; [constructor | now apply insert_by_id_sorted].
Qed.

Lemma leb_neq_ltb (a b : string) :
  String.leb a b = true -> a <> b -> String.ltb a b = true.
Proof.
  unfold String.leb, String.ltb. intros Hle Hne.
  destruct (String.compare a b) eqn:E; try easy.
  apply String.compare_eq_iff in E. contradiction.
Qed.

Lemma sorted_keys_strict (l : list group) :
  LocallySorted key_le l -> NoDup (map group_key l) ->
  LocallySorted (fun a b => String.ltb a b = true) (map group_key l).
Proof.
  induction 1 as [|a|a b l Hl IH Hab]; cbn; intros Hnd; try constructor.
  - apply IH. now inversion Hnd.
  - apply leb_neq_ltb; [exact Hab|].
    inversion Hnd as [|? ? Hnotin _]. intros E. apply Hnotin. cbn. now left.
Qed.

(** The cursor of the aggregation: one document per date string that some
    entry of the user in the window has, in strictly ascending order of
    the date string, each counting at least one entry. *)
Lemma aggregate_rows (entries : list dict) (user_id : string) (lo hi : Z) :
  exists groups : list group,
    aggregate entries user_id lo hi = map group_doc groups
    /\ LocallySorted (fun a b => String.ltb a b = true) (map group_key groups)
    /\ Forall (fun g => 1 <= group_count g) groups
    /\ (forall s, In s (map group_key groups)
                  <-> exists e, In e entries
                                /\ in_window user_id lo hi e = true
                                /\ entry_date e = s).
Proof.
  set (matched := filter (in_window user_id lo hi) entries).
  destruct (group_by_date_keys matched []) as (Hnd & Hc & Hin); try constructor.
  exists (sort_by_id (group_by_date matched [])).
  pose proof (sort_by_id_perm (group_by_date matched [])) as Hperm.
  split; [reflexivity|]. split; [|split].
  - apply sorted_keys_strict; [apply sort_by_id_sorted|].
    eapply Permutation_NoDup; [|exact Hnd].
    apply Permutation_map, Permutation_sym, Hperm.
  - eapply Permutation_Forall; [apply Permutation_sym, Hperm | exact Hc].
  - intros s.
    rewrite (Permutation_in' (eq_refl s) (Permutation_map group_key Hperm)).
    rewrite Hin. unfold matched. split.
    + intros [[]|(e & He & Hd)]. apply filter_In in He. exists e. tauto.
    + intros (e & He & Hw & Hd). right. exists e. split; [|exact Hd].
      apply filter_In. tauto.
Qed.

(** ** The history once [timedelta] is bound *)

Lemma day_of_midnight (d : Z) : day_of (d * ms_per_day) = d.
Proof. unfold day_of, ms_per_day. now rewrite Z.div_mul. Qed.

(** With the name bound, a profile found and a day count in range, the
    handler is the response built from the aggregation over the window
    from the midnight [days - 1] days back to the instant [now]. *)
Lemma get_history_bound
    (globals : list string) (st : store) (user_id : string) (days now : Z) (profile : dict) :
  In "timedelta" globals ->
  find_one (profiles st) "user_id" user_id = Some profile ->
  0 < days <= 1000000000 ->
  min_day <= day_of now - (days - 1) <= max_day ->
  get_history globals st user_id days now
  = history_response profile
      (aggregate (calorie_entries st) user_id ((day_of now - (days - 1)) * ms_per_day) now)
      days.
Proof.
  intros Hbound Hfind Hdays Hrange.
  unfold get_history. rewrite found_find_one, Hfind.
  unfold load_global. apply existsb_eqb_In in Hbound. rewrite Hbound. cbn [bind].
  unfold timedelta_days.
  replace (Z.abs (days - 1) <=? 999999999) with true by (symmetry; apply Z.leb_le; lia).
  cbn [bind]. unfold datetime_sub.
  replace (day_of now * ms_per_day - (days - 1) * ms_per_day)
    with ((day_of now - (days - 1)) * ms_per_day) by ring.
  rewrite day_of_midnight.
  replace (min_day <=? day_of now - (days - 1)) with true by (symmetry; apply Z.leb_le; lia).
  replace (day_of now - (days - 1) <=? max_day) with true by (symmetry; apply Z.leb_le; lia).
  reflexivity.
Qed.

Lemma mapM_history_rows (target : value) (t : pynum) (y : float) (groups : list group) :
  to_num target = Ok t ->
  py_is_zero t = false ->
  as_float t = Ok y ->
  Forall (fun g => exists x, group_total g = VFloat x) groups ->
  exists rows,
    mapM (history_row target) (map group_doc groups) = Ok rows
    /\ map (fun row => dict_get row "date") rows
       = map (fun g => Some (VStr (group_key g))) groups.
Proof.
  intros Ht Hz Hy. induction 1 as [|[[k total] count] groups [x Hx] _ (rows & IH & Hd)].
  - exists []. split; reflexivity.
  - cbn in Hx. subst total. cbn [map group_doc mapM].
    rewrite (history_row_float target t x y _ _ Ht Hz Hy). cbn [bind]. rewrite IH. cbn [bind].
    eexists. split; [reflexivity|]. cbn [map]. now rewrite Hd.
Qed.

Lemma group_add_floats (k : string) (x : float) (gs : list group) :
  Forall (fun g => exists x, group_total g = VFloat x) gs ->
  Forall (fun g => exists x, group_total g = VFloat x) (group_add k (VFloat x) gs).
Proof.
  induction 1 as [|[[k0 total] count] gs [x0 Hx0] Hgs IH]; cbn.
  - repeat constructor. cbn. eauto.
  - cbn in Hx0. subst total.
    destruct (String.eqb k0 k); constructor; auto; cbn; eauto.
Qed.

Lemma group_by_date_floats (entries : list dict) (gs : list group) :
  Forall (fun e => exists x, dict_get e "calories" = Some (VFloat x)) entries ->
  Forall (fun g => exists x, group_total g = VFloat x) gs ->
  Forall (fun g => exists x, group_total g = VFloat x) (group_by_date entries gs).
Proof.
  intros Hall. revert gs.
  induction Hall as [|e es [x Hx] _ IH]; intros gs Hgs; cbn [group_by_date]; [exact Hgs|].
  apply IH. unfold dict_get_default. rewrite Hx. now apply group_add_floats.
Qed.

(** With [timedelta] bound, for a user with a profile whose target is a
    number other than 0, a day count in range and entries with float
    calories, the handler returns one row per date string that an entry
    of the user in the window from the midnight [days - 1] days back to
    [now] has, in strictly ascending order of the date string. *)
Theorem get_history_with_timedelta
    (globals : list string) (st : store) (user_id : string) (days now : Z)
    (profile : dict) (t : pynum) (y : float) :
  In "timedelta" globals ->
  find_one (profiles st) "user_id" user_id = Some profile ->
  0 < days <= 1000000000 ->
  min_day <= day_of now - (days - 1) <= max_day ->
  to_num (dict_get_default profile "daily_calorie_target" (VInt 2000)) = Ok t ->
  py_is_zero t = false ->
  as_float t = Ok y ->
  Forall (fun e => exists x, dict_get e "calories" = Some (VFloat x)) (calorie_entries st) ->
  exists (rows : list dict) (dates : list string),
    get_history globals st user_id days now
    = Ok (VDict [ ("history", VList (map VDict rows));
                  ("target_calories",
                   dict_get_default profile "daily_calorie_target" (VInt 2000));
                  ("period_days", VInt days) ])
    /\ map (fun row => dict_get row "date") rows = map (fun s => Some (VStr s)) dates
    /\ LocallySorted (fun a b => String.ltb a b = true) dates
    /\ (forall s, In s dates
                  <-> exists e, In e (calorie_entries st)
                                /\ in_window user_id
                                     ((day_of now - (days - 1)) * ms_per_day) now e = true
                                /\ entry_date e = s).
Proof.
  intros Hbound Hfind Hdays Hrange Ht Hz Hy Hfloats.
  rewrite (get_history_bound globals st user_id days now profile Hbound Hfind Hdays Hrange).
  set (lo := (day_of now - (days - 1)) * ms_per_day).
  destruct (aggregate_rows (calorie_entries st) user_id lo now)
    as (groups & Hagg & Hsorted & _ & Hin).
  assert (Htotals : Forall (fun g => exists x, group_total g = VFloat x) groups).
  { assert (E : Permutation groups
                  (group_by_date (filter (in_window user_id lo now) (calorie_entries st)) [])).
    { unfold aggregate in Hagg.
      assert (Hinj : forall l l', map group_doc l = map group_doc l' -> l = l').
      { induction l as [|[[k a] c] l IHl]; intros [|[[k' a'] c'] l'] E; try discriminate.
        - reflexivity.
        - cbn in E. injection E as -> -> -> E. f_equal. now apply IHl. }
      apply Hinj in Hagg. rewrite <- Hagg. apply sort_by_id_perm. }
    eapply Permutation_Forall; [apply Permutation_sym, E|].
    apply group_by_date_floats; [|constructor].
    now apply Forall_filter_keep. }
  destruct (mapM_history_rows _ t y groups Ht Hz Hy Htotals) as (rows & Hrows & Hdates).
  exists rows, (map group_key groups).
  split; [|split; [|split]].
  - unfold history_response. rewrite Hagg, Hrows. reflexivity.
  - rewrite Hdates, map_map. reflexivity.
  - exact Hsorted.
  - exact Hin.
Qed.

Lemma get_history_with_timedelta_witness :
  exists (rows : list dict) (dates : list string),
    get_history ("timedelta" :: server_globals) history_store "u1" 7 history_now
    = Ok (VDict [ ("history", VList (map VDict rows));
                  ("target_calories", VFloat 2000);
                  ("period_days", VInt 7) ])
    /\ map (fun row => dict_get row "date") rows = map (fun s => Some (VStr s)) dates
    /\ LocallySorted (fun a b => String.ltb a b = true) dates
    /\ (forall s, In s dates
                  <-> exists e, In e (calorie_entries history_store)
                                /\ in_window "u1"
                                     ((day_of history_now - (7 - 1)) * ms_per_day)
                                     history_now e = true
                                /\ entry_date e = s).
Proof.
  apply (get_history_with_timedelta
           ("timedelta" :: server_globals) history_store "u1" 7 history_now
           [ ("_id", VObjectId "65e0"); ("user_id", VStr "u1");
             ("daily_calorie_target", VFloat 2000) ]
           (PFloat 2000) 2000%float).
  - now left.
  - reflexivity.
  - lia.
  - vm_compute. split; discriminate.
  - reflexivity.
  - reflexivity.
  - reflexivity.
  - repeat constructor; eexists; reflexivity.
Defined.

(* ================================================================== *)
(** * Further properties of the handlers *)

(** ** Comparison of floats *)

Lemma SFcompare_antisym (x y : spec_float) :
  SFcompare y x = option_map CompOpp (SFcompare x y).
Proof.
  destruct x as [sx|sx| |sx mx ex], y as [sy|sy| |sy my ey]; cbn;
    try reflexivity; try (destruct sx; reflexivity); try (destruct sy; reflexivity);
    try (destruct sx, sy; reflexivity).
  destruct sx, sy; cbn; try reflexivity.
  - rewrite (Z.compare_antisym ey ex). destruct (ey ?= ex); cbn; try reflexivity.
    rewrite (Pos.compare_cont_antisym mx my Eq). cbn.
    destruct (Pos.compare_cont Eq mx my); reflexivity.
  - rewrite (Z.compare_antisym ey ex). destruct (ey ?= ex); cbn; try reflexivity.
    rewrite (Pos.compare_cont_antisym mx my Eq). reflexivity.
Qed.

Lemma ltb_asym (x y : float) : (x <? y)%float = true -> (y <? x)%float = false.
Proof.
  rewrite !ltb_spec. unfold SFltb. rewrite (SFcompare_antisym (Prim2SF x) (Prim2SF y)).
  destruct (SFcompare (Prim2SF x) (Prim2SF y)) as [[]|]; cbn; congruence.
Qed.

Lemma eqb_not_ltb (x y : float) :
  (x =? y)%float = true -> (x <? y)%float = false /\ (y <? x)%float = false.
Proof.
  rewrite eqb_spec, !ltb_spec. unfold SFeqb, SFltb.
  rewrite (SFcompare_antisym (Prim2SF x) (Prim2SF y)).
  destruct (SFcompare (Prim2SF x) (Prim2SF y)) as [[]|]; cbn; intuition congruence.
Qed.

Lemma nan_not_ltb (x y : float) :
  is_nan x = true -> (x <? y)%float = false /\ (y <? x)%float = false.
Proof.
  intros Hnan. rewrite !ltb_spec. unfold SFltb.
  assert (E : Prim2SF x = S754_nan) by (unfold Prim2SF; now rewrite Hnan).
  rewrite E. cbn. destruct (Prim2SF y); auto.
Qed.

(** ** The calorie target: the other branches *)

Lemma calculate_daily_calories_tdee
    (age : Z) (gender : string) (height weight : float)
    (activity_level : string) (goal_weight a : float) :
  int_to_float age = Ok a ->
  calculate_daily_calories age gender height weight activity_level goal_weight
  = let tdee := CalculatorSpec.TDEE gender weight height a activity_level in
    if (goal_weight <? weight)%float then
      Ok (py_max (PInt 1200)
                 (PFloat (tdee - fmin 500 ((weight - goal_weight) * 50))%float))
    else if (weight <? goal_weight)%float then
      Ok (PFloat (tdee + fmin 500 ((goal_weight - weight) * 50))%float)
    else Ok (PFloat tdee).
Proof.
  intros Hage. unfold calculate_daily_calories. rewrite Hage. cbn [bind].
  rewrite !as_float_py_min_500. cbn [bind].
  unfold CalculatorSpec.TDEE, CalculatorSpec.BMR. rewrite multiplier_table.
  destruct (String.eqb (lower gender) "male"); reflexivity.
Qed.

(** X1: with a goal weight strictly above the current weight the target
    is TDEE + min(500, (goal_weight - weight) * 50), a float with no floor
    of 1200. *)
Theorem calculate_daily_calories_gain
    (age : Z) (gender : string) (height weight : float)
    (activity_level : string) (goal_weight a : float) :
  (weight <? goal_weight)%float = true ->
  int_to_float age = Ok a ->
  calculate_daily_calories age gender height weight activity_level goal_weight
  = Ok (PFloat (CalculatorSpec.TDEE gender weight height a activity_level
                + fmin 500 ((goal_weight - weight) * 50))%float).
Proof.
  intros Hgain Hage. rewrite (calculate_daily_calories_tdee _ _ _ _ _ _ a Hage).
  cbv zeta. now rewrite (ltb_asym _ _ Hgain), Hgain.
Qed.

Lemma calculate_daily_calories_gain_witness :
  calculate_daily_calories 30 "female" 165 55 "sedentary" 60
  = Ok (PFloat (CalculatorSpec.TDEE "female" 55 165 30 "sedentary"
                + fmin 500 ((60 - 55) * 50))%float).
Proof.
  apply (calculate_daily_calories_gain 30 "female" 165 55 "sedentary" 60 30); reflexivity.
Defined.

(** X2: when the goal weight equals the current weight, and also when one
    of the two is not a number (NaN), the target is the TDEE itself. *)
Theorem calculate_daily_calories_maintenance
    (age : Z) (gender : string) (height weight : float)
    (activity_level : string) (goal_weight a : float) :
  (goal_weight =? weight)%float = true \/ is_nan weight = true \/ is_nan goal_weight = true ->
  int_to_float age = Ok a ->
  calculate_daily_calories age gender height weight activity_level goal_weight
  = Ok (PFloat (CalculatorSpec.TDEE gender weight height a activity_level)).
Proof.
  intros Hsame Hage. rewrite (calculate_daily_calories_tdee _ _ _ _ _ _ a Hage).
  cbv zeta.
  assert (H : (goal_weight <? weight)%float = false /\ (weight <? goal_weight)%float = false).
  { destruct Hsame as [H|[H|H]].
    - now apply eqb_not_ltb.
    - destruct (nan_not_ltb weight goal_weight H). auto.
    - now apply nan_not_ltb. }
  destruct H as [-> ->]. reflexivity.
Qed.

Lemma calculate_daily_calories_maintenance_witness :
  calculate_daily_calories 30 "female" 165 55 "sedentary" 55
  = Ok (PFloat (CalculatorSpec.TDEE "female" 55 165 30 "sedentary")).
Proof.
  apply (calculate_daily_calories_maintenance 30 "female" 165 55 "sedentary" 55 30).
  - left. reflexivity.
  - reflexivity.
Defined.

Lemma lower_ascii_letter (c : ascii) (small capital : ascii) :
  In (small, capital)
     [ ("m"%char, "M"%char); ("a"%char, "A"%char);
       ("l"%char, "L"%char); ("e"%char, "E"%char) ] ->
  lower_ascii c = small -> c = small \/ c = capital.
Proof.
  intros Hin.
  destruct Hin as [E|[E|[E|[E|[]]]]]; injection E as <- <-;
    destruct c as [[] [] [] [] [] [] [] []]; vm_compute; intros H;
    try discriminate H; auto.
Qed.

(** The casings of "male" are the only texts the fold turns into it. *)
Lemma lower_male (gender : string) :
  lower gender = "male" ->
  exists c1 c2 c3 c4 : ascii,
    In c1 ["m"%char; "M"%char] /\ In c2 ["a"%char; "A"%char]
    /\ In c3 ["l"%char; "L"%char] /\ In c4 ["e"%char; "E"%char]
    /\ gender = String c1 (String c2 (String c3 (String c4 EmptyString))).
Proof.
  destruct gender as [|c1 [|c2 [|c3 [|c4 [|c5 rest]]]]]; cbn [lower]; try discriminate.
  intros H. injection H as H1 H2 H3 H4.
  apply (lower_ascii_letter c1 "m" "M") in H1; [|cbn; auto].
  apply (lower_ascii_letter c2 "a" "A") in H2; [|cbn; auto].
  apply (lower_ascii_letter c3 "l" "L") in H3; [|cbn; auto 6].
  apply (lower_ascii_letter c4 "e" "E") in H4; [|cbn; auto 6].
  exists c1, c2, c3, c4.
  destruct H1 as [-> | ->], H2 as [-> | ->], H3 as [-> | ->], H4 as [-> | ->];
    cbn [In]; repeat split; auto.
Qed.

(** X3: the gender is read without regard to case: "male" written with
    small or capital letters in any mix ("MALE", "Male", "mAlE") is
    computed as "male", and every other text, "female" or not, is
    computed as "female". *)
Theorem calculate_daily_calories_gender
    (age : Z) (gender : string) (height weight : float)
    (activity_level : string) (goal_weight : float) :
  (forall c1 c2 c3 c4 : ascii,
      In c1 ["m"%char; "M"%char] -> In c2 ["a"%char; "A"%char] ->
      In c3 ["l"%char; "L"%char] -> In c4 ["e"%char; "E"%char] ->
      gender = String c1 (String c2 (String c3 (String c4 EmptyString))) ->
      calculate_daily_calories age gender height weight activity_level goal_weight
      = calculate_daily_calories age "male" height weight activity_level goal_weight)
  /\ ((forall c1 c2 c3 c4 : ascii,
         In c1 ["m"%char; "M"%char] -> In c2 ["a"%char; "A"%char] ->
         In c3 ["l"%char; "L"%char] -> In c4 ["e"%char; "E"%char] ->
         gender <> String c1 (String c2 (String c3 (String c4 EmptyString)))) ->
      calculate_daily_calories age gender height weight activity_level goal_weight
      = calculate_daily_calories age "female" height weight activity_level goal_weight).
Proof.
  split.
  - intros c1 c2 c3 c4 H1 H2 H3 H4 ->.
    destruct H1 as [<-|[<-|[]]], H2 as [<-|[<-|[]]],
             H3 as [<-|[<-|[]]], H4 as [<-|[<-|[]]]; reflexivity.
  - intros Hother. unfold calculate_daily_calories.
    destruct (String.eqb_spec (lower gender) "male") as [E|_]; [|reflexivity].
    exfalso. destruct (lower_male gender E) as (c1 & c2 & c3 & c4 & H1 & H2 & H3 & H4 & Hg).
    exact (Hother c1 c2 c3 c4 H1 H2 H3 H4 Hg).
Qed.

Lemma calculate_daily_calories_gender_witness :
  calculate_daily_calories 25 "MALE" 175 70 "moderately_active" 65
  = calculate_daily_calories 25 "male" 175 70 "moderately_active" 65
  /\ calculate_daily_calories 25 "mAlE" 175 70 "moderately_active" 65
     = Ok (PFloat 2422.2806000000005)
  /\ calculate_daily_calories 25 "Other" 175 70 "moderately_active" 65
     = calculate_daily_calories 25 "female" 175 70 "moderately_active" 65.
Proof.
  split; [|split].
  - apply (proj1 (calculate_daily_calories_gender 25 "MALE" 175 70 "moderately_active" 65)
                 "M"%char "A"%char "L"%char "E"%char); cbn; auto.
  - rewrite (proj1 (calculate_daily_calories_gender 25 "mAlE" 175 70 "moderately_active" 65)
                 "m"%char "A"%char "l"%char "E"%char); cbn [In]; auto.
  - apply (proj2 (calculate_daily_calories_gender 25 "Other" 175 70 "moderately_active" 65)).
    intros c1 c2 c3 c4 _ _ _ _. discriminate.
Defined.

(** X4: an activity level that is none of the five names of the table is
    computed with the multiplier of "lightly_active". *)
Theorem calculate_daily_calories_activity_default
    (age : Z) (gender : string) (height weight : float)
    (activity_level : string) (goal_weight : float) :
  ~ In activity_level (map fst activity_multipliers) ->
  calculate_daily_calories age gender height weight activity_level goal_weight
  = calculate_daily_calories age gender height weight "lightly_active" goal_weight.
Proof.
  intros Hout. unfold calculate_daily_calories.
  assert (E : get_default activity_multipliers activity_level 1.375%float
              = get_default activity_multipliers "lightly_active" 1.375%float).
  { rewrite !multiplier_table. unfold CalculatorSpec.multiplier.
    cbn [map fst activity_multipliers In] in Hout.
    repeat match goal with
           | |- context [String.eqb activity_level ?k] =>
               destruct (String.eqb_spec activity_level k); [exfalso; subst; tauto|]
           end.
    reflexivity. }
  now rewrite E.
Qed.

Lemma calculate_daily_calories_activity_default_witness :
  calculate_daily_calories 25 "male" 175 70 "couch" 65
  = calculate_daily_calories 25 "male" 175 70 "lightly_active" 65.
Proof.
  apply (calculate_daily_calories_activity_default 25 "male" 175 70 "couch" 65).
  cbn. intros [H|[H|[H|[H|[H|[]]]]]]; discriminate H.
Defined.

(** X5: the only exception the calculator raises is the OverflowError of
    an age too large for a float; for an age from 0 to 150 it returns a
    number whatever the other inputs are (infinite or NaN included). *)
Theorem calculate_daily_calories_returns
    (age : Z) (gender : string) (height weight : float)
    (activity_level : string) (goal_weight : float) :
  (forall e, calculate_daily_calories age gender height weight activity_level goal_weight
             = Raise e -> e = OverflowError)
  /\ (0 <= age <= 150 ->
      exists target : pynum,
        calculate_daily_calories age gender height weight activity_level goal_weight
        = Ok target).
Proof.
  assert (Hok : forall a, int_to_float age = Ok a ->
            exists target : pynum,
              calculate_daily_calories age gender height weight activity_level goal_weight
              = Ok target).
  { intros a Ha. rewrite (calculate_daily_calories_tdee _ _ _ _ _ _ a Ha). cbv zeta.
    destruct (goal_weight <? weight)%float; [eauto|].
    destruct (weight <? goal_weight)%float; eauto. }
  split.
  - intros e He. destruct (int_to_float age) as [a|e'] eqn:Ea.
    + destruct (Hok a eq_refl) as (t & Ht). congruence.
    + unfold calculate_daily_calories in He. rewrite Ea in He. cbn in He.
      apply int_to_float_raises in Ea. congruence.
  - intros Hage. destruct (int_to_float_age age Hage) as (a & Ha). eauto.
Qed.

Lemma calculate_daily_calories_returns_witness :
  exists target : pynum,
    calculate_daily_calories 40 "male" infinity nan "sedentary" 0 = Ok target.
Proof.
  apply (proj2 (calculate_daily_calories_returns 40 "male" infinity nan "sedentary" 0)).
  lia.
Defined.

(** ** The JSON extraction *)

Lemma length_app (s t : string) :
  String.length (s ++ t) = (String.length s + String.length t)%nat.
Proof. induction s as [|c s IH]; cbn; [reflexivity | now rewrite IH]. Qed.

Lemma prefix_app (sub rest : string) : String.prefix sub (sub ++ rest) = true.
Proof.
  induction sub as [|c sub IH]; cbn; [now destruct rest|].
  destruct (ascii_dec c c); [exact IH | contradiction].
Qed.

Lemma index_skip (a s sub : string) (k : nat) :
  String.index (String.length a + k) sub (a ++ s)
  = option_map (Nat.add (String.length a)) (String.index k sub s).
Proof.
  induction a as [|c a IH]; cbn.
  - now destruct (String.index k sub s).
  - rewrite IH. now destruct (String.index k sub s).
Qed.

Lemma index_no_char (c0 : ascii) (sub' pre s : string) :
  has_char c0 pre = false ->
  String.index 0 (String c0 sub') (pre ++ s)
  = option_map (Nat.add (String.length pre)) (String.index 0 (String c0 sub') s).
Proof.
  induction pre as [|b pre IH]; cbn [has_char]; intros Hno.
  - cbn. now destruct (String.index 0 (String c0 sub') s).
  - apply orb_false_iff in Hno. destruct Hno as [Hb Hpre].
    cbn [append String.index String.prefix String.length].
    destruct (ascii_dec c0 b) as [->|_].
    + now rewrite Ascii.eqb_refl in Hb.
    + rewrite (IH Hpre). now destruct (String.index 0 (String c0 sub') s).
Qed.

Lemma index_at_prefix (c0 : ascii) (sub' rest : string) :
  String.index 0 (String c0 sub') (String c0 sub' ++ rest) = Some 0%nat.
Proof.
  cbn [append String.index].
  change (String c0 (sub' ++ rest)) with (String c0 sub' ++ rest).
  now rewrite prefix_app.
Qed.

Lemma index_none_no_char (c0 : ascii) (sub' s : string) :
  has_char c0 s = false -> String.index 0 (String c0 sub') s = None.
Proof.
  induction s as [|b s IH]; cbn [has_char]; intros Hno; [reflexivity|].
  apply orb_false_iff in Hno. destruct Hno as [Hb Hs].
  cbn [String.index String.prefix].
  destruct (ascii_dec c0 b) as [->|_]; [now rewrite Ascii.eqb_refl in Hb|].
  now rewrite (IH Hs).
Qed.

Lemma rfind_aux_no_char (c : ascii) (s : string) (pos : nat) (best : Z) :
  has_char c s = false -> rfind_aux s (String c EmptyString) pos best = best.
Proof.
  revert pos best. induction s as [|b s IH]; cbn [has_char]; intros pos best Hno.
  - reflexivity.
  - apply orb_false_iff in Hno. destruct Hno as [Hb Hs].
    cbn [rfind_aux String.prefix].
    destruct (ascii_dec c b) as [->|_]; [now rewrite Ascii.eqb_refl in Hb|].
    now apply IH.
Qed.

Lemma rfind_aux_last (c : ascii) (xs post : string) (pos : nat) (best : Z) :
  has_char c post = false ->
  rfind_aux (xs ++ String c post) (String c EmptyString) pos best
  = Z.of_nat (pos + String.length xs).
Proof.
  intros Hno. revert pos best. induction xs as [|b xs IH]; intros pos best.
  - cbn [append rfind_aux String.length].
    assert (E : String.prefix (String c EmptyString) (String c post) = true)
      by apply (prefix_app (String c EmptyString) post).
    rewrite E, rfind_aux_no_char by exact Hno. f_equal. lia.
  - cbn [append rfind_aux String.length]. rewrite IH. f_equal. lia.
Qed.

Lemma substring_app (pre body post : string) :
  String.substring (String.length pre) (String.length body) (pre ++ body ++ post) = body.
Proof.
  induction pre as [|c pre IH]; cbn [String.length append String.substring].
  - induction body as [|b body IHb]; cbn.
    + now destruct post.
    + now rewrite IHb.
  - exact IH.
Qed.

Lemma slice_substring (s : string) (a b : nat) :
  (a <= b <= String.length s)%nat ->
  slice s (Z.of_nat a) (Z.of_nat b) = String.substring a (b - a) s.
Proof.
  intros H. unfold slice.
  replace (Z.of_nat a <? 0) with false by (symmetry; apply Z.ltb_ge; lia).
  replace (Z.of_nat b <? 0) with false by (symmetry; apply Z.ltb_ge; lia).
  rewrite !Z.min_r by lia.
  rewrite Nat2Z.id. f_equal. lia.
Qed.

Lemma append_assoc (a b c : string) : (a ++ b) ++ c = a ++ (b ++ c).
Proof. induction a as [|x a IH]; cbn; [reflexivity | now rewrite IH]. Qed.

Lemma index_char_found (c : ascii) (xs post : string) :
  exists i, String.index 0 (String c EmptyString) (xs ++ String c post) = Some i.
Proof.
  induction xs as [|b xs (i & IH)].
  - exists 0%nat. apply (index_at_prefix c EmptyString post).
  - cbn [append String.index]. rewrite IH.
    destruct (String.prefix _ _); eauto.
Qed.

(** X6: in a text without a json fence, whatever precedes the first
    opening brace and follows the last closing brace is dropped: the
    parser receives the text from the first "{" to the last "}". *)
Theorem extract_json_braces (pre mid post : string) :
  contains fence (pre ++ "{" ++ mid ++ "}" ++ post) = false ->
  has_char "{"%char pre = false ->
  has_char "}"%char post = false ->
  extract_json (pre ++ "{" ++ mid ++ "}" ++ post) = "{" ++ mid ++ "}".
Proof.
  intros Hfence Hpre Hpost.
  set (text := pre ++ "{" ++ mid ++ "}" ++ post) in *.
  assert (Hopen : String.index 0 "{" text = Some (String.length pre)).
  { unfold text. rewrite (index_no_char "{"%char EmptyString pre _ Hpre).
    rewrite (index_at_prefix "{"%char EmptyString). cbn. f_equal. lia. }
  assert (Htext : text = (pre ++ "{" ++ mid) ++ String "}"%char post).
  { unfold text. now rewrite !append_assoc. }
  assert (Hclose : exists i, String.index 0 "}" text = Some i).
  { rewrite Htext. apply index_char_found. }
  assert (Hlast : rfind text "}" = Z.of_nat (String.length (pre ++ "{" ++ mid))).
  { unfold rfind. rewrite Htext. now rewrite rfind_aux_last by exact Hpost. }
  unfold extract_json. fold text. rewrite Hfence.
  unfold contains at 1 2. rewrite Hopen. destruct Hclose as (i & ->). cbn [andb].
  unfold find_from. cbn [Z.to_nat]. rewrite Hopen, Hlast.
  rewrite !length_app. cbn [String.length].
  replace (Z.of_nat (String.length pre + (1 + String.length mid)) + 1)
    with (Z.of_nat (String.length pre + (String.length mid + 2))) by lia.
  rewrite slice_substring.
  - replace (String.length pre + (String.length mid + 2) - String.length pre)%nat
      with (String.length ("{" ++ mid ++ "}")) by (rewrite !length_app; cbn; lia).
    unfold text.
    replace (pre ++ "{" ++ mid ++ "}" ++ post) with (pre ++ ("{" ++ mid ++ "}") ++ post)
      by now rewrite !append_assoc.
    apply substring_app.
  - unfold text. rewrite ?length_app. cbn [String.length]. rewrite ?length_app. cbn. lia.
Qed.

Lemma extract_json_braces_witness :
  extract_json ("Here you go: " ++ "{" ++ "k: {n: 1}" ++ "}" ++ " Enjoy!")
  = "{" ++ "k: {n: 1}" ++ "}".
Proof.
  apply (extract_json_braces "Here you go: " "k: {n: 1}" " Enjoy!"); reflexivity.
Defined.

(** ** White space and characters *)

Lemma is_space_In (w : string) : is_space w = true <-> In w whitespace.
Proof.
  unfold is_space. rewrite existsb_exists. split.
  - intros (x & Hin & E). apply String.eqb_eq in E. now subst.
  - intros Hin. exists w. split; [exact Hin | apply String.eqb_refl].
Qed.

Ltac each_space H :=
  apply is_space_In in H; vm_compute in H;
  repeat (destruct H as [H|H]; [try subst|]); [..|destruct H].

Lemma has_char_app (c : ascii) (a b : string) :
  has_char c (a ++ b) = orb (has_char c a) (has_char c b).
Proof. induction a as [|x a IH]; cbn; [reflexivity | now rewrite IH, orb_assoc]. Qed.

Lemma space_no_backtick (w : string) : is_space w = true -> has_char backtick w = false.
Proof. intros H. each_space H; reflexivity. Qed.

Lemma spaces_no_backtick (ws : list string) :
  Forall (fun w => is_space w = true) ws -> has_char backtick (join_chars ws) = false.
Proof.
  induction 1 as [|w ws Hw _ IH]; cbn [join_chars fold_right]; [reflexivity|].
  fold (join_chars ws). now rewrite has_char_app, (space_no_backtick w Hw), IH.
Qed.

Lemma lstrip_space (w s : string) : is_space w = true -> lstrip (w ++ s) = lstrip s.
Proof. intros H. each_space H; reflexivity. Qed.

Lemma lstrip_spaces (ws : list string) (s : string) :
  Forall (fun w => is_space w = true) ws -> lstrip (join_chars ws ++ s) = lstrip s.
Proof.
  induction 1 as [|w ws Hw _ IH]; cbn [join_chars fold_right append]; [reflexivity|].
  fold (join_chars ws). now rewrite append_assoc, (lstrip_space w _ Hw).
Qed.

Lemma lstrip_brace (s : string) : lstrip ("{" ++ s) = "{" ++ s.
Proof. destruct s as [|c2 [|c3 s]]; reflexivity. Qed.

Lemma rstrip_space (s w : string) : is_space w = true -> rstrip (s ++ w) = rstrip s.
Proof.
  intros H. induction s as [|c s IH]; cbn [append rstrip].
  - each_space H; reflexivity.
  - now rewrite IH.
Qed.

Lemma rstrip_spaces (ws : list string) (s : string) :
  Forall (fun w => is_space w = true) ws -> rstrip (s ++ join_chars ws) = rstrip s.
Proof.
  intros H. revert s. induction H as [|w ws Hw _ IH]; intros s;
    cbn [join_chars fold_right].
  - f_equal. induction s as [|c s IHs]; cbn; [reflexivity | now rewrite IHs].
  - fold (join_chars ws). now rewrite <- append_assoc, IH, (rstrip_space s w Hw).
Qed.

Lemma brace_end_no_space (x : string) : is_space (x ++ "}") = false.
Proof.
  destruct (is_space (x ++ "}")) eqn:E; [exfalso | reflexivity].
  apply is_space_In in E. vm_compute in E.
  destruct x as [|c1 [|c2 [|c3 [|c4 x]]]]; cbn [append] in E;
    repeat (destruct E as [E|E]; [discriminate E|]); destruct E.
Qed.

Lemma rstrip_brace (x : string) : rstrip (x ++ "}") = x ++ "}".
Proof.
  induction x as [|c x IH]; [reflexivity|].
  cbn [append rstrip]. rewrite IH.
  change (String c (x ++ "}")) with (String c x ++ "}").
  now rewrite brace_end_no_space.
Qed.

Lemma strip_object (ws1 ws2 : list string) (mid : string) :
  Forall (fun w => is_space w = true) ws1 ->
  Forall (fun w => is_space w = true) ws2 ->
  strip (join_chars ws1 ++ "{" ++ mid ++ "}" ++ join_chars ws2) = "{" ++ mid ++ "}".
Proof.
  intros H1 H2. unfold strip. rewrite (lstrip_spaces ws1 _ H1), lstrip_brace.
  replace ("{" ++ mid ++ "}" ++ join_chars ws2) with (("{" ++ mid ++ "}") ++ join_chars ws2)
    by now rewrite !append_assoc.
  rewrite (rstrip_spaces ws2 _ H2).
  replace ("{" ++ mid ++ "}") with (("{" ++ mid) ++ "}") by now rewrite !append_assoc.
  apply rstrip_brace.
Qed.

Lemma py_len_app (a b : string) : py_len (a ++ b) = (py_len a + py_len b)%nat.
Proof. induction a as [|c a IH]; cbn [append py_len]; [reflexivity | rewrite IH; lia]. Qed.

Lemma py_len_char (ch : string) : is_char ch = true -> py_len ch = 1%nat.
Proof.
  destruct ch as [|c tail]; [discriminate|]. cbn [is_char py_len].
  intros H. apply andb_prop in H. destruct H as [Hc Htail].
  apply negb_true_iff in Hc. rewrite Hc.
  induction tail as [|b tail IH]; [reflexivity|].
  cbn [list_ascii_of_string forallb] in Htail. apply andb_prop in Htail.
  destruct Htail as [Hb Htail]. cbn [py_len]. rewrite Hb. now apply IH.
Qed.

Lemma char_offset_last (t ch : string) :
  is_char ch = true -> char_offset (t ++ ch) (py_len t) = String.length t.
Proof.
  intros H. destruct ch as [|c tail]; [discriminate|].
  cbn [is_char] in H. apply andb_prop in H. destruct H as [Hc _].
  apply negb_true_iff in Hc.
  induction t as [|b t IH]; cbn [append char_offset py_len String.length].
  - now rewrite Hc.
  - destruct (is_continuation b); cbn [Nat.add]; now rewrite IH.
Qed.

(** The text between an opening fence and the closing one, when no
    backtick stands before either. *)
Lemma extract_json_fenced_body (pre body post : string) :
  has_char backtick pre = false ->
  has_char backtick body = false ->
  extract_json (pre ++ fence ++ body ++ fence_end ++ post) = strip body.
Proof.
  intros Hpre Hbody.
  set (text := pre ++ fence ++ body ++ fence_end ++ post).
  assert (Hstart : String.index 0 fence text = Some (String.length pre)).
  { unfold text, fence. rewrite (index_no_char backtick _ pre _ Hpre).
    rewrite (index_at_prefix backtick). cbn. f_equal. lia. }
  assert (Htext : text = (pre ++ fence) ++ (body ++ fence_end ++ post)).
  { unfold text. now rewrite !append_assoc. }
  assert (Hend : String.index (String.length pre + 7) fence_end text
                 = Some (String.length pre + 7 + String.length body)%nat).
  { rewrite Htext.
    replace (String.length pre + 7)%nat with (String.length (pre ++ fence) + 0)%nat
      by (rewrite length_app; cbn; lia).
    rewrite index_skip. unfold fence_end.
    rewrite (index_no_char backtick _ body _ Hbody).
    rewrite (index_at_prefix backtick). cbn [option_map].
    rewrite length_app. cbn. f_equal. lia. }
  unfold extract_json. fold text. unfold contains. rewrite Hstart.
  unfold find_from. cbn [Z.to_nat]. rewrite Hstart.
  replace (Z.to_nat (Z.of_nat (String.length pre) + 7)) with (String.length pre + 7)%nat by lia.
  rewrite Hend. f_equal.
  replace (Z.of_nat (String.length pre) + 7) with (Z.of_nat (String.length pre + 7)) by lia.
  rewrite slice_substring.
  - replace (String.length pre + 7 + String.length body - (String.length pre + 7))%nat
      with (String.length body) by lia.
    rewrite Htext.
    replace (String.length pre + 7)%nat with (String.length (pre ++ fence))
      by (rewrite length_app; cbn; lia).
    apply substring_app.
  - unfold text. rewrite !length_app. cbn. lia.
Qed.

(** The text after a fence that is never closed, when one more character
    follows it: [find] gives -1 and the slice leaves that character out. *)
Lemma extract_json_unclosed_body (pre body ch : string) :
  has_char backtick pre = false ->
  has_char backtick body = false ->
  has_char backtick ch = false ->
  is_char ch = true ->
  extract_json (pre ++ fence ++ body ++ ch) = strip body.
Proof.
  intros Hpre Hbody Hch Hchar.
  set (text := pre ++ fence ++ body ++ ch).
  assert (Hstart : String.index 0 fence text = Some (String.length pre)).
  { unfold text, fence. rewrite (index_no_char backtick _ pre _ Hpre).
    rewrite (index_at_prefix backtick). cbn. f_equal. lia. }
  assert (Htext : text = (pre ++ fence) ++ body ++ ch).
  { unfold text. now rewrite !append_assoc. }
  assert (Hsplit : text = ((pre ++ fence) ++ body) ++ ch).
  { unfold text. now rewrite !append_assoc. }
  assert (Hend : String.index (String.length pre + 7) fence_end text = None).
  { rewrite Htext.
    replace (String.length pre + 7)%nat with (String.length (pre ++ fence) + 0)%nat
      by (rewrite length_app; cbn; lia).
    rewrite index_skip. unfold fence_end.
    rewrite (index_none_no_char backtick _ (body ++ ch)); [reflexivity|].
    now rewrite has_char_app, Hbody, Hch. }
  unfold extract_json. fold text. unfold contains. rewrite Hstart.
  unfold find_from. cbn [Z.to_nat]. rewrite Hstart.
  replace (Z.to_nat (Z.of_nat (String.length pre) + 7)) with (String.length pre + 7)%nat by lia.
  rewrite Hend. f_equal.
  unfold slice.
  replace (Z.of_nat (String.length pre) + 7 <? 0) with false by (symmetry; apply Z.ltb_ge; lia).
  replace (-1 <? 0) with true by reflexivity.
  assert (Hlen : String.length text
                 = (String.length pre + 7 + String.length body + String.length ch)%nat).
  { unfold text. rewrite !length_app. cbn. lia. }
  assert (Hoff : char_offset text (Z.to_nat (Z.of_nat (py_len text) + -1))
                 = (String.length pre + 7 + String.length body)%nat).
  { rewrite Hsplit at 2. rewrite py_len_app, (py_len_char ch Hchar).
    replace (Z.to_nat _) with (py_len ((pre ++ fence) ++ body)) by lia.
    rewrite Hsplit, (char_offset_last _ ch Hchar), !length_app. cbn. lia. }
  rewrite Hoff, Hlen, Z.min_r by lia.
  replace (Z.to_nat (Z.of_nat (String.length pre) + 7)) with (String.length (pre ++ fence))
    by (rewrite length_app; cbn; lia).
  replace (Z.to_nat _) with (String.length body) by lia.
  rewrite Htext. apply substring_app.
Qed.

(** X7: in an answer with a closed json fence whose body is an object
    text, from an opening to a closing brace, with white space around it
    (ASCII or not: a no-break space is white space too), the parser
    receives the object text alone: the white space and the text before
    and after the fence are dropped. *)
Theorem extract_json_fenced (pre mid post : string) (ws1 ws2 : list string) :
  has_char backtick pre = false ->
  has_char backtick mid = false ->
  Forall (fun w => is_space w = true) ws1 ->
  Forall (fun w => is_space w = true) ws2 ->
  extract_json (pre ++ fence ++ (join_chars ws1 ++ "{" ++ mid ++ "}" ++ join_chars ws2)
                    ++ fence_end ++ post)
  = "{" ++ mid ++ "}".
Proof.
  intros Hpre Hmid H1 H2.
  rewrite extract_json_fenced_body; [now apply strip_object | exact Hpre |].
  rewrite !has_char_app, (spaces_no_backtick ws1 H1), (spaces_no_backtick ws2 H2), Hmid.
  reflexivity.
Qed.

Lemma extract_json_fenced_witness :
  extract_json ("Result: " ++ fence
                  ++ (join_chars [bytes [10]; bytes [194; 160]] ++ "{" ++ "k: 1" ++ "}"
                        ++ join_chars [bytes [226; 128; 137]; bytes [10]])
                  ++ fence_end ++ " Done.")
  = "{" ++ "k: 1" ++ "}".
Proof.
  apply (extract_json_fenced "Result: " "k: 1" " Done."
           [bytes [10]; bytes [194; 160]] [bytes [226; 128; 137]; bytes [10]]);
    try reflexivity; repeat constructor.
Defined.

(** X8: when the json fence is opened and never closed, the search for
    the closing fence gives -1 and the slice leaves out the last character
    of the answer, of however many bytes: for an object text with white
    space around it and one more character after it, the parser receives
    the object text alone. *)
Theorem extract_json_unclosed_fence (pre mid ch : string) (ws1 ws2 : list string) :
  has_char backtick pre = false ->
  has_char backtick mid = false ->
  has_char backtick ch = false ->
  Forall (fun w => is_space w = true) ws1 ->
  Forall (fun w => is_space w = true) ws2 ->
  is_char ch = true ->
  extract_json (pre ++ fence ++ (join_chars ws1 ++ "{" ++ mid ++ "}" ++ join_chars ws2) ++ ch)
  = "{" ++ mid ++ "}".
Proof.
  intros Hpre Hmid Hch H1 H2 Hchar.
  rewrite extract_json_unclosed_body;
    [now apply strip_object | exact Hpre | | exact Hch | exact Hchar].
  rewrite !has_char_app, (spaces_no_backtick ws1 H1), (spaces_no_backtick ws2 H2), Hmid.
  reflexivity.
Qed.

Lemma extract_json_unclosed_fence_witness :
  extract_json ("Result: " ++ fence
                  ++ (join_chars [bytes [10]] ++ "{" ++ "k: 1" ++ "}"
                        ++ join_chars [bytes [194; 160]])
                  ++ bytes [195; 169])
  = "{" ++ "k: 1" ++ "}".
Proof.
  apply (extract_json_unclosed_fence "Result: " "k: 1" (bytes [195; 169])
           [bytes [10]] [bytes [194; 160]]);
    try reflexivity; repeat constructor.
Defined.

(** ** The analyser and the food analysis: outcomes *)

Lemma field_is_spec (key s : string) (d : dict) :
  field_is key s d = true <-> dict_get d key = Some (VStr s).
Proof.
  unfold field_is.
  destruct (dict_get d key) as [[ | | | |s'| | | | ]|]; try (split; discriminate).
  destruct (String.eqb_spec s' s); split; congruence.
Qed.

Lemma field_is_false (key s : string) (d : dict) :
  field_is key s d = false <-> dict_get d key <> Some (VStr s).
Proof.
  rewrite <- field_is_spec. destruct (field_is key s d); split; congruence.
Qed.

Section AnalysisOutcomes.

Context {ext : Externals}.

(** X9: the analyser never raises, and what it returns is decided by the
    provider call and the parser: the fallback record of confidence 0.2
    when the provider call raises; the parsed answer itself when the
    parser accepts the extracted text; the fallback record of confidence
    0.3, with the answer in its notes, when the parser raises
    JSONDecodeError; the fallback record of confidence 0.2 when the parser
    raises anything else. *)
Theorem analyze_food_with_ai_never_raises (image_base64 : string) :
  (forall e : exn, analyze_food_with_ai image_base64 <> Raise e)
  /\ (forall e : exn,
        send_message image_base64 = Raise e ->
        analyze_food_with_ai image_base64
        = Ok (fallback_analysis 0.2 ("Error occurred: " ++ exn_str e)))
  /\ (forall (text : string) (analysis : value),
        send_message image_base64 = Ok text ->
        json_loads (extract_json text) = Ok analysis ->
        analyze_food_with_ai image_base64 = Ok analysis)
  /\ (forall text : string,
        send_message image_base64 = Ok text ->
        json_loads (extract_json text) = Raise JSONDecodeError ->
        analyze_food_with_ai image_base64
        = Ok (fallback_analysis 0.3 ("Analysis text: " ++ text)))
  /\ (forall (text : string) (e : exn),
        send_message image_base64 = Ok text ->
        json_loads (extract_json text) = Raise e ->
        e <> JSONDecodeError ->
        analyze_food_with_ai image_base64
        = Ok (fallback_analysis 0.2 ("Error occurred: " ++ exn_str e))).
Proof.
  unfold analyze_food_with_ai.
  split; [|split; [|split; [|split]]].
  - intros e.
    destruct (send_message image_base64) as [text|e']; cbn [bind try_except];
      [|discriminate].
    destruct (json_loads (extract_json text)) as [v|e']; [discriminate|].
    destruct e'; discriminate.
  - intros e ->. reflexivity.
  - intros text analysis -> Hparse. cbn [bind]. now rewrite Hparse.
  - intros text -> Hparse. cbn [bind]. now rewrite Hparse.
  - intros text e -> Hparse Hother. cbn [bind]. rewrite Hparse.
    destruct e; try reflexivity. contradiction.
Qed.

(** X10: whatever the provider and the parser do, [analyze_food] either
    raises the HTTP error 500, or appends exactly one entry to the stored
    entries and touches nothing else; the entry carries the fresh
    identifier, the user, the image, the instant of the call and the meal
    type "unspecified", and the response names the same identifier. *)
Theorem analyze_food_outcome
    (st : store) (image_base64 user_id entry_id oid : string) (now : Z) :
  (exists detail,
      analyze_food st image_base64 user_id entry_id oid now
      = Raise (HTTPException 500 detail))
  \/ (exists response entry,
        analyze_food st image_base64 user_id entry_id oid now
        = Ok (VDict response,
              {| profiles := profiles st;
                 calorie_entries := (calorie_entries st ++ [entry])%list |})
        /\ dict_get response "entry_id" = Some (VStr entry_id)
        /\ dict_get entry "_id" = Some (VObjectId oid)
        /\ dict_get entry "entry_id" = Some (VStr entry_id)
        /\ dict_get entry "user_id" = Some (VStr user_id)
        /\ dict_get entry "image_base64" = Some (VStr image_base64)
        /\ dict_get entry "timestamp" = Some (VDate now)
        /\ dict_get entry "meal_type" = Some (VStr "unspecified")).
Proof.
  unfold analyze_food.
  destruct (analyze_food_with_ai image_base64) as [analysis|e]; cbn [bind try_except];
    [|left; eauto].
  destruct (normalize analysis) as [[[food_name total] confidence]|e];
    cbn [bind try_except]; [|left; eauto].
  right. unfold insert_one. do 2 eexists. split; [reflexivity|].
  repeat split; reflexivity.
Qed.

Lemma mapM_raises {A B : Type} (f : A -> res B) (l : list A) :
  Exists (fun a => exists e, f a = Raise e) l -> exists e, mapM f l = Raise e.
Proof.
  induction 1 as [a l (e & He) | a l _ (e & IH)]; cbn.
  - rewrite He. cbn. eauto.
  - destruct (f a); cbn; [|eauto]. rewrite IH. cbn. eauto.
Qed.

(** X11: an answer that parses to something other than an object (a
    list, a number, a string, null), or to an object one of whose food
    items has no name, makes [analyze_food] fail with the HTTP error 500. *)
Theorem analyze_food_malformed
    (st : store) (image_base64 user_id entry_id oid : string) (now : Z)
    (text : string) (analysis : value) :
  send_message image_base64 = Ok text ->
  json_loads (extract_json text) = Ok analysis ->
  (forall d, analysis <> VDict d)
  \/ (exists d items,
        analysis = VDict d
        /\ dict_get d "food_items" = Some (VList items)
        /\ Exists (fun item => forall name, py_getitem item "name" <> Ok name) items) ->
  exists detail,
    analyze_food st image_base64 user_id entry_id oid now
    = Raise (HTTPException 500 detail).
Proof.
  intros Hsend Hparse Hbad.
  assert (Hai : analyze_food_with_ai image_base64 = Ok analysis).
  { unfold analyze_food_with_ai. rewrite Hsend. cbn [bind]. now rewrite Hparse. }
  assert (Hnorm : exists e, normalize analysis = Raise e).
  { destruct Hbad as [Hnot|(d & items & -> & Hitems & Hex)].
    - destruct analysis; try (eexists; reflexivity). exfalso. now apply (Hnot d).
    - unfold normalize. cbn [py_get bind]. unfold dict_get_default. rewrite Hitems.
      cbn [py_iter bind].
      destruct (mapM_raises (fun item => py_getitem item "name") items) as (e & He).
      + eapply Exists_impl; [|exact Hex]. intros item Hitem. cbn beta.
        destruct (py_getitem item "name") as [v|e] eqn:E; [|eauto].
        exfalso. now apply (Hitem v).
      + rewrite He. cbn. eauto. }
  destruct Hnorm as (e & Hnorm).
  unfold analyze_food. rewrite Hai. cbn [bind]. rewrite Hnorm. cbn. eauto.
Qed.

End AnalysisOutcomes.

Lemma analyze_food_with_ai_never_raises_witness :
  analyze_food_with_ai (ext := sample_externals (Raise (ProviderError "Request timed out")))
                       "aGVsbG8="
  = Ok (fallback_analysis 0.2 "Error occurred: Request timed out")
  /\ analyze_food_with_ai (ext := sample_externals (Ok untotalled_json)) "aGVsbG8="
     = Ok untotalled_analysis
  /\ analyze_food_with_ai (ext := sample_externals (Ok "It looks like a sandwich."))
                          "aGVsbG8="
     = Ok (fallback_analysis 0.3 "Analysis text: It looks like a sandwich.")
  /\ analyze_food_with_ai (ext := nested_externals) "aGVsbG8="
     = Ok (fallback_analysis 0.2
             ("Error occurred: " ++ sample_exn_str RecursionError)).
Proof.
  split; [|split; [|split]].
  - apply (proj1 (proj2 (analyze_food_with_ai_never_raises
                           (ext := sample_externals (Raise (ProviderError "Request timed out")))
                           "aGVsbG8="))
                 (ProviderError "Request timed out")).
    reflexivity.
  - apply (proj1 (proj2 (proj2 (analyze_food_with_ai_never_raises
                                  (ext := sample_externals (Ok untotalled_json))
                                  "aGVsbG8=")))
                 untotalled_json untotalled_analysis); reflexivity.
  - apply (proj1 (proj2 (proj2 (proj2 (analyze_food_with_ai_never_raises
                                         (ext := sample_externals
                                                   (Ok "It looks like a sandwich."))
                                         "aGVsbG8="))))
                 "It looks like a sandwich."); reflexivity.
  - apply (proj2 (proj2 (proj2 (proj2 (analyze_food_with_ai_never_raises
                                         (ext := nested_externals) "aGVsbG8="))))
                 nested_text RecursionError);
      [reflexivity | vm_compute; reflexivity | discriminate].
Defined.

Lemma analyze_food_malformed_witness :
  exists detail,
    analyze_food (ext := list_externals) sample_store "aGVsbG8=" "u1" "e2" "65f1" 1700000100000
    = Raise (HTTPException 500 detail).
Proof.
  apply (analyze_food_malformed (ext := list_externals)
           sample_store "aGVsbG8=" "u1" "e2" "65f1" 1700000100000
           "[1, 2]" (VList [VInt 1; VInt 2])).
  - reflexivity.
  - reflexivity.
  - left. discriminate.
Defined.

(** ** Entries: creation, reclassification, deletion *)

Lemma delete_one_unmatched (coll : list dict) (key s : string) :
  Forall (fun d => field_is key s d = false) coll ->
  delete_one coll key s = (coll, 0).
Proof.
  induction 1 as [|d coll Hd _ IH]; cbn; [reflexivity|].
  now rewrite Hd, IH.
Qed.

Lemma delete_one_at (pre post : list dict) (e : dict) (key s : string) :
  Forall (fun d => field_is key s d = false) pre ->
  field_is key s e = true ->
  delete_one (pre ++ e :: post) key s = ((pre ++ post)%list, 1).
Proof.
  induction 1 as [|d pre Hd _ IH]; intros He; cbn.
  - now rewrite He.
  - now rewrite Hd, (IH He).
Qed.

Lemma update_one_set_at (pre post : list dict) (e : dict) (key s field : string) (v : value) :
  Forall (fun d => field_is key s d = false) pre ->
  field_is key s e = true ->
  update_one_set (pre ++ e :: post) key s field v
  = ((pre ++ dict_set e field v :: post)%list, 1).
Proof.
  induction 1 as [|d pre Hd _ IH]; intros He; cbn.
  - now rewrite He.
  - now rewrite Hd, (IH He).
Qed.

Lemma Forall_field_is_false (key s : string) (coll : list dict) :
  Forall (fun d => dict_get d key <> Some (VStr s)) coll ->
  Forall (fun d => field_is key s d = false) coll.
Proof.
  intros H. eapply Forall_impl; [|exact H]. intros d Hd. now apply field_is_false.
Qed.

(** What a successful [analyze_food] returned and stored. *)
Lemma analyze_food_ok {ext : Externals}
    (st : store) (image_base64 user_id entry_id oid : string) (now : Z)
    (response : value) (st' : store) :
  analyze_food st image_base64 user_id entry_id oid now = Ok (response, st') ->
  exists entry,
    st' = {| profiles := profiles st;
             calorie_entries := (calorie_entries st ++ [entry])%list |}
    /\ dict_get entry "entry_id" = Some (VStr entry_id)
    /\ dict_get entry "meal_type" = Some (VStr "unspecified").
Proof.
  unfold analyze_food.
  destruct (analyze_food_with_ai image_base64) as [analysis|e]; cbn [bind try_except];
    [|discriminate].
  destruct (normalize analysis) as [[[food_name total] confidence]|e];
    cbn [bind try_except]; [|discriminate].
  intros E. injection E as _ <-. unfold insert_one.
  eexists. split; [reflexivity|]. split; reflexivity.
Qed.

(** X12: deleting the entry that [analyze_food] has just created, under
    an identifier no earlier entry carries, gives back the store as it
    was before the analysis. *)
Theorem analyze_food_then_delete_entry {ext : Externals}
    (st : store) (image_base64 user_id entry_id oid : string) (now : Z)
    (response : value) (st' : store) :
  Forall (fun d => dict_get d "entry_id" <> Some (VStr entry_id)) (calorie_entries st) ->
  analyze_food st image_base64 user_id entry_id oid now = Ok (response, st') ->
  delete_entry st' entry_id
  = Ok (VDict [("message", VStr "Entry deleted successfully")], st).
Proof.
  intros Hfresh Hrun.
  destruct (analyze_food_ok _ _ _ _ _ _ _ _ Hrun) as (entry & -> & Hid & _).
  unfold delete_entry. cbn [calorie_entries profiles].
  rewrite (delete_one_at (calorie_entries st) [] entry "entry_id" entry_id).
  - cbn. rewrite app_nil_r. now destruct st.
  - now apply Forall_field_is_false.
  - now apply field_is_spec.
Qed.

(** X13: the entry that [analyze_food] has just created, under an
    identifier no earlier entry carries, can be reclassified: a meal-type
    update with a valid value succeeds and rewrites the meal type of that
    entry, leaving the earlier entries as they were. *)
Theorem analyze_food_then_update_meal_type {ext : Externals}
    (st : store) (image_base64 user_id entry_id oid : string) (now : Z)
    (response : value) (st' : store) (meal_type : string) :
  Forall (fun d => dict_get d "entry_id" <> Some (VStr entry_id)) (calorie_entries st) ->
  In meal_type valid_meal_types ->
  analyze_food st image_base64 user_id entry_id oid now = Ok (response, st') ->
  exists entry,
    calorie_entries st' = (calorie_entries st ++ [entry])%list
    /\ dict_get entry "meal_type" = Some (VStr "unspecified")
    /\ update_meal_type st' entry_id meal_type
       = Ok (VDict [("message", VStr "Meal type updated successfully")],
             {| profiles := profiles st;
                calorie_entries :=
                  (calorie_entries st ++ [dict_set entry "meal_type" (VStr meal_type)])%list |}).
Proof.
  intros Hfresh Hvalid Hrun.
  destruct (analyze_food_ok _ _ _ _ _ _ _ _ Hrun) as (entry & -> & Hid & Hmeal).
  exists entry. split; [reflexivity|]. split; [exact Hmeal|].
  unfold update_meal_type. apply existsb_eqb_In in Hvalid. rewrite Hvalid. cbn [negb].
  cbn [calorie_entries profiles].
  rewrite (update_one_set_at (calorie_entries st) [] entry "entry_id" entry_id).
  - reflexivity.
  - now apply Forall_field_is_false.
  - now apply field_is_spec.
Qed.

(** X14: [delete_entry] fails with "Entry not found" (status 404) when no
    entry carries the identifier; otherwise it removes the first entry
    that carries it, whoever owns it, and keeps every other entry and the
    profiles. *)
Theorem delete_entry_outcome (st : store) (entry_id : string) :
  (Forall (fun d => dict_get d "entry_id" <> Some (VStr entry_id)) (calorie_entries st) ->
   delete_entry st entry_id = Raise (HTTPException 404 "Entry not found"))
  /\ (forall pre e post,
        calorie_entries st = (pre ++ e :: post)%list ->
        Forall (fun d => dict_get d "entry_id" <> Some (VStr entry_id)) pre ->
        dict_get e "entry_id" = Some (VStr entry_id) ->
        delete_entry st entry_id
        = Ok (VDict [("message", VStr "Entry deleted successfully")],
              {| profiles := profiles st; calorie_entries := (pre ++ post)%list |})).
Proof.
  split.
  - intros Hnone. unfold delete_entry.
    now rewrite delete_one_unmatched by now apply Forall_field_is_false.
  - intros pre e post Hsplit Hpre He. unfold delete_entry. rewrite Hsplit.
    rewrite (delete_one_at pre post e "entry_id" entry_id).
    + reflexivity.
    + now apply Forall_field_is_false.
    + now apply field_is_spec.
Qed.

(** X15: when exactly one entry carries the identifier, deleting it a
    second time fails with "Entry not found" (status 404). *)
Theorem delete_entry_twice (st : store) (entry_id : string) (pre post : list dict) (e : dict) :
  calorie_entries st = (pre ++ e :: post)%list ->
  Forall (fun d => dict_get d "entry_id" <> Some (VStr entry_id)) pre ->
  Forall (fun d => dict_get d "entry_id" <> Some (VStr entry_id)) post ->
  dict_get e "entry_id" = Some (VStr entry_id) ->
  exists st',
    delete_entry st entry_id
    = Ok (VDict [("message", VStr "Entry deleted successfully")], st')
    /\ delete_entry st' entry_id = Raise (HTTPException 404 "Entry not found").
Proof.
  intros Hsplit Hpre Hpost He.
  exists {| profiles := profiles st; calorie_entries := (pre ++ post)%list |}. split.
  - unfold delete_entry. rewrite Hsplit.
    rewrite (delete_one_at pre post e "entry_id" entry_id).
    + reflexivity.
    + now apply Forall_field_is_false.
    + now apply field_is_spec.
  - unfold delete_entry. cbn [calorie_entries].
    rewrite delete_one_unmatched; [reflexivity|].
    apply Forall_field_is_false, Forall_app. auto.
Qed.

Lemma analyze_food_then_delete_entry_witness :
  delete_entry
    {| profiles := profiles sample_store;
       calorie_entries :=
         (calorie_entries sample_store
          ++ [ [ ("_id", VObjectId "65f1");
                 ("entry_id", VStr "e2");
                 ("user_id", VStr "u1");
                 ("food_name", VStr "Unknown food");
                 ("calories", VInt 200);
                 ("meal_type", VStr "unspecified");
                 ("image_base64", VStr "aGVsbG8=");
                 ("timestamp", VDate 1700000100000);
                 ("confidence", VFloat 0.2);
                 ("analysis_details",
                  fallback_analysis 0.2 "Error occurred: Request timed out") ] ])%list |}
    "e2"
  = Ok (VDict [("message", VStr "Entry deleted successfully")], sample_store).
Proof.
  apply (analyze_food_then_delete_entry
           (ext := sample_externals (Raise (ProviderError "Request timed out")))
           sample_store "aGVsbG8=" "u1" "e2" "65f1" 1700000100000
           (VDict [ ("entry_id", VStr "e2");
                    ("food_name", VStr "Unknown food");
                    ("calories", VInt 200);
                    ("confidence", VFloat 0.2);
                    ("analysis_details",
                     fallback_analysis 0.2 "Error occurred: Request timed out");
                    ("message", VStr "Food analyzed successfully") ])).
  - repeat constructor. cbn. discriminate.
  - reflexivity.
Defined.

Lemma analyze_food_then_update_meal_type_witness :
  exists entry,
    calorie_entries
      {| profiles := profiles sample_store;
         calorie_entries :=
           (calorie_entries sample_store
            ++ [ [ ("_id", VObjectId "65f1");
                   ("entry_id", VStr "e2");
                   ("user_id", VStr "u1");
                   ("food_name", VStr "Unknown food");
                   ("calories", VInt 200);
                   ("meal_type", VStr "unspecified");
                   ("image_base64", VStr "aGVsbG8=");
                   ("timestamp", VDate 1700000100000);
                   ("confidence", VFloat 0.2);
                   ("analysis_details",
                    fallback_analysis 0.2 "Error occurred: Request timed out") ] ])%list |}
    = (calorie_entries sample_store ++ [entry])%list
    /\ dict_get entry "meal_type" = Some (VStr "unspecified")
    /\ update_meal_type
         {| profiles := profiles sample_store;
            calorie_entries :=
              (calorie_entries sample_store
               ++ [ [ ("_id", VObjectId "65f1");
                      ("entry_id", VStr "e2");
                      ("user_id", VStr "u1");
                      ("food_name", VStr "Unknown food");
                      ("calories", VInt 200);
                      ("meal_type", VStr "unspecified");
                      ("image_base64", VStr "aGVsbG8=");
                      ("timestamp", VDate 1700000100000);
                      ("confidence", VFloat 0.2);
                      ("analysis_details",
                       fallback_analysis 0.2 "Error occurred: Request timed out") ] ])%list |}
         "e2" "snack"
       = Ok (VDict [("message", VStr "Meal type updated successfully")],
             {| profiles := profiles sample_store;
                calorie_entries :=
                  (calorie_entries sample_store
                   ++ [dict_set entry "meal_type" (VStr "snack")])%list |}).
Proof.
  apply (analyze_food_then_update_meal_type
           (ext := sample_externals (Raise (ProviderError "Request timed out")))
           sample_store "aGVsbG8=" "u1" "e2" "65f1" 1700000100000
           (VDict [ ("entry_id", VStr "e2");
                    ("food_name", VStr "Unknown food");
                    ("calories", VInt 200);
                    ("confidence", VFloat 0.2);
                    ("analysis_details",
                     fallback_analysis 0.2 "Error occurred: Request timed out");
                    ("message", VStr "Food analyzed successfully") ])).
  - repeat constructor. cbn. discriminate.
  - cbn. auto.
  - reflexivity.
Defined.

Lemma delete_entry_outcome_witness :
  delete_entry sample_store "e9" = Raise (HTTPException 404 "Entry not found")
  /\ delete_entry sample_store "e1"
     = Ok (VDict [("message", VStr "Entry deleted successfully")],
           {| profiles := profiles sample_store; calorie_entries := ([] ++ [])%list |}).
Proof.
  split.
  - apply (proj1 (delete_entry_outcome sample_store "e9")).
    repeat constructor. cbn. discriminate.
  - apply (proj2 (delete_entry_outcome sample_store "e1") [] sample_entry []).
    + reflexivity.
    + constructor.
    + reflexivity.
Defined.

Lemma delete_entry_twice_witness :
  exists st',
    delete_entry sample_store "e1"
    = Ok (VDict [("message", VStr "Entry deleted successfully")], st')
    /\ delete_entry st' "e1" = Raise (HTTPException 404 "Entry not found").
Proof.
  apply (delete_entry_twice sample_store "e1" [] [] sample_entry).
  - reflexivity.
  - constructor.
  - constructor.
  - reflexivity.
Defined.

(** ** Daily intake: errors, listing, totals *)

Lemma daily_loop_run (cursor entries : list dict) (t : float) :
  Forall (fun e => exists x, float_of_value (dict_get_default e "calories" (VInt 0)) = Ok x)
         cursor ->
  exists total,
    daily_loop cursor entries (VFloat t)
    = Ok ((entries ++ map (fun e => dict_pop e "_id") cursor)%list, VFloat total).
Proof.
  intros Hall. revert entries t.
  induction Hall as [|e cursor [x Hx] _ IH]; intros entries t; cbn [daily_loop map].
  - exists t. now rewrite app_nil_r.
  - assert (E : dict_get_default (dict_pop e "_id") "calories" (VInt 0)
                = dict_get_default e "calories" (VInt 0)).
    { unfold dict_get_default. now rewrite dict_get_pop_other by discriminate. }
    rewrite E, (v_add_float t _ x Hx). cbn [bind].
    destruct (IH (entries ++ [dict_pop e "_id"])%list (t + x)%float) as (total & ->).
    exists total. now rewrite <- app_assoc.
Qed.

Lemma v_add_float_cases (t : float) (v : value) :
  (exists x, v_add (VFloat t) v = Ok (VFloat x))
  \/ v_add (VFloat t) v = Raise TypeError
  \/ v_add (VFloat t) v = Raise OverflowError.
Proof.
  unfold v_add. cbn [to_num bind].
  destruct (to_num v) as [[n|y]|e] eqn:Ev; cbn.
  - destruct (int_to_float n) as [x|e] eqn:En; cbn; [eauto|].
    apply int_to_float_raises in En. subst. auto.
  - eauto.
  - apply to_num_raises in Ev. subst. auto.
Qed.

Lemma daily_loop_raises (cursor entries : list dict) (t : float) :
  Exists (fun e => to_num (dict_get_default e "calories" (VInt 0)) = Raise TypeError) cursor ->
  daily_loop cursor entries (VFloat t) = Raise TypeError
  \/ daily_loop cursor entries (VFloat t) = Raise OverflowError.
Proof.
  intros Hex. revert entries t.
  induction Hex as [e cursor He | e cursor _ IH]; intros entries t; cbn [daily_loop].
  - left. unfold dict_get_default in *. rewrite dict_get_pop_other by discriminate.
    unfold v_add. cbn [to_num bind]. now rewrite He.
  - destruct (v_add_float_cases t (dict_get_default (dict_pop e "_id") "calories" (VInt 0)))
      as [(x & ->)|[-> | ->]]; cbn [bind]; auto.
Qed.

Lemma insert_by_timestamp_perm (d : dict) (l : list dict) :
  Permutation (insert_by_timestamp d l) (d :: l).
Proof.
  induction l as [|d' l IH]; cbn; [reflexivity|].
  destruct (timestamp_of d <=? timestamp_of d'); [reflexivity|].
  rewrite IH. apply perm_swap.
Qed.

Lemma sort_by_timestamp_perm (l : list dict) : Permutation (sort_by_timestamp l) l.
Proof.
  induction l as [|d l IH]; cbn; [reflexivity|].
  rewrite insert_by_timestamp_perm. now constructor.
Qed.

Lemma insert_by_timestamp_sorted (d : dict) (l : list dict) :
  LocallySorted (fun a b => timestamp_of a <= timestamp_of b) l ->
  LocallySorted (fun a b => timestamp_of a <= timestamp_of b) (insert_by_timestamp d l).
Proof.
  induction 1 as [|a|a b l Hl IH Hab]; cbn.
  - constructor.
  - destruct (Z.leb_spec (timestamp_of d) (timestamp_of a)).
    + constructor; [constructor | assumption].
    + constructor; [constructor | lia].
  - destruct (Z.leb_spec (timestamp_of d) (timestamp_of a)).
    + constructor; [constructor; assumption | assumption].
    + cbn in IH. destruct (Z.leb_spec (timestamp_of d) (timestamp_of b)).
      * constructor; [exact IH | lia].
      * constructor; assumption.
Qed.

Lemma sort_by_timestamp_sorted (l : list dict) :
  LocallySorted (fun a b => timestamp_of a <= timestamp_of b) (sort_by_timestamp l).
Proof.
  induction l as [|d l IH]; cbn; [constructor | now apply insert_by_timestamp_sorted].
Qed.

Lemma find_one_none (coll : list dict) (key s : string) :
  Forall (fun d => dict_get d key <> Some (VStr s)) coll -> find_one coll key s = None.
Proof.
  unfold find_one. induction 1 as [|d coll Hd _ IH]; cbn; [reflexivity|].
  apply field_is_false in Hd. now rewrite Hd.
Qed.

Lemma filter_none {A : Type} (f : A -> bool) (l : list A) :
  Forall (fun a => f a = false) l -> filter f l = [].
Proof. induction 1 as [|a l Ha _ IH]; cbn; [reflexivity | now rewrite Ha]. Qed.

Section DailyIntakeRuns.

Context {ext : Externals}.

Lemma get_daily_intake_day
    (st : store) (user_id : string) (date : option string) (now day : Z) :
  date_resolves date now day ->
  get_daily_intake st user_id date now
  = match found (find_one (profiles st) "user_id" user_id) with
    | None => Raise (HTTPException 404 "User profile not found")
    | Some profile =>
        '(entries, total_calories) <- daily_loop (day_cursor st user_id day) [] (VFloat 0) ;;
        let target_calories := dict_get_default profile "daily_calorie_target" (VInt 2000) in
        diff <- v_sub target_calories total_calories ;;
        remaining_calories <- v_max0 diff ;;
        Ok (VDict [ ("date", VStr (date_isoformat day));
                    ("total_calories", total_calories);
                    ("target_calories", target_calories);
                    ("entries", VList (map VDict entries));
                    ("remaining_calories", remaining_calories) ])
    end.
Proof.
  intros Hday. unfold get_daily_intake, date_resolves in *.
  destruct date as [[|c s]|]; try (subst day; reflexivity).
  rewrite Hday. reflexivity.
Qed.

(** The whole response, for a user with a profile whose target has the
    float value [t], on a day whose entries have numeric calories. *)
Lemma get_daily_intake_run
    (st : store) (user_id : string) (date : option string) (now day : Z)
    (profile : dict) (t : float) :
  date_resolves date now day ->
  find_one (profiles st) "user_id" user_id = Some profile ->
  float_of_value (dict_get_default profile "daily_calorie_target" (VInt 2000)) = Ok t ->
  Forall (fun e => exists x, float_of_value (dict_get_default e "calories" (VInt 0)) = Ok x)
         (day_cursor st user_id day) ->
  exists total,
    get_daily_intake st user_id date now
    = Ok (VDict
            [ ("date", VStr (date_isoformat day));
              ("total_calories", VFloat total);
              ("target_calories", dict_get_default profile "daily_calorie_target" (VInt 2000));
              ("entries",
               VList (map VDict (map (fun e => dict_pop e "_id") (day_cursor st user_id day))));
              ("remaining_calories", of_num (py_max (PInt 0) (PFloat (t - total)%float))) ]).
Proof.
  intros Hday Hfind Htarget Hnum.
  rewrite (get_daily_intake_day st user_id date now day Hday), found_find_one, Hfind.
  destruct (daily_loop_run (day_cursor st user_id day) [] 0%float Hnum) as (total & ->).
  cbn [bind app]. rewrite (v_sub_float _ t total Htarget). cbn [bind v_max0 to_num].
  exists total. reflexivity.
Qed.

(** X16: a date parameter that is not empty and does not parse is
    refused with "Invalid date format" (status 400) before the profile is
    looked up, so also for a user without a profile; with a date that is
    absent, empty or well-formed, a user without a profile gets
    "User profile not found" (status 404). *)
Theorem get_daily_intake_errors
    (st : store) (user_id : string) (date : option string) (now : Z) :
  (forall c s, date = Some (String c s) ->
               fromisoformat_date (String c s) = None ->
               get_daily_intake st user_id date now
               = Raise (HTTPException 400 "Invalid date format"))
  /\ (forall day, date_resolves date now day ->
                  Forall (fun p => dict_get p "user_id" <> Some (VStr user_id)) (profiles st) ->
                  get_daily_intake st user_id date now
                  = Raise (HTTPException 404 "User profile not found")).
Proof.
  split.
  - intros c s -> Hbad. unfold get_daily_intake. now rewrite Hbad.
  - intros day Hday Hnone.
    rewrite (get_daily_intake_day st user_id date now day Hday), found_find_one.
    assert (E : find_one (profiles st) "user_id" user_id = None).
    { now apply find_one_none. }
    now rewrite E.
Qed.

(** X17: the entries of the response are the stored entries of that user
    whose timestamp falls on the reported day (from 00:00:00.000 to
    23:59:59.999 UTC), each once, in ascending order of timestamp, with
    their [_id] removed; entries of other users or days are never listed. *)
Theorem get_daily_intake_entries
    (st : store) (user_id : string) (date : option string) (now day : Z)
    (profile : dict) (t : float) :
  date_resolves date now day ->
  find_one (profiles st) "user_id" user_id = Some profile ->
  float_of_value (dict_get_default profile "daily_calorie_target" (VInt 2000)) = Ok t ->
  Forall (fun e => exists x, float_of_value (dict_get_default e "calories" (VInt 0)) = Ok x)
         (day_cursor st user_id day) ->
  exists (response : dict) (cursor : list dict),
    get_daily_intake st user_id date now = Ok (VDict response)
    /\ dict_get response "date" = Some (VStr (date_isoformat day))
    /\ dict_get response "entries"
       = Some (VList (map (fun e => VDict (dict_pop e "_id")) cursor))
    /\ Permutation cursor
         (filter (fun e => andb (field_is "user_id" user_id e)
                                (match dict_get e "timestamp" with
                                 | Some (VDate ts) =>
                                     andb (day * 86400000 <=? ts)
                                          (ts <=? day * 86400000 + 86399999)
                                 | _ => false
                                 end))
                 (calorie_entries st))
    /\ LocallySorted (fun a b => timestamp_of a <= timestamp_of b) cursor.
Proof.
  intros Hday Hfind Htarget Hnum.
  destruct (get_daily_intake_run st user_id date now day profile t Hday Hfind Htarget Hnum)
    as (total & Hrun).
  eexists _, (day_cursor st user_id day). split; [exact Hrun|].
  split; [reflexivity|]. split; [cbn; now rewrite map_map|]. split.
  - apply sort_by_timestamp_perm.
  - apply sort_by_timestamp_sorted.
Qed.

(** X18: one entry of the user on the day whose stored calories are not
    a number (a string, null, a list: [analyze_food] stores whatever total
    the analyser gave) makes the daily intake of that day fail with a
    TypeError or an OverflowError; no response is returned. *)
Theorem get_daily_intake_non_numeric
    (st : store) (user_id : string) (date : option string) (now day : Z) (profile : dict) :
  date_resolves date now day ->
  find_one (profiles st) "user_id" user_id = Some profile ->
  Exists (fun e => in_window user_id (day * ms_per_day) (day * ms_per_day + (ms_per_day - 1)) e
                   = true
                   /\ to_num (dict_get_default e "calories" (VInt 0)) = Raise TypeError)
         (calorie_entries st) ->
  get_daily_intake st user_id date now = Raise TypeError
  \/ get_daily_intake st user_id date now = Raise OverflowError.
Proof.
  intros Hday Hfind Hex.
  rewrite (get_daily_intake_day st user_id date now day Hday), found_find_one, Hfind.
  assert (Hcur : Exists (fun e => to_num (dict_get_default e "calories" (VInt 0))
                                  = Raise TypeError)
                        (day_cursor st user_id day)).
  { apply Exists_exists in Hex. destruct Hex as (e & Hin & Hw & Hbad).
    apply Exists_exists. exists e. split; [|exact Hbad].
    eapply Permutation_in; [apply Permutation_sym, sort_by_timestamp_perm|].
    apply filter_In. auto. }
  destruct (daily_loop_raises _ [] 0%float Hcur) as [-> | ->]; auto.
Qed.

(** X19: for a user with a profile and no entry on the day, the response
    has the total 0.0, an empty list of entries, and the remaining
    calories max(0, target - 0.0): a valid result, not an error. *)
Theorem get_daily_intake_empty_day
    (st : store) (user_id : string) (date : option string) (now day : Z)
    (profile : dict) (t : float) :
  date_resolves date now day ->
  find_one (profiles st) "user_id" user_id = Some profile ->
  float_of_value (dict_get_default profile "daily_calorie_target" (VInt 2000)) = Ok t ->
  Forall (fun e => in_window user_id (day * ms_per_day) (day * ms_per_day + (ms_per_day - 1)) e
                   = false)
         (calorie_entries st) ->
  get_daily_intake st user_id date now
  = Ok (VDict
          [ ("date", VStr (date_isoformat day));
            ("total_calories", VFloat 0);
            ("target_calories", dict_get_default profile "daily_calorie_target" (VInt 2000));
            ("entries", VList []);
            ("remaining_calories", of_num (py_max (PInt 0) (PFloat (t - 0)%float))) ]).
Proof.
  intros Hday Hfind Htarget Hnone.
  rewrite (get_daily_intake_day st user_id date now day Hday), found_find_one, Hfind.
  assert (E : day_cursor st user_id day = []).
  { unfold day_cursor. now rewrite (filter_none _ _ Hnone). }
  rewrite E. cbn [daily_loop bind]. rewrite (v_sub_float _ t 0%float Htarget).
  reflexivity.
Qed.

End DailyIntakeRuns.

Lemma get_daily_intake_errors_witness :
  get_daily_intake (ext := sample_externals (Raise (ProviderError "Request timed out")))
                   history_store "u9" (Some "tomorrow") history_now
  = Raise (HTTPException 400 "Invalid date format")
  /\ get_daily_intake (ext := sample_externals (Raise (ProviderError "Request timed out")))
                      history_store "u9" None history_now
     = Raise (HTTPException 404 "User profile not found").
Proof.
  split.
  - apply (proj1 (get_daily_intake_errors
                    (ext := sample_externals (Raise (ProviderError "Request timed out")))
                    history_store "u9" (Some "tomorrow") history_now)
                 "t"%char "omorrow"); reflexivity.
  - apply (proj2 (get_daily_intake_errors
                    (ext := sample_externals (Raise (ProviderError "Request timed out")))
                    history_store "u9" None history_now)
                 (day_of history_now)).
    + reflexivity.
    + repeat constructor. cbn. discriminate.
Defined.

Lemma get_daily_intake_entries_witness :
  exists (response : dict) (cursor : list dict),
    get_daily_intake (ext := sample_externals (Raise (ProviderError "Request timed out")))
                     history_store "u1" None history_now = Ok (VDict response)
    /\ dict_get response "date" = Some (VStr (date_isoformat (day_of history_now)))
    /\ dict_get response "entries"
       = Some (VList (map (fun e => VDict (dict_pop e "_id")) cursor))
    /\ Permutation cursor
         (filter (fun e => andb (field_is "user_id" "u1" e)
                                (match dict_get e "timestamp" with
                                 | Some (VDate ts) =>
                                     andb (day_of history_now * 86400000 <=? ts)
                                          (ts <=? day_of history_now * 86400000 + 86399999)
                                 | _ => false
                                 end))
                 (calorie_entries history_store))
    /\ LocallySorted (fun a b => timestamp_of a <= timestamp_of b) cursor.
Proof.
  apply (get_daily_intake_entries
           (ext := sample_externals (Raise (ProviderError "Request timed out")))
           history_store "u1" None history_now (day_of history_now)
           [ ("_id", VObjectId "65e0"); ("user_id", VStr "u1");
             ("daily_calorie_target", VFloat 2000) ]
           2000%float).
  - reflexivity.
  - reflexivity.
  - reflexivity.
  - vm_compute. repeat constructor. eexists. reflexivity.
Defined.

Lemma get_daily_intake_non_numeric_witness :
  get_daily_intake (ext := sample_externals (Raise (ProviderError "Request timed out")))
                   text_calories_store "u1" None history_now = Raise TypeError
  \/ get_daily_intake (ext := sample_externals (Raise (ProviderError "Request timed out")))
                      text_calories_store "u1" None history_now = Raise OverflowError.
Proof.
  apply (get_daily_intake_non_numeric
           (ext := sample_externals (Raise (ProviderError "Request timed out")))
           text_calories_store "u1" None history_now (day_of history_now)
           [ ("_id", VObjectId "65e0"); ("user_id", VStr "u1");
             ("daily_calorie_target", VFloat 2000) ]).
  - reflexivity.
  - reflexivity.
  - apply Exists_cons_tl, Exists_cons_tl, Exists_cons_hd. split; reflexivity.
Defined.

Lemma get_daily_intake_empty_day_witness :
  get_daily_intake (ext := sample_externals (Raise (ProviderError "Request timed out")))
                   history_store "u1" None 1700200000000
  = Ok (VDict
          [ ("date", VStr (date_isoformat (day_of 1700200000000)));
            ("total_calories", VFloat 0);
            ("target_calories", VFloat 2000);
            ("entries", VList []);
            ("remaining_calories", of_num (py_max (PInt 0) (PFloat (2000 - 0)%float))) ]).
Proof.
  apply (get_daily_intake_empty_day
           (ext := sample_externals (Raise (ProviderError "Request timed out")))
           history_store "u1" None 1700200000000 (day_of 1700200000000)
           [ ("_id", VObjectId "65e0"); ("user_id", VStr "u1");
             ("daily_calorie_target", VFloat 2000) ]
           2000%float).
  - reflexivity.
  - reflexivity.
  - reflexivity.
  - repeat constructor.
Defined.

(** ** Profiles: writing and reading *)

Lemma dict_update_get_other (fields d : dict) (k : string) :
  ~ In k (map fst fields) -> dict_get (dict_update d fields) k = dict_get d k.
Proof.
  unfold dict_update. revert d.
  induction fields as [|[k0 v0] fields IH]; intros d Hout; cbn [fold_left]; [reflexivity|].
  cbn in Hout. rewrite IH by tauto. cbn [fst snd].
  apply dict_get_set_other. intros ->. tauto.
Qed.

Lemma dict_update_get (fields d : dict) (k : string) (v : value) :
  NoDup (map fst fields) ->
  dict_get fields k = Some v ->
  dict_get (dict_update d fields) k = Some v.
Proof.
  unfold dict_update. revert d.
  induction fields as [|[k0 v0] fields IH]; intros d Hnd Hget; [discriminate|].
  cbn [fold_left fst snd]. cbn [map fst] in Hnd. inversion Hnd as [|? ? Hnotin Hnd']; subst.
  cbn [dict_get] in Hget. destruct (String.eqb_spec k0 k) as [->|Hne].
  - injection Hget as ->.
    change (fold_left _ fields ?d0) with (dict_update d0 fields).
    rewrite dict_update_get_other by exact Hnotin. apply dict_get_set_same.
  - now apply IH.
Qed.

Lemma dict_set_same_value (d : dict) (k : string) (v : value) :
  dict_get d k = Some v -> dict_set d k v = d.
Proof.
  induction d as [|[k0 v0] d IH]; cbn; [discriminate|].
  destruct (String.eqb k0 k); intros E; [congruence|]. now rewrite IH.
Qed.

Lemma dict_update_fixed (fields d : dict) :
  (forall k v, In (k, v) fields -> dict_get d k = Some v) -> dict_update d fields = d.
Proof.
  unfold dict_update. induction fields as [|[k0 v0] fields IH]; intros Hall;
    cbn [fold_left fst snd]; [reflexivity|].
  rewrite (dict_set_same_value d k0 v0) by (apply Hall; now left).
  apply IH. intros k v Hin. apply Hall. now right.
Qed.

Lemma In_dict_get (fields : dict) (k : string) (v : value) :
  NoDup (map fst fields) -> In (k, v) fields -> dict_get fields k = Some v.
Proof.
  induction fields as [|[k0 v0] fields IH]; intros Hnd Hin; [destruct Hin|].
  cbn [map fst] in Hnd. inversion Hnd as [|? ? Hnotin Hnd']; subst.
  cbn [dict_get]. destruct Hin as [E|Hin].
  - injection E as -> ->. now rewrite String.eqb_refl.
  - destruct (String.eqb_spec k0 k) as [->|_]; [|now apply IH].
    exfalso. apply Hnotin. apply (in_map fst) in Hin. exact Hin.
Qed.

Lemma dict_update_idempotent (fields d : dict) :
  NoDup (map fst fields) ->
  dict_update (dict_update d fields) fields = dict_update d fields.
Proof.
  intros Hnd. apply dict_update_fixed. intros k v Hin.
  apply dict_update_get; [exact Hnd | now apply In_dict_get].
Qed.

Lemma dict_get_pop_same (d : dict) (k : string) :
  NoDup (map fst d) -> dict_get (dict_pop d k) k = None.
Proof.
  induction d as [|[k0 v0] d IH]; intros Hnd; [reflexivity|].
  cbn [map fst] in Hnd. inversion Hnd as [|? ? Hnotin Hnd']; subst.
  cbn [dict_pop]. destruct (String.eqb_spec k0 k) as [->|Hne].
  - destruct (dict_get d k) as [v|] eqn:E; [|reflexivity].
    exfalso. apply Hnotin. clear -E.
    induction d as [|[k1 v1] d IHd]; [discriminate|]. cbn in *.
    destruct (String.eqb_spec k1 k); [now left | right; auto].
  - cbn [dict_get]. destruct (String.eqb_spec k0 k); [contradiction | now apply IH].
Qed.

Lemma dict_get_In_keys (d : dict) (k : string) (v : value) :
  dict_get d k = Some v -> In k (map fst d).
Proof.
  induction d as [|[k0 v0] d IH]; cbn; [discriminate|].
  destruct (String.eqb_spec k0 k); [now left | right; auto].
Qed.

(** The document a profile write leaves for the user: the first document
    of the user with the fields set, or a new document. *)
Lemma find_one_upsert (coll : list dict) (key s : string) (fields : dict) (oid : string) :
  key <> "_id" ->
  ~ In "_id" (map fst fields) ->
  NoDup (map fst fields) ->
  dict_get fields key = Some (VStr s) ->
  exists d,
    find_one (update_one_upsert coll key s fields oid) key s = Some d
    /\ (forall k v, dict_get fields k = Some v -> dict_get d k = Some v).
Proof.
  intros Hkey Hid Hnd Hfield. unfold find_one.
  induction coll as [|d coll IH]; cbn [update_one_upsert].
  - exists (("_id", VObjectId oid) :: dict_update [(key, VStr s)] fields).
    assert (Hget : forall k v, dict_get fields k = Some v ->
              dict_get (("_id", VObjectId oid) :: dict_update [(key, VStr s)] fields) k = Some v).
    { intros k v Hk. cbn [dict_get].
      destruct (String.eqb_spec "_id" k) as [<-|_]; [|now apply dict_update_get].
      exfalso. apply Hid. now apply (dict_get_In_keys fields "_id" v). }
    split; [|exact Hget].
    cbn [find]. unfold field_is. now rewrite (Hget key _ Hfield), String.eqb_refl.
  - destruct (field_is key s d) eqn:Ed.
    + exists (dict_update d fields).
      assert (Hget : forall k v, dict_get fields k = Some v ->
                dict_get (dict_update d fields) k = Some v)
        by (intros k v Hk; now apply dict_update_get).
      split; [|exact Hget].
      cbn [find]. unfold field_is. now rewrite (Hget key _ Hfield), String.eqb_refl.
    + cbn [find]. rewrite Ed. exact IH.
Qed.

Lemma find_one_upsert_other
    (coll : list dict) (key s s' : string) (fields : dict) (oid : string) :
  key <> "_id" ->
  ~ In "_id" (map fst fields) ->
  NoDup (map fst fields) ->
  dict_get fields key = Some (VStr s) ->
  s' <> s ->
  find_one (update_one_upsert coll key s fields oid) key s' = find_one coll key s'.
Proof.
  intros Hkey Hid Hnd Hfield Hne. unfold find_one.
  induction coll as [|d coll IH]; cbn [update_one_upsert find].
  - unfold field_is. cbn [dict_get].
    destruct (String.eqb_spec "_id" key) as [E|_]; [congruence|].
    rewrite (dict_update_get fields _ key _ Hnd Hfield).
    destruct (String.eqb_spec s s'); [congruence | reflexivity].
  - destruct (field_is key s d) eqn:Ed; cbn [find].
    + assert (E1 : field_is key s' (dict_update d fields) = false).
      { unfold field_is. rewrite (dict_update_get fields _ key _ Hnd Hfield).
        destruct (String.eqb_spec s s'); [congruence | reflexivity]. }
      assert (E2 : field_is key s' d = false).
      { apply field_is_spec in Ed. unfold field_is. rewrite Ed.
        destruct (String.eqb_spec s s'); [congruence | reflexivity]. }
      now rewrite E1, E2.
    + destruct (field_is key s' d); [reflexivity | exact IH].
Qed.

Lemma update_one_upsert_idempotent
    (coll : list dict) (key s : string) (fields : dict) (oid oid' : string) :
  key <> "_id" ->
  ~ In "_id" (map fst fields) ->
  NoDup (map fst fields) ->
  dict_get fields key = Some (VStr s) ->
  update_one_upsert (update_one_upsert coll key s fields oid) key s fields oid'
  = update_one_upsert coll key s fields oid.
Proof.
  intros Hkey Hid Hnd Hfield.
  induction coll as [|d coll IH]; cbn [update_one_upsert].
  - set (doc := ("_id", VObjectId oid) :: dict_update [(key, VStr s)] fields).
    assert (Hget : forall k v, In (k, v) fields -> dict_get doc k = Some v).
    { intros k v Hin. unfold doc. cbn [dict_get].
      destruct (String.eqb_spec "_id" k) as [<-|_].
      - exfalso. apply Hid. apply (in_map fst) in Hin. exact Hin.
      - apply dict_update_get; [exact Hnd | now apply In_dict_get]. }
    assert (Ed : field_is key s doc = true).
    { apply field_is_spec. apply Hget.
      clear -Hfield. induction fields as [|[k0 v0] fields IHf]; [discriminate|].
      cbn in Hfield. destruct (String.eqb_spec k0 key) as [->|_].
      - injection Hfield as ->. now left.
      - right. auto. }
    rewrite Ed. now rewrite (dict_update_fixed fields doc Hget).
  - destruct (field_is key s d) eqn:Ed; cbn [update_one_upsert].
    + assert (E : field_is key s (dict_update d fields) = true).
      { apply field_is_spec. now apply dict_update_get. }
      now rewrite E, dict_update_idempotent.
    + now rewrite Ed, IH.
Qed.

Lemma profile_dict_keys (profile : UserProfile.t) (target : pynum) (now : Z) :
  map fst (profile_dict profile target now)
  = [ "user_id"; "name"; "age"; "gender"; "height"; "weight"; "activity_level";
      "goal_weight"; "daily_calorie_target"; "created_at" ].
Proof. reflexivity. Qed.

Lemma profile_dict_wf (profile : UserProfile.t) (target : pynum) (now : Z) :
  ~ In "_id" (map fst (profile_dict profile target now))
  /\ NoDup (map fst (profile_dict profile target now)).
Proof.
  rewrite profile_dict_keys. split.
  - cbn. intuition discriminate.
  - repeat constructor; cbn; intuition discriminate.
Qed.

Lemma create_or_update_profile_run
    (st : store) (profile : UserProfile.t) (oid : string) (now : Z) (target : pynum) :
  calculate_daily_calories
    (UserProfile.age profile) (UserProfile.gender profile)
    (UserProfile.height profile) (UserProfile.weight profile)
    (UserProfile.activity_level profile) (UserProfile.goal_weight profile) = Ok target ->
  create_or_update_profile st profile oid now
  = Ok (VDict [ ("message", VStr "Profile saved successfully");
                ("daily_calorie_target", of_num target) ],
        {| profiles := update_one_upsert (profiles st) "user_id"
                         (UserProfile.user_id profile)
                         (profile_dict profile target now) oid;
           calorie_entries := calorie_entries st |}).
Proof. intros Hcalc. unfold create_or_update_profile. now rewrite Hcalc. Qed.

Lemma create_or_update_profile_ok
    (st : store) (profile : UserProfile.t) (oid : string) (now : Z)
    (response : value) (st' : store) :
  create_or_update_profile st profile oid now = Ok (response, st') ->
  exists target,
    calculate_daily_calories
      (UserProfile.age profile) (UserProfile.gender profile)
      (UserProfile.height profile) (UserProfile.weight profile)
      (UserProfile.activity_level profile) (UserProfile.goal_weight profile) = Ok target
    /\ response = VDict [ ("message", VStr "Profile saved successfully");
                          ("daily_calorie_target", of_num target) ]
    /\ st' = {| profiles := update_one_upsert (profiles st) "user_id"
                              (UserProfile.user_id profile)
                              (profile_dict profile target now) oid;
                calorie_entries := calorie_entries st |}.
Proof.
  unfold create_or_update_profile.
  destruct (calculate_daily_calories _ _ _ _ _ _) as [target|e]; cbn [bind]; [|discriminate].
  intros E. injection E as <- <-. eauto.
Qed.

(** X20: a profile read after a profile write returns what was written:
    every field of the request, the target the calculator gives for the
    request's biometrics (whatever target the client sent), and the
    instant of the write; the write's response names the same target. *)
Theorem get_profile_after_write
    (st : store) (profile : UserProfile.t) (oid : string) (now : Z)
    (response : value) (st' : store) :
  create_or_update_profile st profile oid now = Ok (response, st') ->
  exists (target : pynum) (doc : dict),
    calculate_daily_calories
      (UserProfile.age profile) (UserProfile.gender profile)
      (UserProfile.height profile) (UserProfile.weight profile)
      (UserProfile.activity_level profile) (UserProfile.goal_weight profile) = Ok target
    /\ response = VDict [ ("message", VStr "Profile saved successfully");
                          ("daily_calorie_target", of_num target) ]
    /\ get_profile st' (UserProfile.user_id profile) = Ok (VDict doc)
    /\ dict_get doc "user_id" = Some (VStr (UserProfile.user_id profile))
    /\ dict_get doc "name" = Some (VStr (UserProfile.name profile))
    /\ dict_get doc "age" = Some (VInt (UserProfile.age profile))
    /\ dict_get doc "gender" = Some (VStr (UserProfile.gender profile))
    /\ dict_get doc "height" = Some (VFloat (UserProfile.height profile))
    /\ dict_get doc "weight" = Some (VFloat (UserProfile.weight profile))
    /\ dict_get doc "activity_level" = Some (VStr (UserProfile.activity_level profile))
    /\ dict_get doc "goal_weight" = Some (VFloat (UserProfile.goal_weight profile))
    /\ dict_get doc "daily_calorie_target" = Some (of_num target)
    /\ dict_get doc "created_at" = Some (VDate now).
Proof.
  intros Hrun.
  destruct (create_or_update_profile_ok _ _ _ _ _ _ Hrun) as (target & Hcalc & -> & ->).
  destruct (profile_dict_wf profile target now) as (Hid & Hnd).
  destruct (find_one_upsert (profiles st) "user_id" (UserProfile.user_id profile)
              (profile_dict profile target now) oid) as (d & Hfind & Hget);
    [discriminate | exact Hid | exact Hnd | reflexivity |].
  exists target, (dict_pop d "_id"). split; [exact Hcalc|]. split; [reflexivity|]. split.
  { unfold get_profile. cbn [profiles]. now rewrite found_find_one, Hfind. }
  repeat split; (rewrite dict_get_pop_other by discriminate; apply Hget; reflexivity).
Qed.

(** X21: a profile write changes the profile of its user only: the
    stored entries are the same, and a profile read for any other user
    gives what it gave before. *)
Theorem create_or_update_profile_frame
    (st : store) (profile : UserProfile.t) (oid : string) (now : Z)
    (response : value) (st' : store) :
  create_or_update_profile st profile oid now = Ok (response, st') ->
  calorie_entries st' = calorie_entries st
  /\ (forall user_id, user_id <> UserProfile.user_id profile ->
                      get_profile st' user_id = get_profile st user_id).
Proof.
  intros Hrun.
  destruct (create_or_update_profile_ok _ _ _ _ _ _ Hrun) as (target & Hcalc & -> & ->).
  destruct (profile_dict_wf profile target now) as (Hid & Hnd).
  split; [reflexivity|]. intros user_id Hne. unfold get_profile. cbn [profiles].
  rewrite (find_one_upsert_other (profiles st) "user_id" (UserProfile.user_id profile) user_id
             (profile_dict profile target now) oid);
    [reflexivity | discriminate | exact Hid | exact Hnd | reflexivity | exact Hne].
Qed.

(** X22: writing the same profile again at the same instant changes
    nothing: the second write returns the same response and leaves the
    store of the first, whether the first inserted the profile or updated
    it. *)
Theorem create_or_update_profile_idempotent
    (st : store) (profile : UserProfile.t) (oid oid' : string) (now : Z)
    (response : value) (st' : store) :
  create_or_update_profile st profile oid now = Ok (response, st') ->
  create_or_update_profile st' profile oid' now = Ok (response, st').
Proof.
  intros Hrun.
  destruct (create_or_update_profile_ok _ _ _ _ _ _ Hrun) as (target & Hcalc & -> & ->).
  destruct (profile_dict_wf profile target now) as (Hid & Hnd).
  rewrite (create_or_update_profile_run _ profile oid' now target Hcalc).
  cbn [profiles calorie_entries].
  rewrite update_one_upsert_idempotent;
    [reflexivity | discriminate | exact Hid | exact Hnd | reflexivity].
Qed.

(** X24: a profile read fails with "Profile not found" (status 404) when
    the user has no profile; otherwise it returns the user's first stored
    profile without its [_id] and with every other field as stored. *)
Theorem get_profile_outcome (st : store) (user_id : string) :
  (Forall (fun p => dict_get p "user_id" <> Some (VStr user_id)) (profiles st) ->
   get_profile st user_id = Raise (HTTPException 404 "Profile not found"))
  /\ (forall profile,
        find_one (profiles st) "user_id" user_id = Some profile ->
        NoDup (map fst profile) ->
        exists doc,
          get_profile st user_id = Ok (VDict doc)
          /\ dict_get doc "_id" = None
          /\ (forall k, k <> "_id" -> dict_get doc k = dict_get profile k)).
Proof.
  split.
  - intros Hnone. unfold get_profile.
    now rewrite found_find_one, (find_one_none _ _ _ Hnone).
  - intros profile Hfind Hnd. exists (dict_pop profile "_id"). split.
    + unfold get_profile. now rewrite found_find_one, Hfind.
    + split; [now apply dict_get_pop_same|].
      intros k Hk. now apply dict_get_pop_other.
Qed.

Lemma get_profile_after_write_witness :
  exists (target : pynum) (doc : dict),
    calculate_daily_calories
      (UserProfile.age sample_profile) (UserProfile.gender sample_profile)
      (UserProfile.height sample_profile) (UserProfile.weight sample_profile)
      (UserProfile.activity_level sample_profile) (UserProfile.goal_weight sample_profile)
    = Ok target
    /\ written_response = VDict [ ("message", VStr "Profile saved successfully");
                                  ("daily_calorie_target", of_num target) ]
    /\ get_profile written_store (UserProfile.user_id sample_profile) = Ok (VDict doc)
    /\ dict_get doc "user_id" = Some (VStr (UserProfile.user_id sample_profile))
    /\ dict_get doc "name" = Some (VStr (UserProfile.name sample_profile))
    /\ dict_get doc "age" = Some (VInt (UserProfile.age sample_profile))
    /\ dict_get doc "gender" = Some (VStr (UserProfile.gender sample_profile))
    /\ dict_get doc "height" = Some (VFloat (UserProfile.height sample_profile))
    /\ dict_get doc "weight" = Some (VFloat (UserProfile.weight sample_profile))
    /\ dict_get doc "activity_level" = Some (VStr (UserProfile.activity_level sample_profile))
    /\ dict_get doc "goal_weight" = Some (VFloat (UserProfile.goal_weight sample_profile))
    /\ dict_get doc "daily_calorie_target" = Some (of_num target)
    /\ dict_get doc "created_at" = Some (VDate 1700000000000).
Proof.
  apply (get_profile_after_write sample_store sample_profile "65e1" 1700000000000
           written_response written_store).
  vm_compute. reflexivity.
Defined.

Lemma create_or_update_profile_frame_witness :
  calorie_entries written_store = calorie_entries sample_store
  /\ (forall user_id, user_id <> UserProfile.user_id sample_profile ->
                      get_profile written_store user_id = get_profile sample_store user_id).
Proof.
  apply (create_or_update_profile_frame sample_store sample_profile "65e1" 1700000000000
           written_response written_store).
  vm_compute. reflexivity.
Defined.

Lemma create_or_update_profile_idempotent_witness :
  create_or_update_profile written_store sample_profile "65e2" 1700000000000
  = Ok (written_response, written_store).
Proof.
  apply (create_or_update_profile_idempotent sample_store sample_profile "65e1" "65e2"
           1700000000000 written_response written_store).
  vm_compute. reflexivity.
Defined.

Lemma get_profile_outcome_witness :
  get_profile sample_store "u9" = Raise (HTTPException 404 "Profile not found")
  /\ exists doc,
       get_profile sample_store "u1" = Ok (VDict doc)
       /\ dict_get doc "_id" = None
       /\ (forall k, k <> "_id"
                     -> dict_get doc k
                        = dict_get [ ("_id", VObjectId "65e0"); ("user_id", VStr "u1");
                                     ("daily_calorie_target", VFloat 2000) ] k).
Proof.
  split.
  - apply (proj1 (get_profile_outcome sample_store "u9")).
    repeat constructor. cbn. discriminate.
  - apply (proj2 (get_profile_outcome sample_store "u1")).
    + reflexivity.
    + repeat constructor; cbn; intuition discriminate.
Defined.

(** ** The target a profile write leaves for the daily intake *)

Lemma calculate_daily_calories_float
    (age : Z) (gender : string) (height weight : float)
    (activity_level : string) (goal_weight : float) (target : pynum) :
  calculate_daily_calories age gender height weight activity_level goal_weight = Ok target ->
  exists t, float_of_value (of_num target) = Ok t.
Proof.
  intros Hcalc.
  destruct (int_to_float age) as [a|e] eqn:Ea.
  - rewrite (calculate_daily_calories_tdee _ _ _ _ _ _ a Ea) in Hcalc. cbv zeta in Hcalc.
    destruct (goal_weight <? weight)%float.
    + injection Hcalc as <-. unfold py_max.
      destruct (py_lt _ _); cbn; eauto.
    + destruct (weight <? goal_weight)%float; injection Hcalc as <-; cbn; eauto.
  - unfold calculate_daily_calories in Hcalc. rewrite Ea in Hcalc. discriminate.
Qed.

(** X23: after a profile write, the daily intake of that user reports
    the target the write computed and returned, on any day whose entries
    of the user have numeric calories. *)
Theorem get_daily_intake_after_write {ext : Externals}
    (st : store) (profile : UserProfile.t) (oid : string) (now : Z)
    (written : value) (st' : store) (date : option string) (now' day : Z) :
  create_or_update_profile st profile oid now = Ok (written, st') ->
  date_resolves date now' day ->
  Forall (fun e => exists x, float_of_value (dict_get_default e "calories" (VInt 0)) = Ok x)
         (day_cursor st (UserProfile.user_id profile) day) ->
  exists (target : value) (response : dict),
    written = VDict [ ("message", VStr "Profile saved successfully");
                      ("daily_calorie_target", target) ]
    /\ get_daily_intake st' (UserProfile.user_id profile) date now' = Ok (VDict response)
    /\ dict_get response "target_calories" = Some target.
Proof.
  intros Hrun Hday Hnum.
  destruct (create_or_update_profile_ok _ _ _ _ _ _ Hrun) as (target & Hcalc & -> & ->).
  destruct (profile_dict_wf profile target now) as (Hid & Hnd).
  destruct (find_one_upsert (profiles st) "user_id" (UserProfile.user_id profile)
              (profile_dict profile target now) oid) as (d & Hfind & Hget);
    [discriminate | exact Hid | exact Hnd | reflexivity |].
  destruct (calculate_daily_calories_float _ _ _ _ _ _ _ Hcalc) as (t & Ht).
  assert (Htarget : dict_get_default d "daily_calorie_target" (VInt 2000) = of_num target).
  { unfold dict_get_default. now rewrite (Hget "daily_calorie_target" (of_num target)). }
  set (st' := {| profiles := _; calorie_entries := calorie_entries st |}).
  destruct (get_daily_intake_run st' (UserProfile.user_id profile) date now' day d t)
    as (total & Hresp); [exact Hday | exact Hfind | now rewrite Htarget | exact Hnum |].
  eexists _, _. split; [reflexivity|]. split; [exact Hresp|].
  cbn. now rewrite Htarget.
Qed.

Lemma get_daily_intake_after_write_witness :
  exists (target : value) (response : dict),
    written_response = VDict [ ("message", VStr "Profile saved successfully");
                               ("daily_calorie_target", target) ]
    /\ get_daily_intake (ext := sample_externals (Raise (ProviderError "Request timed out")))
                        written_store (UserProfile.user_id sample_profile) None 1700000100000
       = Ok (VDict response)
    /\ dict_get response "target_calories" = Some target.
Proof.
  apply (get_daily_intake_after_write
           (ext := sample_externals (Raise (ProviderError "Request timed out")))
           sample_store sample_profile "65e1" 1700000000000
           written_response written_store None 1700000100000 (day_of 1700000100000)).
  - vm_compute. reflexivity.
  - reflexivity.
  - vm_compute. constructor.
Defined.

(** ** History: the missing profile *)

(** X25: for a user without a profile [get_history] fails with
    "User profile not found" (status 404), whatever the day count; the
    profile is looked up before the window is computed. *)
Theorem get_history_no_profile
    (globals : list string) (st : store) (user_id : string) (days now : Z) :
  Forall (fun p => dict_get p "user_id" <> Some (VStr user_id)) (profiles st) ->
  get_history globals st user_id days now
  = Raise (HTTPException 404 "User profile not found").
Proof.
  intros Hnone. unfold get_history.
  now rewrite found_find_one, (find_one_none _ _ _ Hnone).
Qed.

Lemma get_history_no_profile_witness :
  get_history server_globals history_store "u9" 7 history_now
  = Raise (HTTPException 404 "User profile not found").
Proof.
  apply (get_history_no_profile server_globals history_store "u9" 7 history_now).
  repeat constructor. cbn. discriminate.
Defined.

(** ** An analysed entry in the daily intake *)

Lemma analyze_food_run {ext : Externals}
    (st : store) (image_base64 user_id entry_id oid : string) (now : Z)
    (response : value) (st' : store) :
  analyze_food st image_base64 user_id entry_id oid now = Ok (response, st') ->
  exists (analysis : value) (food_name : string) (total confidence : value),
    response = VDict [ ("entry_id", VStr entry_id);
                       ("food_name", VStr food_name);
                       ("calories", total);
                       ("confidence", confidence);
                       ("analysis_details", analysis);
                       ("message", VStr "Food analyzed successfully") ]
    /\ st' = {| profiles := profiles st;
                calorie_entries :=
                  (calorie_entries st
                   ++ [ [ ("_id", VObjectId oid);
                          ("entry_id", VStr entry_id);
                          ("user_id", VStr user_id);
                          ("food_name", VStr food_name);
                          ("calories", total);
                          ("meal_type", VStr "unspecified");
                          ("image_base64", VStr image_base64);
                          ("timestamp", VDate now);
                          ("confidence", confidence);
                          ("analysis_details", analysis) ] ])%list |}.
Proof.
  unfold analyze_food.
  destruct (analyze_food_with_ai image_base64) as [analysis|e]; cbn [bind try_except];
    [|discriminate].
  destruct (normalize analysis) as [[[food_name total] confidence]|e];
    cbn [bind try_except]; [|discriminate].
  intros E. injection E as <- <-. unfold insert_one.
  now exists analysis, food_name, total, confidence.
Qed.

Lemma daily_loop_entries (cursor entries : list dict) (total : value)
    (entries' : list dict) (total' : value) :
  daily_loop cursor entries total = Ok (entries', total') ->
  entries' = (entries ++ map (fun e => dict_pop e "_id") cursor)%list.
Proof.
  revert entries total. induction cursor as [|e cursor IH]; intros entries total;
    cbn [daily_loop map].
  - intros E. injection E as <- _. now rewrite app_nil_r.
  - destruct (v_add total _) as [t|x]; cbn [bind]; [|discriminate].
    intros E. apply IH in E. now rewrite <- app_assoc in E.
Qed.

Lemma day_of_window (now : Z) :
  day_of now * ms_per_day <= now <= day_of now * ms_per_day + (ms_per_day - 1).
Proof.
  unfold day_of, ms_per_day.
  pose proof (Z.div_mod now 86400000 ltac:(lia)) as Hdm.
  pose proof (Z.mod_pos_bound now 86400000 ltac:(lia)) as Hb.
  lia.
Qed.

(** X27: an entry that [analyze_food] has stored for a user at some
    instant is listed by every successful daily intake of that user for
    the UTC day of that instant, without its [_id] and with the food name
    and the calories the analysis reported. *)
Theorem analyze_food_then_daily_intake {ext : Externals}
    (st : store) (image_base64 user_id entry_id oid : string) (now : Z)
    (response : value) (st' : store)
    (date : option string) (now' : Z) (intake : dict) :
  analyze_food st image_base64 user_id entry_id oid now = Ok (response, st') ->
  date_resolves date now' (day_of now) ->
  get_daily_intake st' user_id date now' = Ok (VDict intake) ->
  exists (reported : dict) (entries : list value) (entry : dict),
    response = VDict reported
    /\ dict_get intake "entries" = Some (VList entries)
    /\ In (VDict entry) entries
    /\ dict_get entry "_id" = None
    /\ dict_get entry "entry_id" = Some (VStr entry_id)
    /\ dict_get entry "timestamp" = Some (VDate now)
    /\ dict_get entry "food_name" = dict_get reported "food_name"
    /\ dict_get entry "calories" = dict_get reported "calories".
Proof.
  intros Hrun Hday Hintake.
  destruct (analyze_food_run _ _ _ _ _ _ _ _ Hrun)
    as (analysis & food_name & total & confidence & -> & ->).
  rewrite (get_daily_intake_day _ _ _ _ _ Hday), found_find_one in Hintake.
  cbn [profiles] in Hintake.
  destruct (find_one (profiles st) "user_id" user_id) as [profile|]; [|discriminate].
  match type of Hintake with
  | context [daily_loop ?c [] _] => set (cursor := c) in *
  end.
  destruct (daily_loop cursor [] (VFloat 0)) as [[entries total']|e] eqn:Hloop;
    cbn [bind] in Hintake; [|discriminate].
  apply daily_loop_entries in Hloop. cbn [app] in Hloop. subst entries.
  destruct (v_sub _ total') as [diff|e]; cbn [bind] in Hintake; [|discriminate].
  destruct (v_max0 diff) as [remaining|e]; cbn [bind] in Hintake; [|discriminate].
  injection Hintake as <-.
  set (stored := [ ("_id", VObjectId oid); ("entry_id", VStr entry_id);
                   ("user_id", VStr user_id); ("food_name", VStr food_name);
                   ("calories", total); ("meal_type", VStr "unspecified");
                   ("image_base64", VStr image_base64); ("timestamp", VDate now);
                   ("confidence", confidence); ("analysis_details", analysis) ]) in *.
  assert (Hin : In stored cursor).
  { unfold cursor, day_cursor.
    apply (Permutation_in stored (Permutation_sym (sort_by_timestamp_perm _))).
    apply filter_In. split.
    - cbn [calorie_entries]. apply in_or_app. right. now left.
    - unfold in_window, field_is.
      change (dict_get stored "user_id") with (Some (VStr user_id)).
      change (dict_get stored "timestamp") with (Some (VDate now)).
      cbv beta iota. rewrite String.eqb_refl. pose proof (day_of_window now) as Hw.
      apply andb_true_intro. split; [reflexivity|].
      apply andb_true_intro. split; apply Z.leb_le; lia. }
  eexists _, _, (dict_pop stored "_id").
  split; [reflexivity|]. split; [reflexivity|]. split.
  - apply in_map, (in_map (fun e => dict_pop e "_id")), Hin.
  - repeat split; reflexivity.
Qed.

Lemma analyze_food_then_daily_intake_witness :
  exists (reported : dict) (entries : list value) (entry : dict),
    fst analysed_sample = VDict reported
    /\ dict_get intake_after_analysis "entries" = Some (VList entries)
    /\ In (VDict entry) entries
    /\ dict_get entry "_id" = None
    /\ dict_get entry "entry_id" = Some (VStr "e7")
    /\ dict_get entry "timestamp" = Some (VDate history_now)
    /\ dict_get entry "food_name" = dict_get reported "food_name"
    /\ dict_get entry "calories" = dict_get reported "calories".
Proof.
  apply (analyze_food_then_daily_intake
           (ext := sample_externals (Raise (ProviderError "Request timed out")))
           sample_store "aGVsbG8=" "u1" "e7" "65f7" history_now
           (fst analysed_sample) (snd analysed_sample)
           None (history_now + 60000) intake_after_analysis).
  - vm_compute. reflexivity.
  - vm_compute. reflexivity.
  - vm_compute. reflexivity.
Defined.

(** ** The counters of the test harness *)

Lemma add_results_app (self : TestResults.t)
    (calls calls' : list (string * bool * string * value)) :
  add_results self (calls ++ calls')%list = add_results (add_results self calls) calls'.
Proof. apply fold_left_app. Qed.

Lemma add_results_counters (calls : list (string * bool * string * value))
    (self : TestResults.t) :
  TestResults.passed (add_results self calls)
  = TestResults.passed self + Z.of_nat (List.length (filter call_passed calls))
  /\ TestResults.failed (add_results self calls)
     = TestResults.failed self
       + Z.of_nat (List.length (filter (fun c => negb (call_passed c)) calls))
  /\ map (fun r => dict_get r "status") (TestResults.results (add_results self calls))
     = (map (fun r => dict_get r "status") (TestResults.results self)
        ++ map (fun c => Some (VStr (if call_passed c then "✅ PASS" else "❌ FAIL")))
             calls)%list.
Proof.
  revert self. induction calls as [|[[[test_name ok] message] details] calls IH];
    intros self.
  - cbn. rewrite app_nil_r. repeat split; lia.
  - change (add_results self ((test_name, ok, message, details) :: calls))
      with (add_results (fst (TestResults.add_result self test_name ok message details))
              calls).
    destruct (IH (fst (TestResults.add_result self test_name ok message details)))
      as (Hp & Hf & Hs).
    rewrite Hp, Hf, Hs. unfold TestResults.add_result.
    destruct ok; cbn [fst TestResults.passed TestResults.failed TestResults.results
                      filter call_passed negb List.length map];
      rewrite map_app, <- app_assoc; cbn [map app dict_get];
      repeat split; try lia; reflexivity.
Qed.

(** X28: after any sequence of [add_result] calls on a fresh
    [TestResults], [passed] is the number of calls made with a true flag,
    [failed] the number made with a false one, so that their sum, the
    total the summary prints, is the number of recorded results; the
    recorded statuses follow the calls in order; and the exit code of
    [main] is 0 exactly when no call reported a failure. *)
Theorem add_result_counters (calls : list (string * bool * string * value)) :
  let self := add_results TestResults.init calls in
  TestResults.passed self = Z.of_nat (List.length (filter call_passed calls))
  /\ TestResults.failed self
     = Z.of_nat (List.length (filter (fun c => negb (call_passed c)) calls))
  /\ TestResults.passed self + TestResults.failed self
     = Z.of_nat (List.length (TestResults.results self))
  /\ map (fun r => dict_get r "status") (TestResults.results self)
     = map (fun c => Some (VStr (if call_passed c then "✅ PASS" else "❌ FAIL"))) calls
  /\ (TestResults.exit_code self = 0 <-> forallb call_passed calls = true).
Proof.
  cbv zeta.
  destruct (add_results_counters calls TestResults.init) as (Hp & Hf & Hs).
  cbn [TestResults.init TestResults.passed TestResults.failed TestResults.results
       map app] in Hp, Hf, Hs.
  rewrite Z.add_0_l in Hp, Hf.
  split; [exact Hp|]. split; [exact Hf|]. split; [|split; [exact Hs|]].
  - rewrite <- (length_map (fun r => dict_get r "status")), Hs, length_map, Hp, Hf.
    clear. induction calls as [|c calls IH]; [reflexivity|].
    cbn [filter List.length]. destruct (call_passed c); cbn [negb List.length]; lia.
  - unfold TestResults.exit_code. rewrite Hf. clear.
    induction calls as [|c calls IH]; [cbn; tauto|].
    cbn [filter forallb]. destruct (call_passed c); cbn [negb andb].
    + exact IH.
    + cbn [List.length]. split; [|discriminate].
      destruct (Z.eqb_spec (Z.of_nat (S (List.length
                  (filter (fun c => negb (call_passed c)) calls)))) 0); [lia|discriminate].
Qed.
